(** * Bilanço tablosu: aggregation, validation, document building and
      spreadsheet reconciliation of [Bilanco-tablosu.py]

    The development embeds the pure core of the program: the schema
    [SECTION_FIELDS], the five section sums, [validate],
    [build_mongo_like_document], [build_excel_rows_from_data],
    [save_to_excel] and [load_from_excel]; of the entry form,
    [parse_float], [gui_collect_data], [format_tl], the balance test of
    [refresh], the payload of [save_to_mongo] and what [do_open_excel],
    [do_open_json] and [do_open_mongo] do to the form's variables.

    Python values are modelled as they are at run time: a [float] is an
    IEEE-754 binary64 number (Rocq's primitive floats), a [str] is a
    sequence of Unicode code points, a [dict] is an insertion-ordered
    association list, an openpyxl worksheet is a grid of cell values.
    Between [wb.save] and [load_workbook] the workbook is a file: what
    comes back is what openpyxl reads from what it wrote, a number from
    its numeral of sixteen significant digits. *)

From Stdlib Require Import String Ascii DecimalString.
From Stdlib Require Import Floats ZArith NArith Bool Lia List.
From Stdlib Require Import Permutation.
Import ListNotations.

Set Warnings "-inexact-float,-register-all".
Set Implicit Arguments.

(* ================================================================== *)
(** * Python strings *)
(* ================================================================== *)

(** A Python [str] is a sequence of code points. *)
Definition pystr := list N.

Definition pystr_eqb (a b : pystr) : bool :=
  (length a =? length b)%nat && forallb (fun p => N.eqb (fst p) (snd p)) (combine a b).

Definition pystr_in (x : pystr) (l : list pystr) : bool := existsb (pystr_eqb x) l.

(** Literals are written as UTF-8 text and decoded to code points. *)
Fixpoint utf8_decode (bs : list N) : pystr :=
  match bs with
  | [] => []
  | b0 :: r =>
    if (b0 <? 128)%N then b0 :: utf8_decode r
    else if (b0 <? 224)%N then
      match r with
      | b1 :: r1 => ((b0 - 192) * 64 + (b1 - 128))%N :: utf8_decode r1
      | _ => []
      end
    else if (b0 <? 240)%N then
      match r with
      | b1 :: b2 :: r2 =>
        ((b0 - 224) * 4096 + (b1 - 128) * 64 + (b2 - 128))%N :: utf8_decode r2
      | _ => []
      end
    else
      match r with
      | b1 :: b2 :: b3 :: r3 =>
        ((b0 - 240) * 262144 + (b1 - 128) * 4096 + (b2 - 128) * 64 + (b3 - 128))%N
          :: utf8_decode r3
      | _ => []
      end
  end.

Definition u (s : string) : pystr :=
  utf8_decode (map N_of_ascii (list_ascii_of_string s)).
Arguments u s%_string.

(** [ch.isspace()]: the code points Python treats as whitespace in
    [str.strip] and [str.split]. *)
Definition py_isspace (c : N) : bool :=
  ((9 <=? c) && (c <=? 13) || (28 <=? c) && (c <=? 32) || (c =? 133) || (c =? 160)
   || (c =? 5760) || (8192 <=? c) && (c <=? 8202) || (c =? 8232) || (c =? 8233)
   || (c =? 8239) || (c =? 8287) || (c =? 12288))%N.

Fixpoint lstrip (s : pystr) : pystr :=
  match s with
  | c :: r => if py_isspace c then lstrip r else s
  | [] => []
  end.

(** [s.strip()] *)
Definition strip (s : pystr) : pystr := rev (lstrip (rev (lstrip s))).

(** [s.split()]: the maximal runs of non-whitespace characters.
    [cur] holds the run being read, reversed. *)
Fixpoint split_ws (s : pystr) (cur : pystr) : list pystr :=
  match s with
  | [] => match cur with [] => [] | _ => [rev cur] end
  | c :: r =>
    if py_isspace c
    then match cur with [] => split_ws r [] | _ => rev cur :: split_ws r [] end
    else split_ws r (c :: cur)
  end.

Definition py_split (s : pystr) : list pystr := split_ws s [].

(** [sep.join(parts)] *)
Fixpoint py_join (sep : pystr) (parts : list pystr) : pystr :=
  match parts with
  | [] => []
  | [p] => p
  | p :: rest => p ++ sep ++ py_join sep rest
  end.

(** [s.endswith(suffix)] *)
Definition endswith (s suffix : pystr) : bool :=
  pystr_eqb (skipn (length s - length suffix) s) suffix.

(** ** The Unicode tables behind [str.lower] and [unicodedata]

    The tables are those of Python 3.11, whose [unicodedata] follows
    Unicode 14.0.0, for every code point: the simple lowercase mapping,
    the full compatibility decomposition and the canonical combining
    class.  Each is sorted by code point. *)

(** The code points with a lowercase mapping, as runs: the code points
    [first], [first + step], ... up to [last] map to [target],
    [target + step], ... *)
Definition LOWER_RUNS : list (N * N * N * N) :=
  [
   (65, 90, 1, 97); (192, 214, 1, 224); (216, 222, 1, 248); (256, 302, 2, 257);
   (306, 310, 2, 307); (313, 327, 2, 314); (330, 374, 2, 331); (376, 376, 1, 255);
   (377, 381, 2, 378); (385, 385, 1, 595); (386, 388, 2, 387); (390, 390, 1, 596);
   (391, 391, 1, 392); (393, 394, 1, 598); (395, 395, 1, 396); (398, 398, 1, 477);
   (399, 399, 1, 601); (400, 400, 1, 603); (401, 401, 1, 402); (403, 403, 1, 608);
   (404, 404, 1, 611); (406, 406, 1, 617); (407, 407, 1, 616); (408, 408, 1, 409);
   (412, 412, 1, 623); (413, 413, 1, 626); (415, 415, 1, 629); (416, 420, 2, 417);
   (422, 422, 1, 640); (423, 423, 1, 424); (425, 425, 1, 643); (428, 428, 1, 429);
   (430, 430, 1, 648); (431, 431, 1, 432); (433, 434, 1, 650); (435, 437, 2, 436);
   (439, 439, 1, 658); (440, 440, 1, 441); (444, 444, 1, 445); (452, 452, 1, 454);
   (453, 453, 1, 454); (455, 455, 1, 457); (456, 456, 1, 457); (458, 458, 1, 460);
   (459, 475, 2, 460); (478, 494, 2, 479); (497, 497, 1, 499); (498, 500, 2, 499);
   (502, 502, 1, 405); (503, 503, 1, 447); (504, 542, 2, 505); (544, 544, 1, 414);
   (546, 562, 2, 547); (570, 570, 1, 11365); (571, 571, 1, 572); (573, 573, 1, 410);
   (574, 574, 1, 11366); (577, 577, 1, 578); (579, 579, 1, 384); (580, 580, 1, 649);
   (581, 581, 1, 652); (582, 590, 2, 583); (880, 882, 2, 881); (886, 886, 1, 887);
   (895, 895, 1, 1011); (902, 902, 1, 940); (904, 906, 1, 941); (908, 908, 1, 972);
   (910, 911, 1, 973); (913, 929, 1, 945); (931, 939, 1, 963); (975, 975, 1, 983);
   (984, 1006, 2, 985); (1012, 1012, 1, 952); (1015, 1015, 1, 1016); (1017, 1017, 1, 1010);
   (1018, 1018, 1, 1019); (1021, 1023, 1, 891); (1024, 1039, 1, 1104); (1040, 1071, 1, 1072);
   (1120, 1152, 2, 1121); (1162, 1214, 2, 1163); (1216, 1216, 1, 1231); (1217, 1229, 2, 1218);
   (1232, 1326, 2, 1233); (1329, 1366, 1, 1377); (4256, 4293, 1, 11520);
   (4295, 4295, 1, 11559); (4301, 4301, 1, 11565); (5024, 5103, 1, 43888);
   (5104, 5109, 1, 5112); (7312, 7354, 1, 4304); (7357, 7359, 1, 4349); (7680, 7828, 2, 7681);
   (7838, 7838, 1, 223); (7840, 7934, 2, 7841); (7944, 7951, 1, 7936); (7960, 7965, 1, 7952);
   (7976, 7983, 1, 7968); (7992, 7999, 1, 7984); (8008, 8013, 1, 8000); (8025, 8031, 2, 8017);
   (8040, 8047, 1, 8032); (8072, 8079, 1, 8064); (8088, 8095, 1, 8080); (8104, 8111, 1, 8096);
   (8120, 8121, 1, 8112); (8122, 8123, 1, 8048); (8124, 8124, 1, 8115); (8136, 8139, 1, 8050);
   (8140, 8140, 1, 8131); (8152, 8153, 1, 8144); (8154, 8155, 1, 8054); (8168, 8169, 1, 8160);
   (8170, 8171, 1, 8058); (8172, 8172, 1, 8165); (8184, 8185, 1, 8056); (8186, 8187, 1, 8060);
   (8188, 8188, 1, 8179); (8486, 8486, 1, 969); (8490, 8490, 1, 107); (8491, 8491, 1, 229);
   (8498, 8498, 1, 8526); (8544, 8559, 1, 8560); (8579, 8579, 1, 8580); (9398, 9423, 1, 9424);
   (11264, 11311, 1, 11312); (11360, 11360, 1, 11361); (11362, 11362, 1, 619);
   (11363, 11363, 1, 7549); (11364, 11364, 1, 637); (11367, 11371, 2, 11368);
   (11373, 11373, 1, 593); (11374, 11374, 1, 625); (11375, 11375, 1, 592);
   (11376, 11376, 1, 594); (11378, 11378, 1, 11379); (11381, 11381, 1, 11382);
   (11390, 11391, 1, 575); (11392, 11490, 2, 11393); (11499, 11501, 2, 11500);
   (11506, 11506, 1, 11507); (42560, 42604, 2, 42561); (42624, 42650, 2, 42625);
   (42786, 42798, 2, 42787); (42802, 42862, 2, 42803); (42873, 42875, 2, 42874);
   (42877, 42877, 1, 7545); (42878, 42886, 2, 42879); (42891, 42891, 1, 42892);
   (42893, 42893, 1, 613); (42896, 42898, 2, 42897); (42902, 42920, 2, 42903);
   (42922, 42922, 1, 614); (42923, 42923, 1, 604); (42924, 42924, 1, 609);
   (42925, 42925, 1, 620); (42926, 42926, 1, 618); (42928, 42928, 1, 670);
   (42929, 42929, 1, 647); (42930, 42930, 1, 669); (42931, 42931, 1, 43859);
   (42932, 42946, 2, 42933); (42948, 42948, 1, 42900); (42949, 42949, 1, 642);
   (42950, 42950, 1, 7566); (42951, 42953, 2, 42952); (42960, 42960, 1, 42961);
   (42966, 42968, 2, 42967); (42997, 42997, 1, 42998); (65313, 65338, 1, 65345);
   (66560, 66599, 1, 66600); (66736, 66771, 1, 66776); (66928, 66938, 1, 66967);
   (66940, 66954, 1, 66979); (66956, 66962, 1, 66995); (66964, 66965, 1, 67003);
   (68736, 68786, 1, 68800); (71840, 71871, 1, 71872); (93760, 93791, 1, 93792);
   (125184, 125217, 1, 125218)
  ]%N.

Fixpoint lower_lookup (c : N) (runs : list (N * N * N * N)) : option N :=
  match runs with
  | [] => None
  | (first, last, step, target) :: rest =>
    if (c <? first)%N then None
    else if (c <=? last)%N then
      if ((c - first) mod step =? 0)%N then Some (target + (c - first))%N else None
    else lower_lookup c rest
  end.

(** The lowercase mapping of one code point; [İ] (U+0130) is the one
    character that maps to two. *)
Definition lower_char (c : N) : pystr :=
  if (c =? 304)%N then [105%N; 775%N]
  else match lower_lookup c LOWER_RUNS with
       | Some l => [l]
       | None => [c]
       end.

(** [s.lower()].  Python lowers a capital sigma to the final form
    U+03C2 at the end of a word and to U+03C3 elsewhere; here it is
    U+03C3 everywhere.  The program compares lowered text with ASCII
    words and, in [_normalize], replaces either sigma by a space, so the
    two forms are never told apart. *)
Definition py_lower (s : pystr) : pystr := flat_map lower_char s.

(** The code points whose decomposition is a single code point, as
    runs: [first] ... [last] decompose to [target], [target + 1], ... *)
Definition DECOMP_RUNS : list (N * N * N) :=
  [
   (7475, 7482, 71); (7517, 7519, 946); (7588, 7590, 616); (7598, 7601, 626);
   (7612, 7614, 656); (8308, 8313, 52); (8320, 8329, 48); (8342, 8345, 107); (8473, 8475, 80);
   (8501, 8504, 1488); (9312, 9320, 49); (9398, 9423, 65); (9424, 9449, 97);
   (12599, 12601, 4355); (12602, 12607, 4528); (12609, 12611, 4358); (12613, 12622, 4361);
   (12623, 12643, 4449); (12664, 12668, 4395); (12676, 12678, 4439); (12899, 12901, 4357);
   (12905, 12909, 4366); (13028, 13033, 12490); (13038, 13042, 12510); (13045, 13050, 12520);
   (13051, 13054, 12527); (64292, 64294, 1499); (65089, 65092, 12300); (65281, 65374, 33);
   (65413, 65418, 12490); (65423, 65427, 12510); (65430, 65435, 12520); (65447, 65449, 4355);
   (65450, 65455, 4528); (65457, 65459, 4358); (65461, 65470, 4361); (65474, 65479, 4449);
   (65482, 65487, 4455); (65490, 65495, 4461); (65498, 65500, 4467); (65513, 65516, 8592);
   (67510, 67512, 448); (119808, 119833, 65); (119834, 119859, 97); (119860, 119885, 65);
   (119886, 119892, 97); (119894, 119911, 105); (119912, 119937, 65); (119938, 119963, 97);
   (119977, 119980, 78); (119982, 119989, 83); (119990, 119993, 97); (119997, 120003, 104);
   (120005, 120015, 112); (120016, 120041, 65); (120042, 120067, 97); (120071, 120074, 68);
   (120077, 120084, 74); (120086, 120092, 83); (120094, 120119, 97); (120123, 120126, 68);
   (120128, 120132, 73); (120138, 120144, 83); (120146, 120171, 97); (120172, 120197, 65);
   (120198, 120223, 97); (120224, 120249, 65); (120250, 120275, 97); (120276, 120301, 65);
   (120302, 120327, 97); (120328, 120353, 65); (120354, 120379, 97); (120380, 120405, 65);
   (120406, 120431, 97); (120432, 120457, 65); (120458, 120483, 97); (120488, 120504, 913);
   (120506, 120512, 931); (120514, 120538, 945); (120546, 120562, 913); (120564, 120570, 931);
   (120572, 120596, 945); (120604, 120620, 913); (120622, 120628, 931); (120630, 120654, 945);
   (120662, 120678, 913); (120680, 120686, 931); (120688, 120712, 945); (120720, 120736, 913);
   (120738, 120744, 931); (120746, 120770, 945); (120782, 120791, 48); (120792, 120801, 48);
   (120802, 120811, 48); (120812, 120821, 48); (120822, 120831, 48); (126474, 126477, 1603);
   (126506, 126509, 1603); (126603, 126605, 1604); (126635, 126637, 1604);
   (127280, 127305, 65); (130032, 130041, 48)
  ]%N.

(** The other code points with a decomposition, Hangul syllables
    apart. *)
Definition DECOMP_TABLE : list (N * pystr) :=
  [
   (160, [32]); (168, [32; 776]); (170, [97]); (175, [32; 772]); (178, [50]); (179, [51]);
   (180, [32; 769]); (181, [956]); (184, [32; 807]); (185, [49]); (186, [111]);
   (188, [49; 8260; 52]); (189, [49; 8260; 50]); (190, [51; 8260; 52]); (192, [65; 768]);
   (193, [65; 769]); (194, [65; 770]); (195, [65; 771]); (196, [65; 776]); (197, [65; 778]);
   (199, [67; 807]); (200, [69; 768]); (201, [69; 769]); (202, [69; 770]); (203, [69; 776]);
   (204, [73; 768]); (205, [73; 769]); (206, [73; 770]); (207, [73; 776]); (209, [78; 771]);
   (210, [79; 768]); (211, [79; 769]); (212, [79; 770]); (213, [79; 771]); (214, [79; 776]);
   (217, [85; 768]); (218, [85; 769]); (219, [85; 770]); (220, [85; 776]); (221, [89; 769]);
   (224, [97; 768]); (225, [97; 769]); (226, [97; 770]); (227, [97; 771]); (228, [97; 776]);
   (229, [97; 778]); (231, [99; 807]); (232, [101; 768]); (233, [101; 769]); (234, [101; 770]);
   (235, [101; 776]); (236, [105; 768]); (237, [105; 769]); (238, [105; 770]);
   (239, [105; 776]); (241, [110; 771]); (242, [111; 768]); (243, [111; 769]);
   (244, [111; 770]); (245, [111; 771]); (246, [111; 776]); (249, [117; 768]);
   (250, [117; 769]); (251, [117; 770]); (252, [117; 776]); (253, [121; 769]);
   (255, [121; 776]); (256, [65; 772]); (257, [97; 772]); (258, [65; 774]); (259, [97; 774]);
   (260, [65; 808]); (261, [97; 808]); (262, [67; 769]); (263, [99; 769]); (264, [67; 770]);
   (265, [99; 770]); (266, [67; 775]); (267, [99; 775]); (268, [67; 780]); (269, [99; 780]);
   (270, [68; 780]); (271, [100; 780]); (274, [69; 772]); (275, [101; 772]); (276, [69; 774]);
   (277, [101; 774]); (278, [69; 775]); (279, [101; 775]); (280, [69; 808]); (281, [101; 808]);
   (282, [69; 780]); (283, [101; 780]); (284, [71; 770]); (285, [103; 770]); (286, [71; 774]);
   (287, [103; 774]); (288, [71; 775]); (289, [103; 775]); (290, [71; 807]); (291, [103; 807]);
   (292, [72; 770]); (293, [104; 770]); (296, [73; 771]); (297, [105; 771]); (298, [73; 772]);
   (299, [105; 772]); (300, [73; 774]); (301, [105; 774]); (302, [73; 808]); (303, [105; 808]);
   (304, [73; 775]); (306, [73; 74]); (307, [105; 106]); (308, [74; 770]); (309, [106; 770]);
   (310, [75; 807]); (311, [107; 807]); (313, [76; 769]); (314, [108; 769]); (315, [76; 807]);
   (316, [108; 807]); (317, [76; 780]); (318, [108; 780]); (319, [76; 183]); (320, [108; 183]);
   (323, [78; 769]); (324, [110; 769]); (325, [78; 807]); (326, [110; 807]); (327, [78; 780]);
   (328, [110; 780]); (329, [700; 110]); (332, [79; 772]); (333, [111; 772]); (334, [79; 774]);
   (335, [111; 774]); (336, [79; 779]); (337, [111; 779]); (340, [82; 769]); (341, [114; 769]);
   (342, [82; 807]); (343, [114; 807]); (344, [82; 780]); (345, [114; 780]); (346, [83; 769]);
   (347, [115; 769]); (348, [83; 770]); (349, [115; 770]); (350, [83; 807]); (351, [115; 807]);
   (352, [83; 780]); (353, [115; 780]); (354, [84; 807]); (355, [116; 807]); (356, [84; 780]);
   (357, [116; 780]); (360, [85; 771]); (361, [117; 771]); (362, [85; 772]); (363, [117; 772]);
   (364, [85; 774]); (365, [117; 774]); (366, [85; 778]); (367, [117; 778]); (368, [85; 779]);
   (369, [117; 779]); (370, [85; 808]); (371, [117; 808]); (372, [87; 770]); (373, [119; 770]);
   (374, [89; 770]); (375, [121; 770]); (376, [89; 776]); (377, [90; 769]); (378, [122; 769]);
   (379, [90; 775]); (380, [122; 775]); (381, [90; 780]); (382, [122; 780]); (383, [115]);
   (416, [79; 795]); (417, [111; 795]); (431, [85; 795]); (432, [117; 795]);
   (452, [68; 90; 780]); (453, [68; 122; 780]); (454, [100; 122; 780]); (455, [76; 74]);
   (456, [76; 106]); (457, [108; 106]); (458, [78; 74]); (459, [78; 106]); (460, [110; 106]);
   (461, [65; 780]); (462, [97; 780]); (463, [73; 780]); (464, [105; 780]); (465, [79; 780]);
   (466, [111; 780]); (467, [85; 780]); (468, [117; 780]); (469, [85; 776; 772]);
   (470, [117; 776; 772]); (471, [85; 776; 769]); (472, [117; 776; 769]);
   (473, [85; 776; 780]); (474, [117; 776; 780]); (475, [85; 776; 768]);
   (476, [117; 776; 768]); (478, [65; 776; 772]); (479, [97; 776; 772]); (480, [65; 775; 772]);
   (481, [97; 775; 772]); (482, [198; 772]); (483, [230; 772]); (486, [71; 780]);
   (487, [103; 780]); (488, [75; 780]); (489, [107; 780]); (490, [79; 808]); (491, [111; 808]);
   (492, [79; 808; 772]); (493, [111; 808; 772]); (494, [439; 780]); (495, [658; 780]);
   (496, [106; 780]); (497, [68; 90]); (498, [68; 122]); (499, [100; 122]); (500, [71; 769]);
   (501, [103; 769]); (504, [78; 768]); (505, [110; 768]); (506, [65; 778; 769]);
   (507, [97; 778; 769]); (508, [198; 769]); (509, [230; 769]); (510, [216; 769]);
   (511, [248; 769]); (512, [65; 783]); (513, [97; 783]); (514, [65; 785]); (515, [97; 785]);
   (516, [69; 783]); (517, [101; 783]); (518, [69; 785]); (519, [101; 785]); (520, [73; 783]);
   (521, [105; 783]); (522, [73; 785]); (523, [105; 785]); (524, [79; 783]); (525, [111; 783]);
   (526, [79; 785]); (527, [111; 785]); (528, [82; 783]); (529, [114; 783]); (530, [82; 785]);
   (531, [114; 785]); (532, [85; 783]); (533, [117; 783]); (534, [85; 785]); (535, [117; 785]);
   (536, [83; 806]); (537, [115; 806]); (538, [84; 806]); (539, [116; 806]); (542, [72; 780]);
   (543, [104; 780]); (550, [65; 775]); (551, [97; 775]); (552, [69; 807]); (553, [101; 807]);
   (554, [79; 776; 772]); (555, [111; 776; 772]); (556, [79; 771; 772]);
   (557, [111; 771; 772]); (558, [79; 775]); (559, [111; 775]); (560, [79; 775; 772]);
   (561, [111; 775; 772]); (562, [89; 772]); (563, [121; 772]); (688, [104]); (689, [614]);
   (690, [106]); (691, [114]); (692, [633]); (693, [635]); (694, [641]); (695, [119]);
   (696, [121]); (728, [32; 774]); (729, [32; 775]); (730, [32; 778]); (731, [32; 808]);
   (732, [32; 771]); (733, [32; 779]); (736, [611]); (737, [108]); (738, [115]); (739, [120]);
   (740, [661]); (832, [768]); (833, [769]); (835, [787]); (836, [776; 769]); (884, [697]);
   (890, [32; 837]); (894, [59]); (900, [32; 769]); (901, [32; 776; 769]); (902, [913; 769]);
   (903, [183]); (904, [917; 769]); (905, [919; 769]); (906, [921; 769]); (908, [927; 769]);
   (910, [933; 769]); (911, [937; 769]); (912, [953; 776; 769]); (938, [921; 776]);
   (939, [933; 776]); (940, [945; 769]); (941, [949; 769]); (942, [951; 769]);
   (943, [953; 769]); (944, [965; 776; 769]); (970, [953; 776]); (971, [965; 776]);
   (972, [959; 769]); (973, [965; 769]); (974, [969; 769]); (976, [946]); (977, [952]);
   (978, [933]); (979, [933; 769]); (980, [933; 776]); (981, [966]); (982, [960]);
   (1008, [954]); (1009, [961]); (1010, [962]); (1012, [920]); (1013, [949]); (1017, [931]);
   (1024, [1045; 768]); (1025, [1045; 776]); (1027, [1043; 769]); (1031, [1030; 776]);
   (1036, [1050; 769]); (1037, [1048; 768]); (1038, [1059; 774]); (1049, [1048; 774]);
   (1081, [1080; 774]); (1104, [1077; 768]); (1105, [1077; 776]); (1107, [1075; 769]);
   (1111, [1110; 776]); (1116, [1082; 769]); (1117, [1080; 768]); (1118, [1091; 774]);
   (1142, [1140; 783]); (1143, [1141; 783]); (1217, [1046; 774]); (1218, [1078; 774]);
   (1232, [1040; 774]); (1233, [1072; 774]); (1234, [1040; 776]); (1235, [1072; 776]);
   (1238, [1045; 774]); (1239, [1077; 774]); (1242, [1240; 776]); (1243, [1241; 776]);
   (1244, [1046; 776]); (1245, [1078; 776]); (1246, [1047; 776]); (1247, [1079; 776]);
   (1250, [1048; 772]); (1251, [1080; 772]); (1252, [1048; 776]); (1253, [1080; 776]);
   (1254, [1054; 776]); (1255, [1086; 776]); (1258, [1256; 776]); (1259, [1257; 776]);
   (1260, [1069; 776]); (1261, [1101; 776]); (1262, [1059; 772]); (1263, [1091; 772]);
   (1264, [1059; 776]); (1265, [1091; 776]); (1266, [1059; 779]); (1267, [1091; 779]);
   (1268, [1063; 776]); (1269, [1095; 776]); (1272, [1067; 776]); (1273, [1099; 776]);
   (1415, [1381; 1410]); (1570, [1575; 1619]); (1571, [1575; 1620]); (1572, [1608; 1620]);
   (1573, [1575; 1621]); (1574, [1610; 1620]); (1653, [1575; 1652]); (1654, [1608; 1652]);
   (1655, [1735; 1652]); (1656, [1610; 1652]); (1728, [1749; 1620]); (1730, [1729; 1620]);
   (1747, [1746; 1620]); (2345, [2344; 2364]); (2353, [2352; 2364]); (2356, [2355; 2364]);
   (2392, [2325; 2364]); (2393, [2326; 2364]); (2394, [2327; 2364]); (2395, [2332; 2364]);
   (2396, [2337; 2364]); (2397, [2338; 2364]); (2398, [2347; 2364]); (2399, [2351; 2364]);
   (2507, [2503; 2494]); (2508, [2503; 2519]); (2524, [2465; 2492]); (2525, [2466; 2492]);
   (2527, [2479; 2492]); (2611, [2610; 2620]); (2614, [2616; 2620]); (2649, [2582; 2620]);
   (2650, [2583; 2620]); (2651, [2588; 2620]); (2654, [2603; 2620]); (2888, [2887; 2902]);
   (2891, [2887; 2878]); (2892, [2887; 2903]); (2908, [2849; 2876]); (2909, [2850; 2876]);
   (2964, [2962; 3031]); (3018, [3014; 3006]); (3019, [3015; 3006]); (3020, [3014; 3031]);
   (3144, [3142; 3158]); (3264, [3263; 3285]); (3271, [3270; 3285]); (3272, [3270; 3286]);
   (3274, [3270; 3266]); (3275, [3270; 3266; 3285]); (3402, [3398; 3390]);
   (3403, [3399; 3390]); (3404, [3398; 3415]); (3546, [3545; 3530]); (3548, [3545; 3535]);
   (3549, [3545; 3535; 3530]); (3550, [3545; 3551]); (3635, [3661; 3634]);
   (3763, [3789; 3762]); (3804, [3755; 3737]); (3805, [3755; 3745]); (3852, [3851]);
   (3907, [3906; 4023]); (3917, [3916; 4023]); (3922, [3921; 4023]); (3927, [3926; 4023]);
   (3932, [3931; 4023]); (3945, [3904; 4021]); (3955, [3953; 3954]); (3957, [3953; 3956]);
   (3958, [4018; 3968]); (3959, [4018; 3953; 3968]); (3960, [4019; 3968]);
   (3961, [4019; 3953; 3968]); (3969, [3953; 3968]); (3987, [3986; 4023]);
   (3997, [3996; 4023]); (4002, [4001; 4023]); (4007, [4006; 4023]); (4012, [4011; 4023]);
   (4025, [3984; 4021]); (4134, [4133; 4142]); (4348, [4316]); (6918, [6917; 6965]);
   (6920, [6919; 6965]); (6922, [6921; 6965]); (6924, [6923; 6965]); (6926, [6925; 6965]);
   (6930, [6929; 6965]); (6971, [6970; 6965]); (6973, [6972; 6965]); (6976, [6974; 6965]);
   (6977, [6975; 6965]); (6979, [6978; 6965]); (7468, [65]); (7469, [198]); (7470, [66]);
   (7472, [68]); (7473, [69]); (7474, [398]); (7484, [79]); (7485, [546]); (7486, [80]);
   (7487, [82]); (7488, [84]); (7489, [85]); (7490, [87]); (7491, [97]); (7492, [592]);
   (7493, [593]); (7494, [7426]); (7495, [98]); (7496, [100]); (7497, [101]); (7498, [601]);
   (7499, [603]); (7500, [604]); (7501, [103]); (7503, [107]); (7504, [109]); (7505, [331]);
   (7506, [111]); (7507, [596]); (7508, [7446]); (7509, [7447]); (7510, [112]); (7511, [116]);
   (7512, [117]); (7513, [7453]); (7514, [623]); (7515, [118]); (7516, [7461]); (7520, [966]);
   (7521, [967]); (7522, [105]); (7523, [114]); (7524, [117]); (7525, [118]); (7526, [946]);
   (7527, [947]); (7528, [961]); (7529, [966]); (7530, [967]); (7544, [1085]); (7579, [594]);
   (7580, [99]); (7581, [597]); (7582, [240]); (7583, [604]); (7584, [102]); (7585, [607]);
   (7586, [609]); (7587, [613]); (7591, [7547]); (7592, [669]); (7593, [621]); (7594, [7557]);
   (7595, [671]); (7596, [625]); (7597, [624]); (7602, [632]); (7603, [642]); (7604, [643]);
   (7605, [427]); (7606, [649]); (7607, [650]); (7608, [7452]); (7609, [651]); (7610, [652]);
   (7611, [122]); (7615, [952]); (7680, [65; 805]); (7681, [97; 805]); (7682, [66; 775]);
   (7683, [98; 775]); (7684, [66; 803]); (7685, [98; 803]); (7686, [66; 817]);
   (7687, [98; 817]); (7688, [67; 807; 769]); (7689, [99; 807; 769]); (7690, [68; 775]);
   (7691, [100; 775]); (7692, [68; 803]); (7693, [100; 803]); (7694, [68; 817]);
   (7695, [100; 817]); (7696, [68; 807]); (7697, [100; 807]); (7698, [68; 813]);
   (7699, [100; 813]); (7700, [69; 772; 768]); (7701, [101; 772; 768]); (7702, [69; 772; 769]);
   (7703, [101; 772; 769]); (7704, [69; 813]); (7705, [101; 813]); (7706, [69; 816]);
   (7707, [101; 816]); (7708, [69; 807; 774]); (7709, [101; 807; 774]); (7710, [70; 775]);
   (7711, [102; 775]); (7712, [71; 772]); (7713, [103; 772]); (7714, [72; 775]);
   (7715, [104; 775]); (7716, [72; 803]); (7717, [104; 803]); (7718, [72; 776]);
   (7719, [104; 776]); (7720, [72; 807]); (7721, [104; 807]); (7722, [72; 814]);
   (7723, [104; 814]); (7724, [73; 816]); (7725, [105; 816]); (7726, [73; 776; 769]);
   (7727, [105; 776; 769]); (7728, [75; 769]); (7729, [107; 769]); (7730, [75; 803]);
   (7731, [107; 803]); (7732, [75; 817]); (7733, [107; 817]); (7734, [76; 803]);
   (7735, [108; 803]); (7736, [76; 803; 772]); (7737, [108; 803; 772]); (7738, [76; 817]);
   (7739, [108; 817]); (7740, [76; 813]); (7741, [108; 813]); (7742, [77; 769]);
   (7743, [109; 769]); (7744, [77; 775]); (7745, [109; 775]); (7746, [77; 803]);
   (7747, [109; 803]); (7748, [78; 775]); (7749, [110; 775]); (7750, [78; 803]);
   (7751, [110; 803]); (7752, [78; 817]); (7753, [110; 817]); (7754, [78; 813]);
   (7755, [110; 813]); (7756, [79; 771; 769]); (7757, [111; 771; 769]); (7758, [79; 771; 776]);
   (7759, [111; 771; 776]); (7760, [79; 772; 768]); (7761, [111; 772; 768]);
   (7762, [79; 772; 769]); (7763, [111; 772; 769]); (7764, [80; 769]); (7765, [112; 769]);
   (7766, [80; 775]); (7767, [112; 775]); (7768, [82; 775]); (7769, [114; 775]);
   (7770, [82; 803]); (7771, [114; 803]); (7772, [82; 803; 772]); (7773, [114; 803; 772]);
   (7774, [82; 817]); (7775, [114; 817]); (7776, [83; 775]); (7777, [115; 775]);
   (7778, [83; 803]); (7779, [115; 803]); (7780, [83; 769; 775]); (7781, [115; 769; 775]);
   (7782, [83; 780; 775]); (7783, [115; 780; 775]); (7784, [83; 803; 775]);
   (7785, [115; 803; 775]); (7786, [84; 775]); (7787, [116; 775]); (7788, [84; 803]);
   (7789, [116; 803]); (7790, [84; 817]); (7791, [116; 817]); (7792, [84; 813]);
   (7793, [116; 813]); (7794, [85; 804]); (7795, [117; 804]); (7796, [85; 816]);
   (7797, [117; 816]); (7798, [85; 813]); (7799, [117; 813]); (7800, [85; 771; 769]);
   (7801, [117; 771; 769]); (7802, [85; 772; 776]); (7803, [117; 772; 776]); (7804, [86; 771]);
   (7805, [118; 771]); (7806, [86; 803]); (7807, [118; 803]); (7808, [87; 768]);
   (7809, [119; 768]); (7810, [87; 769]); (7811, [119; 769]); (7812, [87; 776]);
   (7813, [119; 776]); (7814, [87; 775]); (7815, [119; 775]); (7816, [87; 803]);
   (7817, [119; 803]); (7818, [88; 775]); (7819, [120; 775]); (7820, [88; 776]);
   (7821, [120; 776]); (7822, [89; 775]); (7823, [121; 775]); (7824, [90; 770]);
   (7825, [122; 770]); (7826, [90; 803]); (7827, [122; 803]); (7828, [90; 817]);
   (7829, [122; 817]); (7830, [104; 817]); (7831, [116; 776]); (7832, [119; 778]);
   (7833, [121; 778]); (7834, [97; 702]); (7835, [115; 775]); (7840, [65; 803]);
   (7841, [97; 803]); (7842, [65; 777]); (7843, [97; 777]); (7844, [65; 770; 769]);
   (7845, [97; 770; 769]); (7846, [65; 770; 768]); (7847, [97; 770; 768]);
   (7848, [65; 770; 777]); (7849, [97; 770; 777]); (7850, [65; 770; 771]);
   (7851, [97; 770; 771]); (7852, [65; 803; 770]); (7853, [97; 803; 770]);
   (7854, [65; 774; 769]); (7855, [97; 774; 769]); (7856, [65; 774; 768]);
   (7857, [97; 774; 768]); (7858, [65; 774; 777]); (7859, [97; 774; 777]);
   (7860, [65; 774; 771]); (7861, [97; 774; 771]); (7862, [65; 803; 774]);
   (7863, [97; 803; 774]); (7864, [69; 803]); (7865, [101; 803]); (7866, [69; 777]);
   (7867, [101; 777]); (7868, [69; 771]); (7869, [101; 771]); (7870, [69; 770; 769]);
   (7871, [101; 770; 769]); (7872, [69; 770; 768]); (7873, [101; 770; 768]);
   (7874, [69; 770; 777]); (7875, [101; 770; 777]); (7876, [69; 770; 771]);
   (7877, [101; 770; 771]); (7878, [69; 803; 770]); (7879, [101; 803; 770]); (7880, [73; 777]);
   (7881, [105; 777]); (7882, [73; 803]); (7883, [105; 803]); (7884, [79; 803]);
   (7885, [111; 803]); (7886, [79; 777]); (7887, [111; 777]); (7888, [79; 770; 769]);
   (7889, [111; 770; 769]); (7890, [79; 770; 768]); (7891, [111; 770; 768]);
   (7892, [79; 770; 777]); (7893, [111; 770; 777]); (7894, [79; 770; 771]);
   (7895, [111; 770; 771]); (7896, [79; 803; 770]); (7897, [111; 803; 770]);
   (7898, [79; 795; 769]); (7899, [111; 795; 769]); (7900, [79; 795; 768]);
   (7901, [111; 795; 768]); (7902, [79; 795; 777]); (7903, [111; 795; 777]);
   (7904, [79; 795; 771]); (7905, [111; 795; 771]); (7906, [79; 795; 803]);
   (7907, [111; 795; 803]); (7908, [85; 803]); (7909, [117; 803]); (7910, [85; 777]);
   (7911, [117; 777]); (7912, [85; 795; 769]); (7913, [117; 795; 769]); (7914, [85; 795; 768]);
   (7915, [117; 795; 768]); (7916, [85; 795; 777]); (7917, [117; 795; 777]);
   (7918, [85; 795; 771]); (7919, [117; 795; 771]); (7920, [85; 795; 803]);
   (7921, [117; 795; 803]); (7922, [89; 768]); (7923, [121; 768]); (7924, [89; 803]);
   (7925, [121; 803]); (7926, [89; 777]); (7927, [121; 777]); (7928, [89; 771]);
   (7929, [121; 771]); (7936, [945; 787]); (7937, [945; 788]); (7938, [945; 787; 768]);
   (7939, [945; 788; 768]); (7940, [945; 787; 769]); (7941, [945; 788; 769]);
   (7942, [945; 787; 834]); (7943, [945; 788; 834]); (7944, [913; 787]); (7945, [913; 788]);
   (7946, [913; 787; 768]); (7947, [913; 788; 768]); (7948, [913; 787; 769]);
   (7949, [913; 788; 769]); (7950, [913; 787; 834]); (7951, [913; 788; 834]);
   (7952, [949; 787]); (7953, [949; 788]); (7954, [949; 787; 768]); (7955, [949; 788; 768]);
   (7956, [949; 787; 769]); (7957, [949; 788; 769]); (7960, [917; 787]); (7961, [917; 788]);
   (7962, [917; 787; 768]); (7963, [917; 788; 768]); (7964, [917; 787; 769]);
   (7965, [917; 788; 769]); (7968, [951; 787]); (7969, [951; 788]); (7970, [951; 787; 768]);
   (7971, [951; 788; 768]); (7972, [951; 787; 769]); (7973, [951; 788; 769]);
   (7974, [951; 787; 834]); (7975, [951; 788; 834]); (7976, [919; 787]); (7977, [919; 788]);
   (7978, [919; 787; 768]); (7979, [919; 788; 768]); (7980, [919; 787; 769]);
   (7981, [919; 788; 769]); (7982, [919; 787; 834]); (7983, [919; 788; 834]);
   (7984, [953; 787]); (7985, [953; 788]); (7986, [953; 787; 768]); (7987, [953; 788; 768]);
   (7988, [953; 787; 769]); (7989, [953; 788; 769]); (7990, [953; 787; 834]);
   (7991, [953; 788; 834]); (7992, [921; 787]); (7993, [921; 788]); (7994, [921; 787; 768]);
   (7995, [921; 788; 768]); (7996, [921; 787; 769]); (7997, [921; 788; 769]);
   (7998, [921; 787; 834]); (7999, [921; 788; 834]); (8000, [959; 787]); (8001, [959; 788]);
   (8002, [959; 787; 768]); (8003, [959; 788; 768]); (8004, [959; 787; 769]);
   (8005, [959; 788; 769]); (8008, [927; 787]); (8009, [927; 788]); (8010, [927; 787; 768]);
   (8011, [927; 788; 768]); (8012, [927; 787; 769]); (8013, [927; 788; 769]);
   (8016, [965; 787]); (8017, [965; 788]); (8018, [965; 787; 768]); (8019, [965; 788; 768]);
   (8020, [965; 787; 769]); (8021, [965; 788; 769]); (8022, [965; 787; 834]);
   (8023, [965; 788; 834]); (8025, [933; 788]); (8027, [933; 788; 768]);
   (8029, [933; 788; 769]); (8031, [933; 788; 834]); (8032, [969; 787]); (8033, [969; 788]);
   (8034, [969; 787; 768]); (8035, [969; 788; 768]); (8036, [969; 787; 769]);
   (8037, [969; 788; 769]); (8038, [969; 787; 834]); (8039, [969; 788; 834]);
   (8040, [937; 787]); (8041, [937; 788]); (8042, [937; 787; 768]); (8043, [937; 788; 768]);
   (8044, [937; 787; 769]); (8045, [937; 788; 769]); (8046, [937; 787; 834]);
   (8047, [937; 788; 834]); (8048, [945; 768]); (8049, [945; 769]); (8050, [949; 768]);
   (8051, [949; 769]); (8052, [951; 768]); (8053, [951; 769]); (8054, [953; 768]);
   (8055, [953; 769]); (8056, [959; 768]); (8057, [959; 769]); (8058, [965; 768]);
   (8059, [965; 769]); (8060, [969; 768]); (8061, [969; 769]); (8064, [945; 787; 837]);
   (8065, [945; 788; 837]); (8066, [945; 787; 768; 837]); (8067, [945; 788; 768; 837]);
   (8068, [945; 787; 769; 837]); (8069, [945; 788; 769; 837]); (8070, [945; 787; 834; 837]);
   (8071, [945; 788; 834; 837]); (8072, [913; 787; 837]); (8073, [913; 788; 837]);
   (8074, [913; 787; 768; 837]); (8075, [913; 788; 768; 837]); (8076, [913; 787; 769; 837]);
   (8077, [913; 788; 769; 837]); (8078, [913; 787; 834; 837]); (8079, [913; 788; 834; 837]);
   (8080, [951; 787; 837]); (8081, [951; 788; 837]); (8082, [951; 787; 768; 837]);
   (8083, [951; 788; 768; 837]); (8084, [951; 787; 769; 837]); (8085, [951; 788; 769; 837]);
   (8086, [951; 787; 834; 837]); (8087, [951; 788; 834; 837]); (8088, [919; 787; 837]);
   (8089, [919; 788; 837]); (8090, [919; 787; 768; 837]); (8091, [919; 788; 768; 837]);
   (8092, [919; 787; 769; 837]); (8093, [919; 788; 769; 837]); (8094, [919; 787; 834; 837]);
   (8095, [919; 788; 834; 837]); (8096, [969; 787; 837]); (8097, [969; 788; 837]);
   (8098, [969; 787; 768; 837]); (8099, [969; 788; 768; 837]); (8100, [969; 787; 769; 837]);
   (8101, [969; 788; 769; 837]); (8102, [969; 787; 834; 837]); (8103, [969; 788; 834; 837]);
   (8104, [937; 787; 837]); (8105, [937; 788; 837]); (8106, [937; 787; 768; 837]);
   (8107, [937; 788; 768; 837]); (8108, [937; 787; 769; 837]); (8109, [937; 788; 769; 837]);
   (8110, [937; 787; 834; 837]); (8111, [937; 788; 834; 837]); (8112, [945; 774]);
   (8113, [945; 772]); (8114, [945; 768; 837]); (8115, [945; 837]); (8116, [945; 769; 837]);
   (8118, [945; 834]); (8119, [945; 834; 837]); (8120, [913; 774]); (8121, [913; 772]);
   (8122, [913; 768]); (8123, [913; 769]); (8124, [913; 837]); (8125, [32; 787]);
   (8126, [953]); (8127, [32; 787]); (8128, [32; 834]); (8129, [32; 776; 834]);
   (8130, [951; 768; 837]); (8131, [951; 837]); (8132, [951; 769; 837]); (8134, [951; 834]);
   (8135, [951; 834; 837]); (8136, [917; 768]); (8137, [917; 769]); (8138, [919; 768]);
   (8139, [919; 769]); (8140, [919; 837]); (8141, [32; 787; 768]); (8142, [32; 787; 769]);
   (8143, [32; 787; 834]); (8144, [953; 774]); (8145, [953; 772]); (8146, [953; 776; 768]);
   (8147, [953; 776; 769]); (8150, [953; 834]); (8151, [953; 776; 834]); (8152, [921; 774]);
   (8153, [921; 772]); (8154, [921; 768]); (8155, [921; 769]); (8157, [32; 788; 768]);
   (8158, [32; 788; 769]); (8159, [32; 788; 834]); (8160, [965; 774]); (8161, [965; 772]);
   (8162, [965; 776; 768]); (8163, [965; 776; 769]); (8164, [961; 787]); (8165, [961; 788]);
   (8166, [965; 834]); (8167, [965; 776; 834]); (8168, [933; 774]); (8169, [933; 772]);
   (8170, [933; 768]); (8171, [933; 769]); (8172, [929; 788]); (8173, [32; 776; 768]);
   (8174, [32; 776; 769]); (8175, [96]); (8178, [969; 768; 837]); (8179, [969; 837]);
   (8180, [969; 769; 837]); (8182, [969; 834]); (8183, [969; 834; 837]); (8184, [927; 768]);
   (8185, [927; 769]); (8186, [937; 768]); (8187, [937; 769]); (8188, [937; 837]);
   (8189, [32; 769]); (8190, [32; 788]); (8192, [32]); (8193, [32]); (8194, [32]);
   (8195, [32]); (8196, [32]); (8197, [32]); (8198, [32]); (8199, [32]); (8200, [32]);
   (8201, [32]); (8202, [32]); (8209, [8208]); (8215, [32; 819]); (8228, [46]);
   (8229, [46; 46]); (8230, [46; 46; 46]); (8239, [32]); (8243, [8242; 8242]);
   (8244, [8242; 8242; 8242]); (8246, [8245; 8245]); (8247, [8245; 8245; 8245]);
   (8252, [33; 33]); (8254, [32; 773]); (8263, [63; 63]); (8264, [63; 33]); (8265, [33; 63]);
   (8279, [8242; 8242; 8242; 8242]); (8287, [32]); (8304, [48]); (8305, [105]); (8314, [43]);
   (8315, [8722]); (8316, [61]); (8317, [40]); (8318, [41]); (8319, [110]); (8330, [43]);
   (8331, [8722]); (8332, [61]); (8333, [40]); (8334, [41]); (8336, [97]); (8337, [101]);
   (8338, [111]); (8339, [120]); (8340, [601]); (8341, [104]); (8346, [112]); (8347, [115]);
   (8348, [116]); (8360, [82; 115]); (8448, [97; 47; 99]); (8449, [97; 47; 115]); (8450, [67]);
   (8451, [176; 67]); (8453, [99; 47; 111]); (8454, [99; 47; 117]); (8455, [400]);
   (8457, [176; 70]); (8458, [103]); (8459, [72]); (8460, [72]); (8461, [72]); (8462, [104]);
   (8463, [295]); (8464, [73]); (8465, [73]); (8466, [76]); (8467, [108]); (8469, [78]);
   (8470, [78; 111]); (8476, [82]); (8477, [82]); (8480, [83; 77]); (8481, [84; 69; 76]);
   (8482, [84; 77]); (8484, [90]); (8486, [937]); (8488, [90]); (8490, [75]);
   (8491, [65; 778]); (8492, [66]); (8493, [67]); (8495, [101]); (8496, [69]); (8497, [70]);
   (8499, [77]); (8500, [111]); (8505, [105]); (8507, [70; 65; 88]); (8508, [960]);
   (8509, [947]); (8510, [915]); (8511, [928]); (8512, [8721]); (8517, [68]); (8518, [100]);
   (8519, [101]); (8520, [105]); (8521, [106]); (8528, [49; 8260; 55]); (8529, [49; 8260; 57]);
   (8530, [49; 8260; 49; 48]); (8531, [49; 8260; 51]); (8532, [50; 8260; 51]);
   (8533, [49; 8260; 53]); (8534, [50; 8260; 53]); (8535, [51; 8260; 53]);
   (8536, [52; 8260; 53]); (8537, [49; 8260; 54]); (8538, [53; 8260; 54]);
   (8539, [49; 8260; 56]); (8540, [51; 8260; 56]); (8541, [53; 8260; 56]);
   (8542, [55; 8260; 56]); (8543, [49; 8260]); (8544, [73]); (8545, [73; 73]);
   (8546, [73; 73; 73]); (8547, [73; 86]); (8548, [86]); (8549, [86; 73]);
   (8550, [86; 73; 73]); (8551, [86; 73; 73; 73]); (8552, [73; 88]); (8553, [88]);
   (8554, [88; 73]); (8555, [88; 73; 73]); (8556, [76]); (8557, [67]); (8558, [68]);
   (8559, [77]); (8560, [105]); (8561, [105; 105]); (8562, [105; 105; 105]);
   (8563, [105; 118]); (8564, [118]); (8565, [118; 105]); (8566, [118; 105; 105]);
   (8567, [118; 105; 105; 105]); (8568, [105; 120]); (8569, [120]); (8570, [120; 105]);
   (8571, [120; 105; 105]); (8572, [108]); (8573, [99]); (8574, [100]); (8575, [109]);
   (8585, [48; 8260; 51]); (8602, [8592; 824]); (8603, [8594; 824]); (8622, [8596; 824]);
   (8653, [8656; 824]); (8654, [8660; 824]); (8655, [8658; 824]); (8708, [8707; 824]);
   (8713, [8712; 824]); (8716, [8715; 824]); (8740, [8739; 824]); (8742, [8741; 824]);
   (8748, [8747; 8747]); (8749, [8747; 8747; 8747]); (8751, [8750; 8750]);
   (8752, [8750; 8750; 8750]); (8769, [8764; 824]); (8772, [8771; 824]); (8775, [8773; 824]);
   (8777, [8776; 824]); (8800, [61; 824]); (8802, [8801; 824]); (8813, [8781; 824]);
   (8814, [60; 824]); (8815, [62; 824]); (8816, [8804; 824]); (8817, [8805; 824]);
   (8820, [8818; 824]); (8821, [8819; 824]); (8824, [8822; 824]); (8825, [8823; 824]);
   (8832, [8826; 824]); (8833, [8827; 824]); (8836, [8834; 824]); (8837, [8835; 824]);
   (8840, [8838; 824]); (8841, [8839; 824]); (8876, [8866; 824]); (8877, [8872; 824]);
   (8878, [8873; 824]); (8879, [8875; 824]); (8928, [8828; 824]); (8929, [8829; 824]);
   (8930, [8849; 824]); (8931, [8850; 824]); (8938, [8882; 824]); (8939, [8883; 824]);
   (8940, [8884; 824]); (8941, [8885; 824]); (9001, [12296]); (9002, [12297]);
   (9321, [49; 48]); (9322, [49; 49]); (9323, [49; 50]); (9324, [49; 51]); (9325, [49; 52]);
   (9326, [49; 53]); (9327, [49; 54]); (9328, [49; 55]); (9329, [49; 56]); (9330, [49; 57]);
   (9331, [50; 48]); (9332, [40; 49; 41]); (9333, [40; 50; 41]); (9334, [40; 51; 41]);
   (9335, [40; 52; 41]); (9336, [40; 53; 41]); (9337, [40; 54; 41]); (9338, [40; 55; 41]);
   (9339, [40; 56; 41]); (9340, [40; 57; 41]); (9341, [40; 49; 48; 41]);
   (9342, [40; 49; 49; 41]); (9343, [40; 49; 50; 41]); (9344, [40; 49; 51; 41]);
   (9345, [40; 49; 52; 41]); (9346, [40; 49; 53; 41]); (9347, [40; 49; 54; 41]);
   (9348, [40; 49; 55; 41]); (9349, [40; 49; 56; 41]); (9350, [40; 49; 57; 41]);
   (9351, [40; 50; 48; 41]); (9352, [49; 46]); (9353, [50; 46]); (9354, [51; 46]);
   (9355, [52; 46]); (9356, [53; 46]); (9357, [54; 46]); (9358, [55; 46]); (9359, [56; 46]);
   (9360, [57; 46]); (9361, [49; 48; 46]); (9362, [49; 49; 46]); (9363, [49; 50; 46]);
   (9364, [49; 51; 46]); (9365, [49; 52; 46]); (9366, [49; 53; 46]); (9367, [49; 54; 46]);
   (9368, [49; 55; 46]); (9369, [49; 56; 46]); (9370, [49; 57; 46]); (9371, [50; 48; 46]);
   (9372, [40; 97; 41]); (9373, [40; 98; 41]); (9374, [40; 99; 41]); (9375, [40; 100; 41]);
   (9376, [40; 101; 41]); (9377, [40; 102; 41]); (9378, [40; 103; 41]); (9379, [40; 104; 41]);
   (9380, [40; 105; 41]); (9381, [40; 106; 41]); (9382, [40; 107; 41]); (9383, [40; 108; 41]);
   (9384, [40; 109; 41]); (9385, [40; 110; 41]); (9386, [40; 111; 41]); (9387, [40; 112; 41]);
   (9388, [40; 113; 41]); (9389, [40; 114; 41]); (9390, [40; 115; 41]); (9391, [40; 116; 41]);
   (9392, [40; 117; 41]); (9393, [40; 118; 41]); (9394, [40; 119; 41]); (9395, [40; 120; 41]);
   (9396, [40; 121; 41]); (9397, [40; 122; 41]); (9450, [48]);
   (10764, [8747; 8747; 8747; 8747]); (10868, [58; 58; 61]); (10869, [61; 61]);
   (10870, [61; 61; 61]); (10972, [10973; 824]); (11388, [106]); (11389, [86]);
   (11631, [11617]); (11935, [27597]); (12019, [40863]); (12032, [19968]); (12033, [20008]);
   (12034, [20022]); (12035, [20031]); (12036, [20057]); (12037, [20101]); (12038, [20108]);
   (12039, [20128]); (12040, [20154]); (12041, [20799]); (12042, [20837]); (12043, [20843]);
   (12044, [20866]); (12045, [20886]); (12046, [20907]); (12047, [20960]); (12048, [20981]);
   (12049, [20992]); (12050, [21147]); (12051, [21241]); (12052, [21269]); (12053, [21274]);
   (12054, [21304]); (12055, [21313]); (12056, [21340]); (12057, [21353]); (12058, [21378]);
   (12059, [21430]); (12060, [21448]); (12061, [21475]); (12062, [22231]); (12063, [22303]);
   (12064, [22763]); (12065, [22786]); (12066, [22794]); (12067, [22805]); (12068, [22823]);
   (12069, [22899]); (12070, [23376]); (12071, [23424]); (12072, [23544]); (12073, [23567]);
   (12074, [23586]); (12075, [23608]); (12076, [23662]); (12077, [23665]); (12078, [24027]);
   (12079, [24037]); (12080, [24049]); (12081, [24062]); (12082, [24178]); (12083, [24186]);
   (12084, [24191]); (12085, [24308]); (12086, [24318]); (12087, [24331]); (12088, [24339]);
   (12089, [24400]); (12090, [24417]); (12091, [24435]); (12092, [24515]); (12093, [25096]);
   (12094, [25142]); (12095, [25163]); (12096, [25903]); (12097, [25908]); (12098, [25991]);
   (12099, [26007]); (12100, [26020]); (12101, [26041]); (12102, [26080]); (12103, [26085]);
   (12104, [26352]); (12105, [26376]); (12106, [26408]); (12107, [27424]); (12108, [27490]);
   (12109, [27513]); (12110, [27571]); (12111, [27595]); (12112, [27604]); (12113, [27611]);
   (12114, [27663]); (12115, [27668]); (12116, [27700]); (12117, [28779]); (12118, [29226]);
   (12119, [29238]); (12120, [29243]); (12121, [29247]); (12122, [29255]); (12123, [29273]);
   (12124, [29275]); (12125, [29356]); (12126, [29572]); (12127, [29577]); (12128, [29916]);
   (12129, [29926]); (12130, [29976]); (12131, [29983]); (12132, [29992]); (12133, [30000]);
   (12134, [30091]); (12135, [30098]); (12136, [30326]); (12137, [30333]); (12138, [30382]);
   (12139, [30399]); (12140, [30446]); (12141, [30683]); (12142, [30690]); (12143, [30707]);
   (12144, [31034]); (12145, [31160]); (12146, [31166]); (12147, [31348]); (12148, [31435]);
   (12149, [31481]); (12150, [31859]); (12151, [31992]); (12152, [32566]); (12153, [32593]);
   (12154, [32650]); (12155, [32701]); (12156, [32769]); (12157, [32780]); (12158, [32786]);
   (12159, [32819]); (12160, [32895]); (12161, [32905]); (12162, [33251]); (12163, [33258]);
   (12164, [33267]); (12165, [33276]); (12166, [33292]); (12167, [33307]); (12168, [33311]);
   (12169, [33390]); (12170, [33394]); (12171, [33400]); (12172, [34381]); (12173, [34411]);
   (12174, [34880]); (12175, [34892]); (12176, [34915]); (12177, [35198]); (12178, [35211]);
   (12179, [35282]); (12180, [35328]); (12181, [35895]); (12182, [35910]); (12183, [35925]);
   (12184, [35960]); (12185, [35997]); (12186, [36196]); (12187, [36208]); (12188, [36275]);
   (12189, [36523]); (12190, [36554]); (12191, [36763]); (12192, [36784]); (12193, [36789]);
   (12194, [37009]); (12195, [37193]); (12196, [37318]); (12197, [37324]); (12198, [37329]);
   (12199, [38263]); (12200, [38272]); (12201, [38428]); (12202, [38582]); (12203, [38585]);
   (12204, [38632]); (12205, [38737]); (12206, [38750]); (12207, [38754]); (12208, [38761]);
   (12209, [38859]); (12210, [38893]); (12211, [38899]); (12212, [38913]); (12213, [39080]);
   (12214, [39131]); (12215, [39135]); (12216, [39318]); (12217, [39321]); (12218, [39340]);
   (12219, [39592]); (12220, [39640]); (12221, [39647]); (12222, [39717]); (12223, [39727]);
   (12224, [39730]); (12225, [39740]); (12226, [39770]); (12227, [40165]); (12228, [40565]);
   (12229, [40575]); (12230, [40613]); (12231, [40635]); (12232, [40643]); (12233, [40653]);
   (12234, [40657]); (12235, [40697]); (12236, [40701]); (12237, [40718]); (12238, [40723]);
   (12239, [40736]); (12240, [40763]); (12241, [40778]); (12242, [40786]); (12243, [40845]);
   (12244, [40860]); (12245, [40864]); (12288, [32]); (12342, [12306]); (12344, [21313]);
   (12345, [21316]); (12346, [21317]); (12364, [12363; 12441]); (12366, [12365; 12441]);
   (12368, [12367; 12441]); (12370, [12369; 12441]); (12372, [12371; 12441]);
   (12374, [12373; 12441]); (12376, [12375; 12441]); (12378, [12377; 12441]);
   (12380, [12379; 12441]); (12382, [12381; 12441]); (12384, [12383; 12441]);
   (12386, [12385; 12441]); (12389, [12388; 12441]); (12391, [12390; 12441]);
   (12393, [12392; 12441]); (12400, [12399; 12441]); (12401, [12399; 12442]);
   (12403, [12402; 12441]); (12404, [12402; 12442]); (12406, [12405; 12441]);
   (12407, [12405; 12442]); (12409, [12408; 12441]); (12410, [12408; 12442]);
   (12412, [12411; 12441]); (12413, [12411; 12442]); (12436, [12358; 12441]);
   (12443, [32; 12441]); (12444, [32; 12442]); (12446, [12445; 12441]);
   (12447, [12424; 12426]); (12460, [12459; 12441]); (12462, [12461; 12441]);
   (12464, [12463; 12441]); (12466, [12465; 12441]); (12468, [12467; 12441]);
   (12470, [12469; 12441]); (12472, [12471; 12441]); (12474, [12473; 12441]);
   (12476, [12475; 12441]); (12478, [12477; 12441]); (12480, [12479; 12441]);
   (12482, [12481; 12441]); (12485, [12484; 12441]); (12487, [12486; 12441]);
   (12489, [12488; 12441]); (12496, [12495; 12441]); (12497, [12495; 12442]);
   (12499, [12498; 12441]); (12500, [12498; 12442]); (12502, [12501; 12441]);
   (12503, [12501; 12442]); (12505, [12504; 12441]); (12506, [12504; 12442]);
   (12508, [12507; 12441]); (12509, [12507; 12442]); (12532, [12454; 12441]);
   (12535, [12527; 12441]); (12536, [12528; 12441]); (12537, [12529; 12441]);
   (12538, [12530; 12441]); (12542, [12541; 12441]); (12543, [12467; 12488]); (12593, [4352]);
   (12594, [4353]); (12595, [4522]); (12596, [4354]); (12597, [4524]); (12598, [4525]);
   (12608, [4378]); (12612, [4385]); (12644, [4448]); (12645, [4372]); (12646, [4373]);
   (12647, [4551]); (12648, [4552]); (12649, [4556]); (12650, [4558]); (12651, [4563]);
   (12652, [4567]); (12653, [4569]); (12654, [4380]); (12655, [4573]); (12656, [4575]);
   (12657, [4381]); (12658, [4382]); (12659, [4384]); (12660, [4386]); (12661, [4387]);
   (12662, [4391]); (12663, [4393]); (12669, [4402]); (12670, [4406]); (12671, [4416]);
   (12672, [4423]); (12673, [4428]); (12674, [4593]); (12675, [4594]); (12679, [4484]);
   (12680, [4485]); (12681, [4488]); (12682, [4497]); (12683, [4498]); (12684, [4500]);
   (12685, [4510]); (12686, [4513]); (12690, [19968]); (12691, [20108]); (12692, [19977]);
   (12693, [22235]); (12694, [19978]); (12695, [20013]); (12696, [19979]); (12697, [30002]);
   (12698, [20057]); (12699, [19993]); (12700, [19969]); (12701, [22825]); (12702, [22320]);
   (12703, [20154]); (12800, [40; 4352; 41]); (12801, [40; 4354; 41]); (12802, [40; 4355; 41]);
   (12803, [40; 4357; 41]); (12804, [40; 4358; 41]); (12805, [40; 4359; 41]);
   (12806, [40; 4361; 41]); (12807, [40; 4363; 41]); (12808, [40; 4364; 41]);
   (12809, [40; 4366; 41]); (12810, [40; 4367; 41]); (12811, [40; 4368; 41]);
   (12812, [40; 4369; 41]); (12813, [40; 4370; 41]); (12814, [40; 4352; 4449; 41]);
   (12815, [40; 4354; 4449; 41]); (12816, [40; 4355; 4449; 41]); (12817, [40; 4357; 4449; 41]);
   (12818, [40; 4358; 4449; 41]); (12819, [40; 4359; 4449; 41]); (12820, [40; 4361; 4449; 41]);
   (12821, [40; 4363; 4449; 41]); (12822, [40; 4364; 4449; 41]); (12823, [40; 4366; 4449; 41]);
   (12824, [40; 4367; 4449; 41]); (12825, [40; 4368; 4449; 41]); (12826, [40; 4369; 4449; 41]);
   (12827, [40; 4370; 4449; 41]); (12828, [40; 4364; 4462; 41]);
   (12829, [40; 4363; 4457; 4364; 4453; 4523; 41]); (12830, [40; 4363; 4457; 4370; 4462; 41]);
   (12832, [40; 19968; 41]); (12833, [40; 20108; 41]); (12834, [40; 19977; 41]);
   (12835, [40; 22235; 41]); (12836, [40; 20116; 41]); (12837, [40; 20845; 41]);
   (12838, [40; 19971; 41]); (12839, [40; 20843; 41]); (12840, [40; 20061; 41]);
   (12841, [40; 21313; 41]); (12842, [40; 26376; 41]); (12843, [40; 28779; 41]);
   (12844, [40; 27700; 41]); (12845, [40; 26408; 41]); (12846, [40; 37329; 41]);
   (12847, [40; 22303; 41]); (12848, [40; 26085; 41]); (12849, [40; 26666; 41]);
   (12850, [40; 26377; 41]); (12851, [40; 31038; 41]); (12852, [40; 21517; 41]);
   (12853, [40; 29305; 41]); (12854, [40; 36001; 41]); (12855, [40; 31069; 41]);
   (12856, [40; 21172; 41]); (12857, [40; 20195; 41]); (12858, [40; 21628; 41]);
   (12859, [40; 23398; 41]); (12860, [40; 30435; 41]); (12861, [40; 20225; 41]);
   (12862, [40; 36039; 41]); (12863, [40; 21332; 41]); (12864, [40; 31085; 41]);
   (12865, [40; 20241; 41]); (12866, [40; 33258; 41]); (12867, [40; 33267; 41]);
   (12868, [21839]); (12869, [24188]); (12870, [25991]); (12871, [31631]);
   (12880, [80; 84; 69]); (12881, [50; 49]); (12882, [50; 50]); (12883, [50; 51]);
   (12884, [50; 52]); (12885, [50; 53]); (12886, [50; 54]); (12887, [50; 55]);
   (12888, [50; 56]); (12889, [50; 57]); (12890, [51; 48]); (12891, [51; 49]);
   (12892, [51; 50]); (12893, [51; 51]); (12894, [51; 52]); (12895, [51; 53]); (12896, [4352]);
   (12897, [4354]); (12898, [4355]); (12902, [4361]); (12903, [4363]); (12904, [4364]);
   (12910, [4352; 4449]); (12911, [4354; 4449]); (12912, [4355; 4449]); (12913, [4357; 4449]);
   (12914, [4358; 4449]); (12915, [4359; 4449]); (12916, [4361; 4449]); (12917, [4363; 4449]);
   (12918, [4364; 4449]); (12919, [4366; 4449]); (12920, [4367; 4449]); (12921, [4368; 4449]);
   (12922, [4369; 4449]); (12923, [4370; 4449]); (12924, [4366; 4449; 4535; 4352; 4457]);
   (12925, [4364; 4462; 4363; 4468]); (12926, [4363; 4462]); (12928, [19968]);
   (12929, [20108]); (12930, [19977]); (12931, [22235]); (12932, [20116]); (12933, [20845]);
   (12934, [19971]); (12935, [20843]); (12936, [20061]); (12937, [21313]); (12938, [26376]);
   (12939, [28779]); (12940, [27700]); (12941, [26408]); (12942, [37329]); (12943, [22303]);
   (12944, [26085]); (12945, [26666]); (12946, [26377]); (12947, [31038]); (12948, [21517]);
   (12949, [29305]); (12950, [36001]); (12951, [31069]); (12952, [21172]); (12953, [31192]);
   (12954, [30007]); (12955, [22899]); (12956, [36969]); (12957, [20778]); (12958, [21360]);
   (12959, [27880]); (12960, [38917]); (12961, [20241]); (12962, [20889]); (12963, [27491]);
   (12964, [19978]); (12965, [20013]); (12966, [19979]); (12967, [24038]); (12968, [21491]);
   (12969, [21307]); (12970, [23447]); (12971, [23398]); (12972, [30435]); (12973, [20225]);
   (12974, [36039]); (12975, [21332]); (12976, [22812]); (12977, [51; 54]); (12978, [51; 55]);
   (12979, [51; 56]); (12980, [51; 57]); (12981, [52; 48]); (12982, [52; 49]);
   (12983, [52; 50]); (12984, [52; 51]); (12985, [52; 52]); (12986, [52; 53]);
   (12987, [52; 54]); (12988, [52; 55]); (12989, [52; 56]); (12990, [52; 57]);
   (12991, [53; 48]); (12992, [49; 26376]); (12993, [50; 26376]); (12994, [51; 26376]);
   (12995, [52; 26376]); (12996, [53; 26376]); (12997, [54; 26376]); (12998, [55; 26376]);
   (12999, [56; 26376]); (13000, [57; 26376]); (13001, [49; 48; 26376]);
   (13002, [49; 49; 26376]); (13003, [49; 50; 26376]); (13004, [72; 103]);
   (13005, [101; 114; 103]); (13006, [101; 86]); (13007, [76; 84; 68]); (13008, [12450]);
   (13009, [12452]); (13010, [12454]); (13011, [12456]); (13012, [12458]); (13013, [12459]);
   (13014, [12461]); (13015, [12463]); (13016, [12465]); (13017, [12467]); (13018, [12469]);
   (13019, [12471]); (13020, [12473]); (13021, [12475]); (13022, [12477]); (13023, [12479]);
   (13024, [12481]); (13025, [12484]); (13026, [12486]); (13027, [12488]); (13034, [12498]);
   (13035, [12501]); (13036, [12504]); (13037, [12507]); (13043, [12516]); (13044, [12518]);
   (13055, [20196; 21644]); (13056, [12450; 12495; 12442; 12540; 12488]);
   (13057, [12450; 12523; 12501; 12449]); (13058, [12450; 12531; 12504; 12442; 12450]);
   (13059, [12450; 12540; 12523]); (13060, [12452; 12491; 12531; 12463; 12441]);
   (13061, [12452; 12531; 12481]); (13062, [12454; 12457; 12531]);
   (13063, [12456; 12473; 12463; 12540; 12488; 12441]); (13064, [12456; 12540; 12459; 12540]);
   (13065, [12458; 12531; 12473]); (13066, [12458; 12540; 12512]);
   (13067, [12459; 12452; 12522]); (13068, [12459; 12521; 12483; 12488]);
   (13069, [12459; 12525; 12522; 12540]); (13070, [12459; 12441; 12525; 12531]);
   (13071, [12459; 12441; 12531; 12510]); (13072, [12461; 12441; 12459; 12441]);
   (13073, [12461; 12441; 12491; 12540]); (13074, [12461; 12517; 12522; 12540]);
   (13075, [12461; 12441; 12523; 12479; 12441; 12540]); (13076, [12461; 12525]);
   (13077, [12461; 12525; 12463; 12441; 12521; 12512]);
   (13078, [12461; 12525; 12513; 12540; 12488; 12523]);
   (13079, [12461; 12525; 12527; 12483; 12488]); (13080, [12463; 12441; 12521; 12512]);
   (13081, [12463; 12441; 12521; 12512; 12488; 12531]);
   (13082, [12463; 12523; 12475; 12441; 12452; 12525]); (13083, [12463; 12525; 12540; 12493]);
   (13084, [12465; 12540; 12473]); (13085, [12467; 12523; 12490]);
   (13086, [12467; 12540; 12507; 12442]); (13087, [12469; 12452; 12463; 12523]);
   (13088, [12469; 12531; 12481; 12540; 12512]); (13089, [12471; 12522; 12531; 12463; 12441]);
   (13090, [12475; 12531; 12481]); (13091, [12475; 12531; 12488]);
   (13092, [12479; 12441; 12540; 12473]); (13093, [12486; 12441; 12471]);
   (13094, [12488; 12441; 12523]); (13095, [12488; 12531]); (13096, [12490; 12494]);
   (13097, [12494; 12483; 12488]); (13098, [12495; 12452; 12484]);
   (13099, [12495; 12442; 12540; 12475; 12531; 12488]); (13100, [12495; 12442; 12540; 12484]);
   (13101, [12495; 12441; 12540; 12524; 12523]);
   (13102, [12498; 12442; 12450; 12473; 12488; 12523]); (13103, [12498; 12442; 12463; 12523]);
   (13104, [12498; 12442; 12467]); (13105, [12498; 12441; 12523]);
   (13106, [12501; 12449; 12521; 12483; 12488; 12441]); (13107, [12501; 12451; 12540; 12488]);
   (13108, [12501; 12441; 12483; 12471; 12455; 12523]); (13109, [12501; 12521; 12531]);
   (13110, [12504; 12463; 12479; 12540; 12523]); (13111, [12504; 12442; 12477]);
   (13112, [12504; 12442; 12491; 12498]); (13113, [12504; 12523; 12484]);
   (13114, [12504; 12442; 12531; 12473]); (13115, [12504; 12442; 12540; 12471; 12441]);
   (13116, [12504; 12441; 12540; 12479]); (13117, [12507; 12442; 12452; 12531; 12488]);
   (13118, [12507; 12441; 12523; 12488]); (13119, [12507; 12531]);
   (13120, [12507; 12442; 12531; 12488; 12441]); (13121, [12507; 12540; 12523]);
   (13122, [12507; 12540; 12531]); (13123, [12510; 12452; 12463; 12525]);
   (13124, [12510; 12452; 12523]); (13125, [12510; 12483; 12495]);
   (13126, [12510; 12523; 12463]); (13127, [12510; 12531; 12471; 12519; 12531]);
   (13128, [12511; 12463; 12525; 12531]); (13129, [12511; 12522]);
   (13130, [12511; 12522; 12495; 12441; 12540; 12523]); (13131, [12513; 12459; 12441]);
   (13132, [12513; 12459; 12441; 12488; 12531]); (13133, [12513; 12540; 12488; 12523]);
   (13134, [12516; 12540; 12488; 12441]); (13135, [12516; 12540; 12523]);
   (13136, [12518; 12450; 12531]); (13137, [12522; 12483; 12488; 12523]);
   (13138, [12522; 12521]); (13139, [12523; 12498; 12442; 12540]);
   (13140, [12523; 12540; 12501; 12441; 12523]); (13141, [12524; 12512]);
   (13142, [12524; 12531; 12488; 12465; 12441; 12531]); (13143, [12527; 12483; 12488]);
   (13144, [48; 28857]); (13145, [49; 28857]); (13146, [50; 28857]); (13147, [51; 28857]);
   (13148, [52; 28857]); (13149, [53; 28857]); (13150, [54; 28857]); (13151, [55; 28857]);
   (13152, [56; 28857]); (13153, [57; 28857]); (13154, [49; 48; 28857]);
   (13155, [49; 49; 28857]); (13156, [49; 50; 28857]); (13157, [49; 51; 28857]);
   (13158, [49; 52; 28857]); (13159, [49; 53; 28857]); (13160, [49; 54; 28857]);
   (13161, [49; 55; 28857]); (13162, [49; 56; 28857]); (13163, [49; 57; 28857]);
   (13164, [50; 48; 28857]); (13165, [50; 49; 28857]); (13166, [50; 50; 28857]);
   (13167, [50; 51; 28857]); (13168, [50; 52; 28857]); (13169, [104; 80; 97]);
   (13170, [100; 97]); (13171, [65; 85]); (13172, [98; 97; 114]); (13173, [111; 86]);
   (13174, [112; 99]); (13175, [100; 109]); (13176, [100; 109; 50]); (13177, [100; 109; 51]);
   (13178, [73; 85]); (13179, [24179; 25104]); (13180, [26157; 21644]);
   (13181, [22823; 27491]); (13182, [26126; 27835]); (13183, [26666; 24335; 20250; 31038]);
   (13184, [112; 65]); (13185, [110; 65]); (13186, [956; 65]); (13187, [109; 65]);
   (13188, [107; 65]); (13189, [75; 66]); (13190, [77; 66]); (13191, [71; 66]);
   (13192, [99; 97; 108]); (13193, [107; 99; 97; 108]); (13194, [112; 70]); (13195, [110; 70]);
   (13196, [956; 70]); (13197, [956; 103]); (13198, [109; 103]); (13199, [107; 103]);
   (13200, [72; 122]); (13201, [107; 72; 122]); (13202, [77; 72; 122]); (13203, [71; 72; 122]);
   (13204, [84; 72; 122]); (13205, [956; 108]); (13206, [109; 108]); (13207, [100; 108]);
   (13208, [107; 108]); (13209, [102; 109]); (13210, [110; 109]); (13211, [956; 109]);
   (13212, [109; 109]); (13213, [99; 109]); (13214, [107; 109]); (13215, [109; 109; 50]);
   (13216, [99; 109; 50]); (13217, [109; 50]); (13218, [107; 109; 50]);
   (13219, [109; 109; 51]); (13220, [99; 109; 51]); (13221, [109; 51]);
   (13222, [107; 109; 51]); (13223, [109; 8725; 115]); (13224, [109; 8725; 115; 50]);
   (13225, [80; 97]); (13226, [107; 80; 97]); (13227, [77; 80; 97]); (13228, [71; 80; 97]);
   (13229, [114; 97; 100]); (13230, [114; 97; 100; 8725; 115]);
   (13231, [114; 97; 100; 8725; 115; 50]); (13232, [112; 115]); (13233, [110; 115]);
   (13234, [956; 115]); (13235, [109; 115]); (13236, [112; 86]); (13237, [110; 86]);
   (13238, [956; 86]); (13239, [109; 86]); (13240, [107; 86]); (13241, [77; 86]);
   (13242, [112; 87]); (13243, [110; 87]); (13244, [956; 87]); (13245, [109; 87]);
   (13246, [107; 87]); (13247, [77; 87]); (13248, [107; 937]); (13249, [77; 937]);
   (13250, [97; 46; 109; 46]); (13251, [66; 113]); (13252, [99; 99]); (13253, [99; 100]);
   (13254, [67; 8725; 107; 103]); (13255, [67; 111; 46]); (13256, [100; 66]);
   (13257, [71; 121]); (13258, [104; 97]); (13259, [72; 80]); (13260, [105; 110]);
   (13261, [75; 75]); (13262, [75; 77]); (13263, [107; 116]); (13264, [108; 109]);
   (13265, [108; 110]); (13266, [108; 111; 103]); (13267, [108; 120]); (13268, [109; 98]);
   (13269, [109; 105; 108]); (13270, [109; 111; 108]); (13271, [80; 72]);
   (13272, [112; 46; 109; 46]); (13273, [80; 80; 77]); (13274, [80; 82]); (13275, [115; 114]);
   (13276, [83; 118]); (13277, [87; 98]); (13278, [86; 8725; 109]); (13279, [65; 8725; 109]);
   (13280, [49; 26085]); (13281, [50; 26085]); (13282, [51; 26085]); (13283, [52; 26085]);
   (13284, [53; 26085]); (13285, [54; 26085]); (13286, [55; 26085]); (13287, [56; 26085]);
   (13288, [57; 26085]); (13289, [49; 48; 26085]); (13290, [49; 49; 26085]);
   (13291, [49; 50; 26085]); (13292, [49; 51; 26085]); (13293, [49; 52; 26085]);
   (13294, [49; 53; 26085]); (13295, [49; 54; 26085]); (13296, [49; 55; 26085]);
   (13297, [49; 56; 26085]); (13298, [49; 57; 26085]); (13299, [50; 48; 26085]);
   (13300, [50; 49; 26085]); (13301, [50; 50; 26085]); (13302, [50; 51; 26085]);
   (13303, [50; 52; 26085]); (13304, [50; 53; 26085]); (13305, [50; 54; 26085]);
   (13306, [50; 55; 26085]); (13307, [50; 56; 26085]); (13308, [50; 57; 26085]);
   (13309, [51; 48; 26085]); (13310, [51; 49; 26085]); (13311, [103; 97; 108]);
   (42652, [1098]); (42653, [1100]); (42864, [42863]); (42994, [67]); (42995, [70]);
   (42996, [81]); (43000, [294]); (43001, [339]); (43868, [42791]); (43869, [43831]);
   (43870, [619]); (43871, [43858]); (43881, [653]); (63744, [35912]); (63745, [26356]);
   (63746, [36554]); (63747, [36040]); (63748, [28369]); (63749, [20018]); (63750, [21477]);
   (63751, [40860]); (63752, [40860]); (63753, [22865]); (63754, [37329]); (63755, [21895]);
   (63756, [22856]); (63757, [25078]); (63758, [30313]); (63759, [32645]); (63760, [34367]);
   (63761, [34746]); (63762, [35064]); (63763, [37007]); (63764, [27138]); (63765, [27931]);
   (63766, [28889]); (63767, [29662]); (63768, [33853]); (63769, [37226]); (63770, [39409]);
   (63771, [20098]); (63772, [21365]); (63773, [27396]); (63774, [29211]); (63775, [34349]);
   (63776, [40478]); (63777, [23888]); (63778, [28651]); (63779, [34253]); (63780, [35172]);
   (63781, [25289]); (63782, [33240]); (63783, [34847]); (63784, [24266]); (63785, [26391]);
   (63786, [28010]); (63787, [29436]); (63788, [37070]); (63789, [20358]); (63790, [20919]);
   (63791, [21214]); (63792, [25796]); (63793, [27347]); (63794, [29200]); (63795, [30439]);
   (63796, [32769]); (63797, [34310]); (63798, [34396]); (63799, [36335]); (63800, [38706]);
   (63801, [39791]); (63802, [40442]); (63803, [30860]); (63804, [31103]); (63805, [32160]);
   (63806, [33737]); (63807, [37636]); (63808, [40575]); (63809, [35542]); (63810, [22751]);
   (63811, [24324]); (63812, [31840]); (63813, [32894]); (63814, [29282]); (63815, [30922]);
   (63816, [36034]); (63817, [38647]); (63818, [22744]); (63819, [23650]); (63820, [27155]);
   (63821, [28122]); (63822, [28431]); (63823, [32047]); (63824, [32311]); (63825, [38475]);
   (63826, [21202]); (63827, [32907]); (63828, [20956]); (63829, [20940]); (63830, [31260]);
   (63831, [32190]); (63832, [33777]); (63833, [38517]); (63834, [35712]); (63835, [25295]);
   (63836, [27138]); (63837, [35582]); (63838, [20025]); (63839, [23527]); (63840, [24594]);
   (63841, [29575]); (63842, [30064]); (63843, [21271]); (63844, [30971]); (63845, [20415]);
   (63846, [24489]); (63847, [19981]); (63848, [27852]); (63849, [25976]); (63850, [32034]);
   (63851, [21443]); (63852, [22622]); (63853, [30465]); (63854, [33865]); (63855, [35498]);
   (63856, [27578]); (63857, [36784]); (63858, [27784]); (63859, [25342]); (63860, [33509]);
   (63861, [25504]); (63862, [30053]); (63863, [20142]); (63864, [20841]); (63865, [20937]);
   (63866, [26753]); (63867, [31975]); (63868, [33391]); (63869, [35538]); (63870, [37327]);
   (63871, [21237]); (63872, [21570]); (63873, [22899]); (63874, [24300]); (63875, [26053]);
   (63876, [28670]); (63877, [31018]); (63878, [38317]); (63879, [39530]); (63880, [40599]);
   (63881, [40654]); (63882, [21147]); (63883, [26310]); (63884, [27511]); (63885, [36706]);
   (63886, [24180]); (63887, [24976]); (63888, [25088]); (63889, [25754]); (63890, [28451]);
   (63891, [29001]); (63892, [29833]); (63893, [31178]); (63894, [32244]); (63895, [32879]);
   (63896, [36646]); (63897, [34030]); (63898, [36899]); (63899, [37706]); (63900, [21015]);
   (63901, [21155]); (63902, [21693]); (63903, [28872]); (63904, [35010]); (63905, [35498]);
   (63906, [24265]); (63907, [24565]); (63908, [25467]); (63909, [27566]); (63910, [31806]);
   (63911, [29557]); (63912, [20196]); (63913, [22265]); (63914, [23527]); (63915, [23994]);
   (63916, [24604]); (63917, [29618]); (63918, [29801]); (63919, [32666]); (63920, [32838]);
   (63921, [37428]); (63922, [38646]); (63923, [38728]); (63924, [38936]); (63925, [20363]);
   (63926, [31150]); (63927, [37300]); (63928, [38584]); (63929, [24801]); (63930, [20102]);
   (63931, [20698]); (63932, [23534]); (63933, [23615]); (63934, [26009]); (63935, [27138]);
   (63936, [29134]); (63937, [30274]); (63938, [34044]); (63939, [36988]); (63940, [40845]);
   (63941, [26248]); (63942, [38446]); (63943, [21129]); (63944, [26491]); (63945, [26611]);
   (63946, [27969]); (63947, [28316]); (63948, [29705]); (63949, [30041]); (63950, [30827]);
   (63951, [32016]); (63952, [39006]); (63953, [20845]); (63954, [25134]); (63955, [38520]);
   (63956, [20523]); (63957, [23833]); (63958, [28138]); (63959, [36650]); (63960, [24459]);
   (63961, [24900]); (63962, [26647]); (63963, [29575]); (63964, [38534]); (63965, [21033]);
   (63966, [21519]); (63967, [23653]); (63968, [26131]); (63969, [26446]); (63970, [26792]);
   (63971, [27877]); (63972, [29702]); (63973, [30178]); (63974, [32633]); (63975, [35023]);
   (63976, [35041]); (63977, [37324]); (63978, [38626]); (63979, [21311]); (63980, [28346]);
   (63981, [21533]); (63982, [29136]); (63983, [29848]); (63984, [34298]); (63985, [38563]);
   (63986, [40023]); (63987, [40607]); (63988, [26519]); (63989, [28107]); (63990, [33256]);
   (63991, [31435]); (63992, [31520]); (63993, [31890]); (63994, [29376]); (63995, [28825]);
   (63996, [35672]); (63997, [20160]); (63998, [33590]); (63999, [21050]); (64000, [20999]);
   (64001, [24230]); (64002, [25299]); (64003, [31958]); (64004, [23429]); (64005, [27934]);
   (64006, [26292]); (64007, [36667]); (64008, [34892]); (64009, [38477]); (64010, [35211]);
   (64011, [24275]); (64012, [20800]); (64013, [21952]); (64016, [22618]); (64018, [26228]);
   (64021, [20958]); (64022, [29482]); (64023, [30410]); (64024, [31036]); (64025, [31070]);
   (64026, [31077]); (64027, [31119]); (64028, [38742]); (64029, [31934]); (64030, [32701]);
   (64032, [34322]); (64034, [35576]); (64037, [36920]); (64038, [37117]); (64042, [39151]);
   (64043, [39164]); (64044, [39208]); (64045, [40372]); (64046, [37086]); (64047, [38583]);
   (64048, [20398]); (64049, [20711]); (64050, [20813]); (64051, [21193]); (64052, [21220]);
   (64053, [21329]); (64054, [21917]); (64055, [22022]); (64056, [22120]); (64057, [22592]);
   (64058, [22696]); (64059, [23652]); (64060, [23662]); (64061, [24724]); (64062, [24936]);
   (64063, [24974]); (64064, [25074]); (64065, [25935]); (64066, [26082]); (64067, [26257]);
   (64068, [26757]); (64069, [28023]); (64070, [28186]); (64071, [28450]); (64072, [29038]);
   (64073, [29227]); (64074, [29730]); (64075, [30865]); (64076, [31038]); (64077, [31049]);
   (64078, [31048]); (64079, [31056]); (64080, [31062]); (64081, [31069]); (64082, [31117]);
   (64083, [31118]); (64084, [31296]); (64085, [31361]); (64086, [31680]); (64087, [32244]);
   (64088, [32265]); (64089, [32321]); (64090, [32626]); (64091, [32773]); (64092, [33261]);
   (64093, [33401]); (64094, [33401]); (64095, [33879]); (64096, [35088]); (64097, [35222]);
   (64098, [35585]); (64099, [35641]); (64100, [36051]); (64101, [36104]); (64102, [36790]);
   (64103, [36920]); (64104, [38627]); (64105, [38911]); (64106, [38971]); (64107, [24693]);
   (64108, [148206]); (64109, [33304]); (64112, [20006]); (64113, [20917]); (64114, [20840]);
   (64115, [20352]); (64116, [20805]); (64117, [20864]); (64118, [21191]); (64119, [21242]);
   (64120, [21917]); (64121, [21845]); (64122, [21913]); (64123, [21986]); (64124, [22618]);
   (64125, [22707]); (64126, [22852]); (64127, [22868]); (64128, [23138]); (64129, [23336]);
   (64130, [24274]); (64131, [24281]); (64132, [24425]); (64133, [24493]); (64134, [24792]);
   (64135, [24910]); (64136, [24840]); (64137, [24974]); (64138, [24928]); (64139, [25074]);
   (64140, [25140]); (64141, [25540]); (64142, [25628]); (64143, [25682]); (64144, [25942]);
   (64145, [26228]); (64146, [26391]); (64147, [26395]); (64148, [26454]); (64149, [27513]);
   (64150, [27578]); (64151, [27969]); (64152, [28379]); (64153, [28363]); (64154, [28450]);
   (64155, [28702]); (64156, [29038]); (64157, [30631]); (64158, [29237]); (64159, [29359]);
   (64160, [29482]); (64161, [29809]); (64162, [29958]); (64163, [30011]); (64164, [30237]);
   (64165, [30239]); (64166, [30410]); (64167, [30427]); (64168, [30452]); (64169, [30538]);
   (64170, [30528]); (64171, [30924]); (64172, [31409]); (64173, [31680]); (64174, [31867]);
   (64175, [32091]); (64176, [32244]); (64177, [32574]); (64178, [32773]); (64179, [33618]);
   (64180, [33775]); (64181, [34681]); (64182, [35137]); (64183, [35206]); (64184, [35222]);
   (64185, [35519]); (64186, [35576]); (64187, [35531]); (64188, [35585]); (64189, [35582]);
   (64190, [35565]); (64191, [35641]); (64192, [35722]); (64193, [36104]); (64194, [36664]);
   (64195, [36978]); (64196, [37273]); (64197, [37494]); (64198, [38524]); (64199, [38627]);
   (64200, [38742]); (64201, [38875]); (64202, [38911]); (64203, [38923]); (64204, [38971]);
   (64205, [39698]); (64206, [40860]); (64207, [141386]); (64208, [141380]); (64209, [144341]);
   (64210, [15261]); (64211, [16408]); (64212, [16441]); (64213, [152137]); (64214, [154832]);
   (64215, [163539]); (64216, [40771]); (64217, [40846]); (64256, [102; 102]);
   (64257, [102; 105]); (64258, [102; 108]); (64259, [102; 102; 105]);
   (64260, [102; 102; 108]); (64261, [115; 116]); (64262, [115; 116]); (64275, [1396; 1398]);
   (64276, [1396; 1381]); (64277, [1396; 1387]); (64278, [1406; 1398]); (64279, [1396; 1389]);
   (64285, [1497; 1460]); (64287, [1522; 1463]); (64288, [1506]); (64289, [1488]);
   (64290, [1491]); (64291, [1492]); (64295, [1512]); (64296, [1514]); (64297, [43]);
   (64298, [1513; 1473]); (64299, [1513; 1474]); (64300, [1513; 1468; 1473]);
   (64301, [1513; 1468; 1474]); (64302, [1488; 1463]); (64303, [1488; 1464]);
   (64304, [1488; 1468]); (64305, [1489; 1468]); (64306, [1490; 1468]); (64307, [1491; 1468]);
   (64308, [1492; 1468]); (64309, [1493; 1468]); (64310, [1494; 1468]); (64312, [1496; 1468]);
   (64313, [1497; 1468]); (64314, [1498; 1468]); (64315, [1499; 1468]); (64316, [1500; 1468]);
   (64318, [1502; 1468]); (64320, [1504; 1468]); (64321, [1505; 1468]); (64323, [1507; 1468]);
   (64324, [1508; 1468]); (64326, [1510; 1468]); (64327, [1511; 1468]); (64328, [1512; 1468]);
   (64329, [1513; 1468]); (64330, [1514; 1468]); (64331, [1493; 1465]); (64332, [1489; 1471]);
   (64333, [1499; 1471]); (64334, [1508; 1471]); (64335, [1488; 1500]); (64336, [1649]);
   (64337, [1649]); (64338, [1659]); (64339, [1659]); (64340, [1659]); (64341, [1659]);
   (64342, [1662]); (64343, [1662]); (64344, [1662]); (64345, [1662]); (64346, [1664]);
   (64347, [1664]); (64348, [1664]); (64349, [1664]); (64350, [1658]); (64351, [1658]);
   (64352, [1658]); (64353, [1658]); (64354, [1663]); (64355, [1663]); (64356, [1663]);
   (64357, [1663]); (64358, [1657]); (64359, [1657]); (64360, [1657]); (64361, [1657]);
   (64362, [1700]); (64363, [1700]); (64364, [1700]); (64365, [1700]); (64366, [1702]);
   (64367, [1702]); (64368, [1702]); (64369, [1702]); (64370, [1668]); (64371, [1668]);
   (64372, [1668]); (64373, [1668]); (64374, [1667]); (64375, [1667]); (64376, [1667]);
   (64377, [1667]); (64378, [1670]); (64379, [1670]); (64380, [1670]); (64381, [1670]);
   (64382, [1671]); (64383, [1671]); (64384, [1671]); (64385, [1671]); (64386, [1677]);
   (64387, [1677]); (64388, [1676]); (64389, [1676]); (64390, [1678]); (64391, [1678]);
   (64392, [1672]); (64393, [1672]); (64394, [1688]); (64395, [1688]); (64396, [1681]);
   (64397, [1681]); (64398, [1705]); (64399, [1705]); (64400, [1705]); (64401, [1705]);
   (64402, [1711]); (64403, [1711]); (64404, [1711]); (64405, [1711]); (64406, [1715]);
   (64407, [1715]); (64408, [1715]); (64409, [1715]); (64410, [1713]); (64411, [1713]);
   (64412, [1713]); (64413, [1713]); (64414, [1722]); (64415, [1722]); (64416, [1723]);
   (64417, [1723]); (64418, [1723]); (64419, [1723]); (64420, [1749; 1620]);
   (64421, [1749; 1620]); (64422, [1729]); (64423, [1729]); (64424, [1729]); (64425, [1729]);
   (64426, [1726]); (64427, [1726]); (64428, [1726]); (64429, [1726]); (64430, [1746]);
   (64431, [1746]); (64432, [1746; 1620]); (64433, [1746; 1620]); (64467, [1709]);
   (64468, [1709]); (64469, [1709]); (64470, [1709]); (64471, [1735]); (64472, [1735]);
   (64473, [1734]); (64474, [1734]); (64475, [1736]); (64476, [1736]); (64477, [1735; 1652]);
   (64478, [1739]); (64479, [1739]); (64480, [1733]); (64481, [1733]); (64482, [1737]);
   (64483, [1737]); (64484, [1744]); (64485, [1744]); (64486, [1744]); (64487, [1744]);
   (64488, [1609]); (64489, [1609]); (64490, [1610; 1620; 1575]); (64491, [1610; 1620; 1575]);
   (64492, [1610; 1620; 1749]); (64493, [1610; 1620; 1749]); (64494, [1610; 1620; 1608]);
   (64495, [1610; 1620; 1608]); (64496, [1610; 1620; 1735]); (64497, [1610; 1620; 1735]);
   (64498, [1610; 1620; 1734]); (64499, [1610; 1620; 1734]); (64500, [1610; 1620; 1736]);
   (64501, [1610; 1620; 1736]); (64502, [1610; 1620; 1744]); (64503, [1610; 1620; 1744]);
   (64504, [1610; 1620; 1744]); (64505, [1610; 1620; 1609]); (64506, [1610; 1620; 1609]);
   (64507, [1610; 1620; 1609]); (64508, [1740]); (64509, [1740]); (64510, [1740]);
   (64511, [1740]); (64512, [1610; 1620; 1580]); (64513, [1610; 1620; 1581]);
   (64514, [1610; 1620; 1605]); (64515, [1610; 1620; 1609]); (64516, [1610; 1620; 1610]);
   (64517, [1576; 1580]); (64518, [1576; 1581]); (64519, [1576; 1582]); (64520, [1576; 1605]);
   (64521, [1576; 1609]); (64522, [1576; 1610]); (64523, [1578; 1580]); (64524, [1578; 1581]);
   (64525, [1578; 1582]); (64526, [1578; 1605]); (64527, [1578; 1609]); (64528, [1578; 1610]);
   (64529, [1579; 1580]); (64530, [1579; 1605]); (64531, [1579; 1609]); (64532, [1579; 1610]);
   (64533, [1580; 1581]); (64534, [1580; 1605]); (64535, [1581; 1580]); (64536, [1581; 1605]);
   (64537, [1582; 1580]); (64538, [1582; 1581]); (64539, [1582; 1605]); (64540, [1587; 1580]);
   (64541, [1587; 1581]); (64542, [1587; 1582]); (64543, [1587; 1605]); (64544, [1589; 1581]);
   (64545, [1589; 1605]); (64546, [1590; 1580]); (64547, [1590; 1581]); (64548, [1590; 1582]);
   (64549, [1590; 1605]); (64550, [1591; 1581]); (64551, [1591; 1605]); (64552, [1592; 1605]);
   (64553, [1593; 1580]); (64554, [1593; 1605]); (64555, [1594; 1580]); (64556, [1594; 1605]);
   (64557, [1601; 1580]); (64558, [1601; 1581]); (64559, [1601; 1582]); (64560, [1601; 1605]);
   (64561, [1601; 1609]); (64562, [1601; 1610]); (64563, [1602; 1581]); (64564, [1602; 1605]);
   (64565, [1602; 1609]); (64566, [1602; 1610]); (64567, [1603; 1575]); (64568, [1603; 1580]);
   (64569, [1603; 1581]); (64570, [1603; 1582]); (64571, [1603; 1604]); (64572, [1603; 1605]);
   (64573, [1603; 1609]); (64574, [1603; 1610]); (64575, [1604; 1580]); (64576, [1604; 1581]);
   (64577, [1604; 1582]); (64578, [1604; 1605]); (64579, [1604; 1609]); (64580, [1604; 1610]);
   (64581, [1605; 1580]); (64582, [1605; 1581]); (64583, [1605; 1582]); (64584, [1605; 1605]);
   (64585, [1605; 1609]); (64586, [1605; 1610]); (64587, [1606; 1580]); (64588, [1606; 1581]);
   (64589, [1606; 1582]); (64590, [1606; 1605]); (64591, [1606; 1609]); (64592, [1606; 1610]);
   (64593, [1607; 1580]); (64594, [1607; 1605]); (64595, [1607; 1609]); (64596, [1607; 1610]);
   (64597, [1610; 1580]); (64598, [1610; 1581]); (64599, [1610; 1582]); (64600, [1610; 1605]);
   (64601, [1610; 1609]); (64602, [1610; 1610]); (64603, [1584; 1648]); (64604, [1585; 1648]);
   (64605, [1609; 1648]); (64606, [32; 1612; 1617]); (64607, [32; 1613; 1617]);
   (64608, [32; 1614; 1617]); (64609, [32; 1615; 1617]); (64610, [32; 1616; 1617]);
   (64611, [32; 1617; 1648]); (64612, [1610; 1620; 1585]); (64613, [1610; 1620; 1586]);
   (64614, [1610; 1620; 1605]); (64615, [1610; 1620; 1606]); (64616, [1610; 1620; 1609]);
   (64617, [1610; 1620; 1610]); (64618, [1576; 1585]); (64619, [1576; 1586]);
   (64620, [1576; 1605]); (64621, [1576; 1606]); (64622, [1576; 1609]); (64623, [1576; 1610]);
   (64624, [1578; 1585]); (64625, [1578; 1586]); (64626, [1578; 1605]); (64627, [1578; 1606]);
   (64628, [1578; 1609]); (64629, [1578; 1610]); (64630, [1579; 1585]); (64631, [1579; 1586]);
   (64632, [1579; 1605]); (64633, [1579; 1606]); (64634, [1579; 1609]); (64635, [1579; 1610]);
   (64636, [1601; 1609]); (64637, [1601; 1610]); (64638, [1602; 1609]); (64639, [1602; 1610]);
   (64640, [1603; 1575]); (64641, [1603; 1604]); (64642, [1603; 1605]); (64643, [1603; 1609]);
   (64644, [1603; 1610]); (64645, [1604; 1605]); (64646, [1604; 1609]); (64647, [1604; 1610]);
   (64648, [1605; 1575]); (64649, [1605; 1605]); (64650, [1606; 1585]); (64651, [1606; 1586]);
   (64652, [1606; 1605]); (64653, [1606; 1606]); (64654, [1606; 1609]); (64655, [1606; 1610]);
   (64656, [1609; 1648]); (64657, [1610; 1585]); (64658, [1610; 1586]); (64659, [1610; 1605]);
   (64660, [1610; 1606]); (64661, [1610; 1609]); (64662, [1610; 1610]);
   (64663, [1610; 1620; 1580]); (64664, [1610; 1620; 1581]); (64665, [1610; 1620; 1582]);
   (64666, [1610; 1620; 1605]); (64667, [1610; 1620; 1607]); (64668, [1576; 1580]);
   (64669, [1576; 1581]); (64670, [1576; 1582]); (64671, [1576; 1605]); (64672, [1576; 1607]);
   (64673, [1578; 1580]); (64674, [1578; 1581]); (64675, [1578; 1582]); (64676, [1578; 1605]);
   (64677, [1578; 1607]); (64678, [1579; 1605]); (64679, [1580; 1581]); (64680, [1580; 1605]);
   (64681, [1581; 1580]); (64682, [1581; 1605]); (64683, [1582; 1580]); (64684, [1582; 1605]);
   (64685, [1587; 1580]); (64686, [1587; 1581]); (64687, [1587; 1582]); (64688, [1587; 1605]);
   (64689, [1589; 1581]); (64690, [1589; 1582]); (64691, [1589; 1605]); (64692, [1590; 1580]);
   (64693, [1590; 1581]); (64694, [1590; 1582]); (64695, [1590; 1605]); (64696, [1591; 1581]);
   (64697, [1592; 1605]); (64698, [1593; 1580]); (64699, [1593; 1605]); (64700, [1594; 1580]);
   (64701, [1594; 1605]); (64702, [1601; 1580]); (64703, [1601; 1581]); (64704, [1601; 1582]);
   (64705, [1601; 1605]); (64706, [1602; 1581]); (64707, [1602; 1605]); (64708, [1603; 1580]);
   (64709, [1603; 1581]); (64710, [1603; 1582]); (64711, [1603; 1604]); (64712, [1603; 1605]);
   (64713, [1604; 1580]); (64714, [1604; 1581]); (64715, [1604; 1582]); (64716, [1604; 1605]);
   (64717, [1604; 1607]); (64718, [1605; 1580]); (64719, [1605; 1581]); (64720, [1605; 1582]);
   (64721, [1605; 1605]); (64722, [1606; 1580]); (64723, [1606; 1581]); (64724, [1606; 1582]);
   (64725, [1606; 1605]); (64726, [1606; 1607]); (64727, [1607; 1580]); (64728, [1607; 1605]);
   (64729, [1607; 1648]); (64730, [1610; 1580]); (64731, [1610; 1581]); (64732, [1610; 1582]);
   (64733, [1610; 1605]); (64734, [1610; 1607]); (64735, [1610; 1620; 1605]);
   (64736, [1610; 1620; 1607]); (64737, [1576; 1605]); (64738, [1576; 1607]);
   (64739, [1578; 1605]); (64740, [1578; 1607]); (64741, [1579; 1605]); (64742, [1579; 1607]);
   (64743, [1587; 1605]); (64744, [1587; 1607]); (64745, [1588; 1605]); (64746, [1588; 1607]);
   (64747, [1603; 1604]); (64748, [1603; 1605]); (64749, [1604; 1605]); (64750, [1606; 1605]);
   (64751, [1606; 1607]); (64752, [1610; 1605]); (64753, [1610; 1607]);
   (64754, [1600; 1614; 1617]); (64755, [1600; 1615; 1617]); (64756, [1600; 1616; 1617]);
   (64757, [1591; 1609]); (64758, [1591; 1610]); (64759, [1593; 1609]); (64760, [1593; 1610]);
   (64761, [1594; 1609]); (64762, [1594; 1610]); (64763, [1587; 1609]); (64764, [1587; 1610]);
   (64765, [1588; 1609]); (64766, [1588; 1610]); (64767, [1581; 1609]); (64768, [1581; 1610]);
   (64769, [1580; 1609]); (64770, [1580; 1610]); (64771, [1582; 1609]); (64772, [1582; 1610]);
   (64773, [1589; 1609]); (64774, [1589; 1610]); (64775, [1590; 1609]); (64776, [1590; 1610]);
   (64777, [1588; 1580]); (64778, [1588; 1581]); (64779, [1588; 1582]); (64780, [1588; 1605]);
   (64781, [1588; 1585]); (64782, [1587; 1585]); (64783, [1589; 1585]); (64784, [1590; 1585]);
   (64785, [1591; 1609]); (64786, [1591; 1610]); (64787, [1593; 1609]); (64788, [1593; 1610]);
   (64789, [1594; 1609]); (64790, [1594; 1610]); (64791, [1587; 1609]); (64792, [1587; 1610]);
   (64793, [1588; 1609]); (64794, [1588; 1610]); (64795, [1581; 1609]); (64796, [1581; 1610]);
   (64797, [1580; 1609]); (64798, [1580; 1610]); (64799, [1582; 1609]); (64800, [1582; 1610]);
   (64801, [1589; 1609]); (64802, [1589; 1610]); (64803, [1590; 1609]); (64804, [1590; 1610]);
   (64805, [1588; 1580]); (64806, [1588; 1581]); (64807, [1588; 1582]); (64808, [1588; 1605]);
   (64809, [1588; 1585]); (64810, [1587; 1585]); (64811, [1589; 1585]); (64812, [1590; 1585]);
   (64813, [1588; 1580]); (64814, [1588; 1581]); (64815, [1588; 1582]); (64816, [1588; 1605]);
   (64817, [1587; 1607]); (64818, [1588; 1607]); (64819, [1591; 1605]); (64820, [1587; 1580]);
   (64821, [1587; 1581]); (64822, [1587; 1582]); (64823, [1588; 1580]); (64824, [1588; 1581]);
   (64825, [1588; 1582]); (64826, [1591; 1605]); (64827, [1592; 1605]); (64828, [1575; 1611]);
   (64829, [1575; 1611]); (64848, [1578; 1580; 1605]); (64849, [1578; 1581; 1580]);
   (64850, [1578; 1581; 1580]); (64851, [1578; 1581; 1605]); (64852, [1578; 1582; 1605]);
   (64853, [1578; 1605; 1580]); (64854, [1578; 1605; 1581]); (64855, [1578; 1605; 1582]);
   (64856, [1580; 1605; 1581]); (64857, [1580; 1605; 1581]); (64858, [1581; 1605; 1610]);
   (64859, [1581; 1605; 1609]); (64860, [1587; 1581; 1580]); (64861, [1587; 1580; 1581]);
   (64862, [1587; 1580; 1609]); (64863, [1587; 1605; 1581]); (64864, [1587; 1605; 1581]);
   (64865, [1587; 1605; 1580]); (64866, [1587; 1605; 1605]); (64867, [1587; 1605; 1605]);
   (64868, [1589; 1581; 1581]); (64869, [1589; 1581; 1581]); (64870, [1589; 1605; 1605]);
   (64871, [1588; 1581; 1605]); (64872, [1588; 1581; 1605]); (64873, [1588; 1580; 1610]);
   (64874, [1588; 1605; 1582]); (64875, [1588; 1605; 1582]); (64876, [1588; 1605; 1605]);
   (64877, [1588; 1605; 1605]); (64878, [1590; 1581; 1609]); (64879, [1590; 1582; 1605]);
   (64880, [1590; 1582; 1605]); (64881, [1591; 1605; 1581]); (64882, [1591; 1605; 1581]);
   (64883, [1591; 1605; 1605]); (64884, [1591; 1605; 1610]); (64885, [1593; 1580; 1605]);
   (64886, [1593; 1605; 1605]); (64887, [1593; 1605; 1605]); (64888, [1593; 1605; 1609]);
   (64889, [1594; 1605; 1605]); (64890, [1594; 1605; 1610]); (64891, [1594; 1605; 1609]);
   (64892, [1601; 1582; 1605]); (64893, [1601; 1582; 1605]); (64894, [1602; 1605; 1581]);
   (64895, [1602; 1605; 1605]); (64896, [1604; 1581; 1605]); (64897, [1604; 1581; 1610]);
   (64898, [1604; 1581; 1609]); (64899, [1604; 1580; 1580]); (64900, [1604; 1580; 1580]);
   (64901, [1604; 1582; 1605]); (64902, [1604; 1582; 1605]); (64903, [1604; 1605; 1581]);
   (64904, [1604; 1605; 1581]); (64905, [1605; 1581; 1580]); (64906, [1605; 1581; 1605]);
   (64907, [1605; 1581; 1610]); (64908, [1605; 1580; 1581]); (64909, [1605; 1580; 1605]);
   (64910, [1605; 1582; 1580]); (64911, [1605; 1582; 1605]); (64914, [1605; 1580; 1582]);
   (64915, [1607; 1605; 1580]); (64916, [1607; 1605; 1605]); (64917, [1606; 1581; 1605]);
   (64918, [1606; 1581; 1609]); (64919, [1606; 1580; 1605]); (64920, [1606; 1580; 1605]);
   (64921, [1606; 1580; 1609]); (64922, [1606; 1605; 1610]); (64923, [1606; 1605; 1609]);
   (64924, [1610; 1605; 1605]); (64925, [1610; 1605; 1605]); (64926, [1576; 1582; 1610]);
   (64927, [1578; 1580; 1610]); (64928, [1578; 1580; 1609]); (64929, [1578; 1582; 1610]);
   (64930, [1578; 1582; 1609]); (64931, [1578; 1605; 1610]); (64932, [1578; 1605; 1609]);
   (64933, [1580; 1605; 1610]); (64934, [1580; 1581; 1609]); (64935, [1580; 1605; 1609]);
   (64936, [1587; 1582; 1609]); (64937, [1589; 1581; 1610]); (64938, [1588; 1581; 1610]);
   (64939, [1590; 1581; 1610]); (64940, [1604; 1580; 1610]); (64941, [1604; 1605; 1610]);
   (64942, [1610; 1581; 1610]); (64943, [1610; 1580; 1610]); (64944, [1610; 1605; 1610]);
   (64945, [1605; 1605; 1610]); (64946, [1602; 1605; 1610]); (64947, [1606; 1581; 1610]);
   (64948, [1602; 1605; 1581]); (64949, [1604; 1581; 1605]); (64950, [1593; 1605; 1610]);
   (64951, [1603; 1605; 1610]); (64952, [1606; 1580; 1581]); (64953, [1605; 1582; 1610]);
   (64954, [1604; 1580; 1605]); (64955, [1603; 1605; 1605]); (64956, [1604; 1580; 1605]);
   (64957, [1606; 1580; 1581]); (64958, [1580; 1581; 1610]); (64959, [1581; 1580; 1610]);
   (64960, [1605; 1580; 1610]); (64961, [1601; 1605; 1610]); (64962, [1576; 1581; 1610]);
   (64963, [1603; 1605; 1605]); (64964, [1593; 1580; 1605]); (64965, [1589; 1605; 1605]);
   (64966, [1587; 1582; 1610]); (64967, [1606; 1580; 1610]); (65008, [1589; 1604; 1746]);
   (65009, [1602; 1604; 1746]); (65010, [1575; 1604; 1604; 1607]);
   (65011, [1575; 1603; 1576; 1585]); (65012, [1605; 1581; 1605; 1583]);
   (65013, [1589; 1604; 1593; 1605]); (65014, [1585; 1587; 1608; 1604]);
   (65015, [1593; 1604; 1610; 1607]); (65016, [1608; 1587; 1604; 1605]);
   (65017, [1589; 1604; 1609]);
   (65018, [1589; 1604; 1609; 32; 1575; 1604; 1604; 1607; 32; 1593; 1604; 1610; 1607; 32; 1608; 1587; 1604; 1605]);
   (65019, [1580; 1604; 32; 1580; 1604; 1575; 1604; 1607]); (65020, [1585; 1740; 1575; 1604]);
   (65040, [44]); (65041, [12289]); (65042, [12290]); (65043, [58]); (65044, [59]);
   (65045, [33]); (65046, [63]); (65047, [12310]); (65048, [12311]); (65049, [46; 46; 46]);
   (65072, [46; 46]); (65073, [8212]); (65074, [8211]); (65075, [95]); (65076, [95]);
   (65077, [40]); (65078, [41]); (65079, [123]); (65080, [125]); (65081, [12308]);
   (65082, [12309]); (65083, [12304]); (65084, [12305]); (65085, [12298]); (65086, [12299]);
   (65087, [12296]); (65088, [12297]); (65095, [91]); (65096, [93]); (65097, [32; 773]);
   (65098, [32; 773]); (65099, [32; 773]); (65100, [32; 773]); (65101, [95]); (65102, [95]);
   (65103, [95]); (65104, [44]); (65105, [12289]); (65106, [46]); (65108, [59]); (65109, [58]);
   (65110, [63]); (65111, [33]); (65112, [8212]); (65113, [40]); (65114, [41]); (65115, [123]);
   (65116, [125]); (65117, [12308]); (65118, [12309]); (65119, [35]); (65120, [38]);
   (65121, [42]); (65122, [43]); (65123, [45]); (65124, [60]); (65125, [62]); (65126, [61]);
   (65128, [92]); (65129, [36]); (65130, [37]); (65131, [64]); (65136, [32; 1611]);
   (65137, [1600; 1611]); (65138, [32; 1612]); (65140, [32; 1613]); (65142, [32; 1614]);
   (65143, [1600; 1614]); (65144, [32; 1615]); (65145, [1600; 1615]); (65146, [32; 1616]);
   (65147, [1600; 1616]); (65148, [32; 1617]); (65149, [1600; 1617]); (65150, [32; 1618]);
   (65151, [1600; 1618]); (65152, [1569]); (65153, [1575; 1619]); (65154, [1575; 1619]);
   (65155, [1575; 1620]); (65156, [1575; 1620]); (65157, [1608; 1620]); (65158, [1608; 1620]);
   (65159, [1575; 1621]); (65160, [1575; 1621]); (65161, [1610; 1620]); (65162, [1610; 1620]);
   (65163, [1610; 1620]); (65164, [1610; 1620]); (65165, [1575]); (65166, [1575]);
   (65167, [1576]); (65168, [1576]); (65169, [1576]); (65170, [1576]); (65171, [1577]);
   (65172, [1577]); (65173, [1578]); (65174, [1578]); (65175, [1578]); (65176, [1578]);
   (65177, [1579]); (65178, [1579]); (65179, [1579]); (65180, [1579]); (65181, [1580]);
   (65182, [1580]); (65183, [1580]); (65184, [1580]); (65185, [1581]); (65186, [1581]);
   (65187, [1581]); (65188, [1581]); (65189, [1582]); (65190, [1582]); (65191, [1582]);
   (65192, [1582]); (65193, [1583]); (65194, [1583]); (65195, [1584]); (65196, [1584]);
   (65197, [1585]); (65198, [1585]); (65199, [1586]); (65200, [1586]); (65201, [1587]);
   (65202, [1587]); (65203, [1587]); (65204, [1587]); (65205, [1588]); (65206, [1588]);
   (65207, [1588]); (65208, [1588]); (65209, [1589]); (65210, [1589]); (65211, [1589]);
   (65212, [1589]); (65213, [1590]); (65214, [1590]); (65215, [1590]); (65216, [1590]);
   (65217, [1591]); (65218, [1591]); (65219, [1591]); (65220, [1591]); (65221, [1592]);
   (65222, [1592]); (65223, [1592]); (65224, [1592]); (65225, [1593]); (65226, [1593]);
   (65227, [1593]); (65228, [1593]); (65229, [1594]); (65230, [1594]); (65231, [1594]);
   (65232, [1594]); (65233, [1601]); (65234, [1601]); (65235, [1601]); (65236, [1601]);
   (65237, [1602]); (65238, [1602]); (65239, [1602]); (65240, [1602]); (65241, [1603]);
   (65242, [1603]); (65243, [1603]); (65244, [1603]); (65245, [1604]); (65246, [1604]);
   (65247, [1604]); (65248, [1604]); (65249, [1605]); (65250, [1605]); (65251, [1605]);
   (65252, [1605]); (65253, [1606]); (65254, [1606]); (65255, [1606]); (65256, [1606]);
   (65257, [1607]); (65258, [1607]); (65259, [1607]); (65260, [1607]); (65261, [1608]);
   (65262, [1608]); (65263, [1609]); (65264, [1609]); (65265, [1610]); (65266, [1610]);
   (65267, [1610]); (65268, [1610]); (65269, [1604; 1575; 1619]); (65270, [1604; 1575; 1619]);
   (65271, [1604; 1575; 1620]); (65272, [1604; 1575; 1620]); (65273, [1604; 1575; 1621]);
   (65274, [1604; 1575; 1621]); (65275, [1604; 1575]); (65276, [1604; 1575]); (65375, [10629]);
   (65376, [10630]); (65377, [12290]); (65378, [12300]); (65379, [12301]); (65380, [12289]);
   (65381, [12539]); (65382, [12530]); (65383, [12449]); (65384, [12451]); (65385, [12453]);
   (65386, [12455]); (65387, [12457]); (65388, [12515]); (65389, [12517]); (65390, [12519]);
   (65391, [12483]); (65392, [12540]); (65393, [12450]); (65394, [12452]); (65395, [12454]);
   (65396, [12456]); (65397, [12458]); (65398, [12459]); (65399, [12461]); (65400, [12463]);
   (65401, [12465]); (65402, [12467]); (65403, [12469]); (65404, [12471]); (65405, [12473]);
   (65406, [12475]); (65407, [12477]); (65408, [12479]); (65409, [12481]); (65410, [12484]);
   (65411, [12486]); (65412, [12488]); (65419, [12498]); (65420, [12501]); (65421, [12504]);
   (65422, [12507]); (65428, [12516]); (65429, [12518]); (65436, [12527]); (65437, [12531]);
   (65438, [12441]); (65439, [12442]); (65440, [4448]); (65441, [4352]); (65442, [4353]);
   (65443, [4522]); (65444, [4354]); (65445, [4524]); (65446, [4525]); (65456, [4378]);
   (65460, [4385]); (65504, [162]); (65505, [163]); (65506, [172]); (65507, [32; 772]);
   (65508, [166]); (65509, [165]); (65510, [8361]); (65512, [9474]); (65517, [9632]);
   (65518, [9675]); (67457, [720]); (67458, [721]); (67459, [230]); (67460, [665]);
   (67461, [595]); (67463, [675]); (67464, [43878]); (67465, [677]); (67466, [676]);
   (67467, [598]); (67468, [599]); (67469, [7569]); (67470, [600]); (67471, [606]);
   (67472, [681]); (67473, [612]); (67474, [610]); (67475, [608]); (67476, [667]);
   (67477, [295]); (67478, [668]); (67479, [615]); (67480, [644]); (67481, [682]);
   (67482, [683]); (67483, [620]); (67484, [122628]); (67485, [42894]); (67486, [622]);
   (67487, [122629]); (67488, [654]); (67489, [122630]); (67490, [248]); (67491, [630]);
   (67492, [631]); (67493, [113]); (67494, [634]); (67495, [122632]); (67496, [637]);
   (67497, [638]); (67498, [640]); (67499, [680]); (67500, [678]); (67501, [43879]);
   (67502, [679]); (67503, [648]); (67504, [11377]); (67506, [655]); (67507, [673]);
   (67508, [674]); (67509, [664]); (67513, [122634]); (67514, [122654]);
   (69786, [69785; 69818]); (69788, [69787; 69818]); (69803, [69797; 69818]);
   (69934, [69937; 69927]); (69935, [69938; 69927]); (70475, [70471; 70462]);
   (70476, [70471; 70487]); (70843, [70841; 70842]); (70844, [70841; 70832]);
   (70846, [70841; 70845]); (71098, [71096; 71087]); (71099, [71097; 71087]);
   (71992, [71989; 71984]); (119134, [119127; 119141]); (119135, [119128; 119141]);
   (119136, [119128; 119141; 119150]); (119137, [119128; 119141; 119151]);
   (119138, [119128; 119141; 119152]); (119139, [119128; 119141; 119153]);
   (119140, [119128; 119141; 119154]); (119227, [119225; 119141]); (119228, [119226; 119141]);
   (119229, [119225; 119141; 119150]); (119230, [119226; 119141; 119150]);
   (119231, [119225; 119141; 119151]); (119232, [119226; 119141; 119151]); (119964, [65]);
   (119966, [67]); (119967, [68]); (119970, [71]); (119973, [74]); (119974, [75]);
   (119995, [102]); (120068, [65]); (120069, [66]); (120120, [65]); (120121, [66]);
   (120134, [79]); (120484, [305]); (120485, [567]); (120505, [920]); (120513, [8711]);
   (120539, [8706]); (120540, [949]); (120541, [952]); (120542, [954]); (120543, [966]);
   (120544, [961]); (120545, [960]); (120563, [920]); (120571, [8711]); (120597, [8706]);
   (120598, [949]); (120599, [952]); (120600, [954]); (120601, [966]); (120602, [961]);
   (120603, [960]); (120621, [920]); (120629, [8711]); (120655, [8706]); (120656, [949]);
   (120657, [952]); (120658, [954]); (120659, [966]); (120660, [961]); (120661, [960]);
   (120679, [920]); (120687, [8711]); (120713, [8706]); (120714, [949]); (120715, [952]);
   (120716, [954]); (120717, [966]); (120718, [961]); (120719, [960]); (120737, [920]);
   (120745, [8711]); (120771, [8706]); (120772, [949]); (120773, [952]); (120774, [954]);
   (120775, [966]); (120776, [961]); (120777, [960]); (120778, [988]); (120779, [989]);
   (126464, [1575]); (126465, [1576]); (126466, [1580]); (126467, [1583]); (126469, [1608]);
   (126470, [1586]); (126471, [1581]); (126472, [1591]); (126473, [1610]); (126478, [1587]);
   (126479, [1593]); (126480, [1601]); (126481, [1589]); (126482, [1602]); (126483, [1585]);
   (126484, [1588]); (126485, [1578]); (126486, [1579]); (126487, [1582]); (126488, [1584]);
   (126489, [1590]); (126490, [1592]); (126491, [1594]); (126492, [1646]); (126493, [1722]);
   (126494, [1697]); (126495, [1647]); (126497, [1576]); (126498, [1580]); (126500, [1607]);
   (126503, [1581]); (126505, [1610]); (126510, [1587]); (126511, [1593]); (126512, [1601]);
   (126513, [1589]); (126514, [1602]); (126516, [1588]); (126517, [1578]); (126518, [1579]);
   (126519, [1582]); (126521, [1590]); (126523, [1594]); (126530, [1580]); (126535, [1581]);
   (126537, [1610]); (126539, [1604]); (126541, [1606]); (126542, [1587]); (126543, [1593]);
   (126545, [1589]); (126546, [1602]); (126548, [1588]); (126551, [1582]); (126553, [1590]);
   (126555, [1594]); (126557, [1722]); (126559, [1647]); (126561, [1576]); (126562, [1580]);
   (126564, [1607]); (126567, [1581]); (126568, [1591]); (126569, [1610]); (126570, [1603]);
   (126572, [1605]); (126573, [1606]); (126574, [1587]); (126575, [1593]); (126576, [1601]);
   (126577, [1589]); (126578, [1602]); (126580, [1588]); (126581, [1578]); (126582, [1579]);
   (126583, [1582]); (126585, [1590]); (126586, [1592]); (126587, [1594]); (126588, [1646]);
   (126590, [1697]); (126592, [1575]); (126593, [1576]); (126594, [1580]); (126595, [1583]);
   (126596, [1607]); (126597, [1608]); (126598, [1586]); (126599, [1581]); (126600, [1591]);
   (126601, [1610]); (126606, [1587]); (126607, [1593]); (126608, [1601]); (126609, [1589]);
   (126610, [1602]); (126611, [1585]); (126612, [1588]); (126613, [1578]); (126614, [1579]);
   (126615, [1582]); (126616, [1584]); (126617, [1590]); (126618, [1592]); (126619, [1594]);
   (126625, [1576]); (126626, [1580]); (126627, [1583]); (126629, [1608]); (126630, [1586]);
   (126631, [1581]); (126632, [1591]); (126633, [1610]); (126638, [1587]); (126639, [1593]);
   (126640, [1601]); (126641, [1589]); (126642, [1602]); (126643, [1585]); (126644, [1588]);
   (126645, [1578]); (126646, [1579]); (126647, [1582]); (126648, [1584]); (126649, [1590]);
   (126650, [1592]); (126651, [1594]); (127232, [48; 46]); (127233, [48; 44]);
   (127234, [49; 44]); (127235, [50; 44]); (127236, [51; 44]); (127237, [52; 44]);
   (127238, [53; 44]); (127239, [54; 44]); (127240, [55; 44]); (127241, [56; 44]);
   (127242, [57; 44]); (127248, [40; 65; 41]); (127249, [40; 66; 41]); (127250, [40; 67; 41]);
   (127251, [40; 68; 41]); (127252, [40; 69; 41]); (127253, [40; 70; 41]);
   (127254, [40; 71; 41]); (127255, [40; 72; 41]); (127256, [40; 73; 41]);
   (127257, [40; 74; 41]); (127258, [40; 75; 41]); (127259, [40; 76; 41]);
   (127260, [40; 77; 41]); (127261, [40; 78; 41]); (127262, [40; 79; 41]);
   (127263, [40; 80; 41]); (127264, [40; 81; 41]); (127265, [40; 82; 41]);
   (127266, [40; 83; 41]); (127267, [40; 84; 41]); (127268, [40; 85; 41]);
   (127269, [40; 86; 41]); (127270, [40; 87; 41]); (127271, [40; 88; 41]);
   (127272, [40; 89; 41]); (127273, [40; 90; 41]); (127274, [12308; 83; 12309]);
   (127275, [67]); (127276, [82]); (127277, [67; 68]); (127278, [87; 90]); (127306, [72; 86]);
   (127307, [77; 86]); (127308, [83; 68]); (127309, [83; 83]); (127310, [80; 80; 86]);
   (127311, [87; 67]); (127338, [77; 67]); (127339, [77; 68]); (127340, [77; 82]);
   (127376, [68; 74]); (127488, [12411; 12363]); (127489, [12467; 12467]); (127490, [12469]);
   (127504, [25163]); (127505, [23383]); (127506, [21452]); (127507, [12486; 12441]);
   (127508, [20108]); (127509, [22810]); (127510, [35299]); (127511, [22825]);
   (127512, [20132]); (127513, [26144]); (127514, [28961]); (127515, [26009]);
   (127516, [21069]); (127517, [24460]); (127518, [20877]); (127519, [26032]);
   (127520, [21021]); (127521, [32066]); (127522, [29983]); (127523, [36009]);
   (127524, [22768]); (127525, [21561]); (127526, [28436]); (127527, [25237]);
   (127528, [25429]); (127529, [19968]); (127530, [19977]); (127531, [36938]);
   (127532, [24038]); (127533, [20013]); (127534, [21491]); (127535, [25351]);
   (127536, [36208]); (127537, [25171]); (127538, [31105]); (127539, [31354]);
   (127540, [21512]); (127541, [28288]); (127542, [26377]); (127543, [26376]);
   (127544, [30003]); (127545, [21106]); (127546, [21942]); (127547, [37197]);
   (127552, [12308; 26412; 12309]); (127553, [12308; 19977; 12309]);
   (127554, [12308; 20108; 12309]); (127555, [12308; 23433; 12309]);
   (127556, [12308; 28857; 12309]); (127557, [12308; 25171; 12309]);
   (127558, [12308; 30423; 12309]); (127559, [12308; 21213; 12309]);
   (127560, [12308; 25943; 12309]); (127568, [24471]); (127569, [21487]); (194560, [20029]);
   (194561, [20024]); (194562, [20033]); (194563, [131362]); (194564, [20320]);
   (194565, [20398]); (194566, [20411]); (194567, [20482]); (194568, [20602]);
   (194569, [20633]); (194570, [20711]); (194571, [20687]); (194572, [13470]);
   (194573, [132666]); (194574, [20813]); (194575, [20820]); (194576, [20836]);
   (194577, [20855]); (194578, [132380]); (194579, [13497]); (194580, [20839]);
   (194581, [20877]); (194582, [132427]); (194583, [20887]); (194584, [20900]);
   (194585, [20172]); (194586, [20908]); (194587, [20917]); (194588, [168415]);
   (194589, [20981]); (194590, [20995]); (194591, [13535]); (194592, [21051]);
   (194593, [21062]); (194594, [21106]); (194595, [21111]); (194596, [13589]);
   (194597, [21191]); (194598, [21193]); (194599, [21220]); (194600, [21242]);
   (194601, [21253]); (194602, [21254]); (194603, [21271]); (194604, [21321]);
   (194605, [21329]); (194606, [21338]); (194607, [21363]); (194608, [21373]);
   (194609, [21375]); (194610, [21375]); (194611, [21375]); (194612, [133676]);
   (194613, [28784]); (194614, [21450]); (194615, [21471]); (194616, [133987]);
   (194617, [21483]); (194618, [21489]); (194619, [21510]); (194620, [21662]);
   (194621, [21560]); (194622, [21576]); (194623, [21608]); (194624, [21666]);
   (194625, [21750]); (194626, [21776]); (194627, [21843]); (194628, [21859]);
   (194629, [21892]); (194630, [21892]); (194631, [21913]); (194632, [21931]);
   (194633, [21939]); (194634, [21954]); (194635, [22294]); (194636, [22022]);
   (194637, [22295]); (194638, [22097]); (194639, [22132]); (194640, [20999]);
   (194641, [22766]); (194642, [22478]); (194643, [22516]); (194644, [22541]);
   (194645, [22411]); (194646, [22578]); (194647, [22577]); (194648, [22700]);
   (194649, [136420]); (194650, [22770]); (194651, [22775]); (194652, [22790]);
   (194653, [22810]); (194654, [22818]); (194655, [22882]); (194656, [136872]);
   (194657, [136938]); (194658, [23020]); (194659, [23067]); (194660, [23079]);
   (194661, [23000]); (194662, [23142]); (194663, [14062]); (194664, [14076]);
   (194665, [23304]); (194666, [23358]); (194667, [23358]); (194668, [137672]);
   (194669, [23491]); (194670, [23512]); (194671, [23527]); (194672, [23539]);
   (194673, [138008]); (194674, [23551]); (194675, [23558]); (194676, [24403]);
   (194677, [23586]); (194678, [14209]); (194679, [23648]); (194680, [23662]);
   (194681, [23744]); (194682, [23693]); (194683, [138724]); (194684, [23875]);
   (194685, [138726]); (194686, [23918]); (194687, [23915]); (194688, [23932]);
   (194689, [24033]); (194690, [24034]); (194691, [14383]); (194692, [24061]);
   (194693, [24104]); (194694, [24125]); (194695, [24169]); (194696, [14434]);
   (194697, [139651]); (194698, [14460]); (194699, [24240]); (194700, [24243]);
   (194701, [24246]); (194702, [24266]); (194703, [172946]); (194704, [24318]);
   (194705, [140081]); (194706, [140081]); (194707, [33281]); (194708, [24354]);
   (194709, [24354]); (194710, [14535]); (194711, [144056]); (194712, [156122]);
   (194713, [24418]); (194714, [24427]); (194715, [14563]); (194716, [24474]);
   (194717, [24525]); (194718, [24535]); (194719, [24569]); (194720, [24705]);
   (194721, [14650]); (194722, [14620]); (194723, [24724]); (194724, [141012]);
   (194725, [24775]); (194726, [24904]); (194727, [24908]); (194728, [24910]);
   (194729, [24908]); (194730, [24954]); (194731, [24974]); (194732, [25010]);
   (194733, [24996]); (194734, [25007]); (194735, [25054]); (194736, [25074]);
   (194737, [25078]); (194738, [25104]); (194739, [25115]); (194740, [25181]);
   (194741, [25265]); (194742, [25300]); (194743, [25424]); (194744, [142092]);
   (194745, [25405]); (194746, [25340]); (194747, [25448]); (194748, [25475]);
   (194749, [25572]); (194750, [142321]); (194751, [25634]); (194752, [25541]);
   (194753, [25513]); (194754, [14894]); (194755, [25705]); (194756, [25726]);
   (194757, [25757]); (194758, [25719]); (194759, [14956]); (194760, [25935]);
   (194761, [25964]); (194762, [143370]); (194763, [26083]); (194764, [26360]);
   (194765, [26185]); (194766, [15129]); (194767, [26257]); (194768, [15112]);
   (194769, [15076]); (194770, [20882]); (194771, [20885]); (194772, [26368]);
   (194773, [26268]); (194774, [32941]); (194775, [17369]); (194776, [26391]);
   (194777, [26395]); (194778, [26401]); (194779, [26462]); (194780, [26451]);
   (194781, [144323]); (194782, [15177]); (194783, [26618]); (194784, [26501]);
   (194785, [26706]); (194786, [26757]); (194787, [144493]); (194788, [26766]);
   (194789, [26655]); (194790, [26900]); (194791, [15261]); (194792, [26946]);
   (194793, [27043]); (194794, [27114]); (194795, [27304]); (194796, [145059]);
   (194797, [27355]); (194798, [15384]); (194799, [27425]); (194800, [145575]);
   (194801, [27476]); (194802, [15438]); (194803, [27506]); (194804, [27551]);
   (194805, [27578]); (194806, [27579]); (194807, [146061]); (194808, [138507]);
   (194809, [146170]); (194810, [27726]); (194811, [146620]); (194812, [27839]);
   (194813, [27853]); (194814, [27751]); (194815, [27926]); (194816, [27966]);
   (194817, [28023]); (194818, [27969]); (194819, [28009]); (194820, [28024]);
   (194821, [28037]); (194822, [146718]); (194823, [27956]); (194824, [28207]);
   (194825, [28270]); (194826, [15667]); (194827, [28363]); (194828, [28359]);
   (194829, [147153]); (194830, [28153]); (194831, [28526]); (194832, [147294]);
   (194833, [147342]); (194834, [28614]); (194835, [28729]); (194836, [28702]);
   (194837, [28699]); (194838, [15766]); (194839, [28746]); (194840, [28797]);
   (194841, [28791]); (194842, [28845]); (194843, [132389]); (194844, [28997]);
   (194845, [148067]); (194846, [29084]); (194847, [148395]); (194848, [29224]);
   (194849, [29237]); (194850, [29264]); (194851, [149000]); (194852, [29312]);
   (194853, [29333]); (194854, [149301]); (194855, [149524]); (194856, [29562]);
   (194857, [29579]); (194858, [16044]); (194859, [29605]); (194860, [16056]);
   (194861, [16056]); (194862, [29767]); (194863, [29788]); (194864, [29809]);
   (194865, [29829]); (194866, [29898]); (194867, [16155]); (194868, [29988]);
   (194869, [150582]); (194870, [30014]); (194871, [150674]); (194872, [30064]);
   (194873, [139679]); (194874, [30224]); (194875, [151457]); (194876, [151480]);
   (194877, [151620]); (194878, [16380]); (194879, [16392]); (194880, [30452]);
   (194881, [151795]); (194882, [151794]); (194883, [151833]); (194884, [151859]);
   (194885, [30494]); (194886, [30495]); (194887, [30495]); (194888, [30538]);
   (194889, [16441]); (194890, [30603]); (194891, [16454]); (194892, [16534]);
   (194893, [152605]); (194894, [30798]); (194895, [30860]); (194896, [30924]);
   (194897, [16611]); (194898, [153126]); (194899, [31062]); (194900, [153242]);
   (194901, [153285]); (194902, [31119]); (194903, [31211]); (194904, [16687]);
   (194905, [31296]); (194906, [31306]); (194907, [31311]); (194908, [153980]);
   (194909, [154279]); (194910, [154279]); (194911, [31470]); (194912, [16898]);
   (194913, [154539]); (194914, [31686]); (194915, [31689]); (194916, [16935]);
   (194917, [154752]); (194918, [31954]); (194919, [17056]); (194920, [31976]);
   (194921, [31971]); (194922, [32000]); (194923, [155526]); (194924, [32099]);
   (194925, [17153]); (194926, [32199]); (194927, [32258]); (194928, [32325]);
   (194929, [17204]); (194930, [156200]); (194931, [156231]); (194932, [17241]);
   (194933, [156377]); (194934, [32634]); (194935, [156478]); (194936, [32661]);
   (194937, [32762]); (194938, [32773]); (194939, [156890]); (194940, [156963]);
   (194941, [32864]); (194942, [157096]); (194943, [32880]); (194944, [144223]);
   (194945, [17365]); (194946, [32946]); (194947, [33027]); (194948, [17419]);
   (194949, [33086]); (194950, [23221]); (194951, [157607]); (194952, [157621]);
   (194953, [144275]); (194954, [144284]); (194955, [33281]); (194956, [33284]);
   (194957, [36766]); (194958, [17515]); (194959, [33425]); (194960, [33419]);
   (194961, [33437]); (194962, [21171]); (194963, [33457]); (194964, [33459]);
   (194965, [33469]); (194966, [33510]); (194967, [158524]); (194968, [33509]);
   (194969, [33565]); (194970, [33635]); (194971, [33709]); (194972, [33571]);
   (194973, [33725]); (194974, [33767]); (194975, [33879]); (194976, [33619]);
   (194977, [33738]); (194978, [33740]); (194979, [33756]); (194980, [158774]);
   (194981, [159083]); (194982, [158933]); (194983, [17707]); (194984, [34033]);
   (194985, [34035]); (194986, [34070]); (194987, [160714]); (194988, [34148]);
   (194989, [159532]); (194990, [17757]); (194991, [17761]); (194992, [159665]);
   (194993, [159954]); (194994, [17771]); (194995, [34384]); (194996, [34396]);
   (194997, [34407]); (194998, [34409]); (194999, [34473]); (195000, [34440]);
   (195001, [34574]); (195002, [34530]); (195003, [34681]); (195004, [34600]);
   (195005, [34667]); (195006, [34694]); (195007, [17879]); (195008, [34785]);
   (195009, [34817]); (195010, [17913]); (195011, [34912]); (195012, [34915]);
   (195013, [161383]); (195014, [35031]); (195015, [35038]); (195016, [17973]);
   (195017, [35066]); (195018, [13499]); (195019, [161966]); (195020, [162150]);
   (195021, [18110]); (195022, [18119]); (195023, [35488]); (195024, [35565]);
   (195025, [35722]); (195026, [35925]); (195027, [162984]); (195028, [36011]);
   (195029, [36033]); (195030, [36123]); (195031, [36215]); (195032, [163631]);
   (195033, [133124]); (195034, [36299]); (195035, [36284]); (195036, [36336]);
   (195037, [133342]); (195038, [36564]); (195039, [36664]); (195040, [165330]);
   (195041, [165357]); (195042, [37012]); (195043, [37105]); (195044, [37137]);
   (195045, [165678]); (195046, [37147]); (195047, [37432]); (195048, [37591]);
   (195049, [37592]); (195050, [37500]); (195051, [37881]); (195052, [37909]);
   (195053, [166906]); (195054, [38283]); (195055, [18837]); (195056, [38327]);
   (195057, [167287]); (195058, [18918]); (195059, [38595]); (195060, [23986]);
   (195061, [38691]); (195062, [168261]); (195063, [168474]); (195064, [19054]);
   (195065, [19062]); (195066, [38880]); (195067, [168970]); (195068, [19122]);
   (195069, [169110]); (195070, [38923]); (195071, [38923]); (195072, [38953]);
   (195073, [169398]); (195074, [39138]); (195075, [19251]); (195076, [39209]);
   (195077, [39335]); (195078, [39362]); (195079, [39422]); (195080, [19406]);
   (195081, [170800]); (195082, [39698]); (195083, [40000]); (195084, [40189]);
   (195085, [19662]); (195086, [19693]); (195087, [40295]); (195088, [172238]);
   (195089, [19704]); (195090, [172293]); (195091, [172558]); (195092, [172689]);
   (195093, [40635]); (195094, [19798]); (195095, [40697]); (195096, [40702]);
   (195097, [40709]); (195098, [40719]); (195099, [40726]); (195100, [40763]);
   (195101, [173568])
  ]%N.

Fixpoint decomp_run (c : N) (runs : list (N * N * N)) : option N :=
  match runs with
  | [] => None
  | (first, last, target) :: rest =>
    if (c <? first)%N then None
    else if (c <=? last)%N then Some (target + (c - first))%N
    else decomp_run c rest
  end.

Fixpoint decomp_entry (c : N) (table : list (N * pystr)) : option pystr :=
  match table with
  | [] => None
  | (k, d) :: rest =>
    if (c <? k)%N then None
    else if (c =? k)%N then Some d
    else decomp_entry c rest
  end.

(** The decomposition of a Hangul syllable into its jamo, which the
    standard gives by arithmetic. *)
Definition hangul_decomp (c : N) : pystr :=
  (let s := c - 44032 in
   let l := 4352 + s / 588 in
   let v := 4449 + (s mod 588) / 28 in
   let t := 4519 + s mod 28 in
   if t =? 4519 then [l; v] else [l; v; t])%N.

(** The full compatibility decomposition of one code point. *)
Definition decomp (c : N) : pystr :=
  if (c <? 160)%N then [c]
  else if ((44032 <=? c) && (c <=? 55203))%N then hangul_decomp c
  else match decomp_entry c DECOMP_TABLE with
       | Some d => d
       | None =>
         match decomp_run c DECOMP_RUNS with
         | Some t => [t]
         | None => [c]
         end
       end.

(** [unicodedata.normalize("NFKD", s)], up to the order of adjacent
    combining marks (the marks are all deleted by the next step of
    [_normalize], the only caller). *)
Definition nfkd (s : pystr) : pystr := flat_map decomp s.

(** The code points whose canonical combining class is not 0, as
    ranges. *)
Definition COMBINING_RANGES : list (N * N) :=
  [
   (768, 846); (848, 879); (1155, 1159); (1425, 1469); (1471, 1471); (1473, 1474);
   (1476, 1477); (1479, 1479); (1552, 1562); (1611, 1631); (1648, 1648); (1750, 1756);
   (1759, 1764); (1767, 1768); (1770, 1773); (1809, 1809); (1840, 1866); (2027, 2035);
   (2045, 2045); (2070, 2073); (2075, 2083); (2085, 2087); (2089, 2093); (2137, 2139);
   (2200, 2207); (2250, 2273); (2275, 2303); (2364, 2364); (2381, 2381); (2385, 2388);
   (2492, 2492); (2509, 2509); (2558, 2558); (2620, 2620); (2637, 2637); (2748, 2748);
   (2765, 2765); (2876, 2876); (2893, 2893); (3021, 3021); (3132, 3132); (3149, 3149);
   (3157, 3158); (3260, 3260); (3277, 3277); (3387, 3388); (3405, 3405); (3530, 3530);
   (3640, 3642); (3656, 3659); (3768, 3770); (3784, 3787); (3864, 3865); (3893, 3893);
   (3895, 3895); (3897, 3897); (3953, 3954); (3956, 3956); (3962, 3965); (3968, 3968);
   (3970, 3972); (3974, 3975); (4038, 4038); (4151, 4151); (4153, 4154); (4237, 4237);
   (4957, 4959); (5908, 5909); (5940, 5940); (6098, 6098); (6109, 6109); (6313, 6313);
   (6457, 6459); (6679, 6680); (6752, 6752); (6773, 6780); (6783, 6783); (6832, 6845);
   (6847, 6862); (6964, 6964); (6980, 6980); (7019, 7027); (7082, 7083); (7142, 7142);
   (7154, 7155); (7223, 7223); (7376, 7378); (7380, 7392); (7394, 7400); (7405, 7405);
   (7412, 7412); (7416, 7417); (7616, 7679); (8400, 8412); (8417, 8417); (8421, 8432);
   (11503, 11505); (11647, 11647); (11744, 11775); (12330, 12335); (12441, 12442);
   (42607, 42607); (42612, 42621); (42654, 42655); (42736, 42737); (43014, 43014);
   (43052, 43052); (43204, 43204); (43232, 43249); (43307, 43309); (43347, 43347);
   (43443, 43443); (43456, 43456); (43696, 43696); (43698, 43700); (43703, 43704);
   (43710, 43711); (43713, 43713); (43766, 43766); (44013, 44013); (64286, 64286);
   (65056, 65071); (66045, 66045); (66272, 66272); (66422, 66426); (68109, 68109);
   (68111, 68111); (68152, 68154); (68159, 68159); (68325, 68326); (68900, 68903);
   (69291, 69292); (69446, 69456); (69506, 69509); (69702, 69702); (69744, 69744);
   (69759, 69759); (69817, 69818); (69888, 69890); (69939, 69940); (70003, 70003);
   (70080, 70080); (70090, 70090); (70197, 70198); (70377, 70378); (70459, 70460);
   (70477, 70477); (70502, 70508); (70512, 70516); (70722, 70722); (70726, 70726);
   (70750, 70750); (70850, 70851); (71103, 71104); (71231, 71231); (71350, 71351);
   (71467, 71467); (71737, 71738); (71997, 71998); (72003, 72003); (72160, 72160);
   (72244, 72244); (72263, 72263); (72345, 72345); (72767, 72767); (73026, 73026);
   (73028, 73029); (73111, 73111); (92912, 92916); (92976, 92982); (94192, 94193);
   (113822, 113822); (119141, 119145); (119149, 119154); (119163, 119170); (119173, 119179);
   (119210, 119213); (119362, 119364); (122880, 122886); (122888, 122904); (122907, 122913);
   (122915, 122916); (122918, 122922); (123184, 123190); (123566, 123566); (123628, 123631);
   (125136, 125142); (125252, 125258)
  ]%N.

Fixpoint in_ranges (c : N) (ranges : list (N * N)) : bool :=
  match ranges with
  | [] => false
  | (first, last) :: rest =>
    if (c <? first)%N then false
    else if (c <=? last)%N then true
    else in_ranges c rest
  end.

(** [unicodedata.combining(ch)] is non-zero. *)
Definition combining (c : N) : bool := in_ranges c COMBINING_RANGES.


(** [_normalize], the local helper of [load_from_excel]. *)
Definition allowed (c : N) : bool :=
  ((97 <=? c) && (c <=? 122) || (48 <=? c) && (c <=? 57) || (c =? 32))%N.

Definition _normalize (s : pystr) : pystr :=
  let s := py_lower (strip s) in
  let s := nfkd s in
  let s := filter (fun ch => negb (combining ch)) s in
  let s := map (fun ch => if allowed ch then ch else 32%N) s in
  py_join (u " ") (py_split s).

(* ================================================================== *)
(** * Python values and the run-time library *)
(* ================================================================== *)

(** The values an entry or a spreadsheet cell holds. *)
Inductive pyval : Type :=
| VNone
| VInt (z : Z)
| VFloat (f : float)
| VStr (s : pystr).

(** [float(n)] of a Python [int]: the nearest binary64 value, ties to
    even; [None] stands for the [OverflowError] of an integer too large. *)
Definition float_of_int (z : Z) : option float :=
  let f := SF2Prim (binary_normalize prec emax z 0 false) in
  if is_infinity f then None else Some f.

(** [str(n)] of a Python [int]. *)
Definition str_of_int (z : Z) : pystr :=
  map N_of_ascii (list_ascii_of_string (NilEmpty.string_of_int (Z.to_int z))).

(** The functions of the Python run-time library the program calls on
    text and numbers; the development holds for any of them. *)
Class PyRuntime : Type := {
  (** [float(s)] of a [str]; [None] stands for the [ValueError] *)
  float_of_str : pystr -> option float;
  (** [str(x)] of a [float] *)
  str_of_float : float -> pystr;
  (** [f"{x:.2f}"] *)
  format_2f : float -> pystr;
  (** [difflib.get_close_matches(word, choices, n=1, cutoff=c)], its
      single match if any *)
  get_close_match : pystr -> list pystr -> float -> option pystr
}.

(** A run-time library in which no text reads as a number; it serves to
    run the development on concrete sheets whose amounts are numeric. *)
Definition text_blind_runtime : PyRuntime :=
  {| float_of_str := fun _ => None;
     str_of_float := fun _ => u "0.0";
     format_2f := fun _ => u "0.00";
     get_close_match := fun _ _ _ => None |}.

(** Truth value of a Python value. *)
Definition truthy (v : pyval) : bool :=
  match v with
  | VNone => false
  | VInt z => negb (z =? 0)%Z
  | VFloat f => negb (PrimFloat.eqb f 0)
  | VStr s => match s with [] => false | _ => true end
  end.

(** [a or b] *)
Definition py_or (a b : pyval) : pyval := if truthy a then a else b.

(** ** Dictionaries

    A Python [dict] keeps its keys in insertion order; assigning to a key
    already present keeps the key's place. *)
Definition dict (A : Type) := list (pystr * A).

Fixpoint dict_get {A} (d : dict A) (k : pystr) : option A :=
  match d with
  | [] => None
  | (k', v) :: r => if pystr_eqb k k' then Some v else dict_get r k
  end.

(** [d.get(k, default)] *)
Definition dict_get_or {A} (d : dict A) (k : pystr) (default : A) : A :=
  match dict_get d k with Some v => v | None => default end.

(** [d[k] = v] *)
Fixpoint dict_set {A} (d : dict A) (k : pystr) (v : A) : dict A :=
  match d with
  | [] => [(k, v)]
  | (k', v') :: r => if pystr_eqb k k' then (k', v) :: r else (k', v') :: dict_set r k v
  end.

(** [k in d] *)
Definition dict_mem {A} (d : dict A) (k : pystr) : bool :=
  match dict_get d k with Some _ => true | None => false end.

(** The flat entry mapping, [Dict[str, float | str]]. *)
Definition entries := dict pyval.

(* ================================================================== *)
(** * Schema registry *)
(* ================================================================== *)

(** [SECTION_FIELDS]: side, then group, then the [(label, key)] pairs. *)
Definition SECTION_FIELDS : dict (dict (list (pystr * pystr))) :=
  Eval vm_compute in
  [
  (u "AKTIF", [
     (u "Dönen Varlıklar", [
        (u "Nakit ve Nakit Benzerleri", u "nakitVeNakitBenzerleri");
        (u "Gayrimenkul Projeleri Kapsamında Açılan Nakit Hesapları", u "gayrimenkulProjeleriNakitHesaplari");
        (u "Finansal Yatırımlar", u "finansalYatirimlar");
        (u "Teminata Verilen Finansal Varlıklar", u "teminataVerilenFinansalVarliklar");
        (u "Ticari Alacaklar", u "ticariAlacaklarDonen");
        (u "Finans Sektörü Faaliyetlerinden Alacaklar", u "finansSektoruFaaliyetlerindenAlacaklarDonen");
        (u "Türkiye Cumhuriyet Merkez Bankası Hesabı", u "tcmbHesabi");
        (u "Diğer Alacaklar", u "digerAlacaklarDonen");
        (u "Müşteri Sözleşmelerinden Doğan Varlıklar", u "musteriSozlesmelerindenDoganVarliklarDonen");
        (u "İmtiyaz Sözleşmelerine İlişkin Finansal Varlıklar", u "imtiyazSozlesmelerineIliskinFinansalVarliklarDonen");
        (u "Türev Araçlar", u "turevAraclarDonen");
        (u "Stoklar", u "stoklar");
        (u "Proje Halindeki Stoklar", u "projeHalindekiStoklar");
        (u "Canlı Varlıklar", u "canliVarliklarDonen");
        (u "Peşin Ödenmiş Giderler", u "pesinOdenmisGiderlerDonen");
        (u "Ertelenmiş Sigortacılık Üretim Giderleri", u "ertelenmisSigortacilikUretimGiderleri");
        (u "Cari Dönem Vergisiyle İlgili Varlıklar", u "cariDonemVergisiyleIlgiliVarliklarDonen");
        (u "Nakdi Dışı Serbest Kullanılabilir Teminatlar", u "nakdiDisiSerbestKullanilabilirTeminatlarDonen");
        (u "Diğer Dönen Varlıklar", u "digerDonenVarliklar");
        (u "Satış Amacıyla Elde Tutulan Duran Varlıklar", u "satisAmaciylaEldeTutulanDuranVarliklar");
        (u "Ortaklara Dağıtılmak Üzere Elde Tutulan Duran Varlıklar", u "ortaklaraDagitilmakUzereEldeTutulanDuranVarliklar");
        (u "Toplam Dönen Varlıklar", u "toplamDonenVarliklar_dummy") ]);
     (u "Duran Varlıklar", [
        (u "Finansal Yatırımlar", u "finansalYatirimlarDuran");
        (u "İştirakler, İş Ortaklıkları ve Bağlı Ortaklıklardaki Yatırımlar", u "istirakIsOrtaklikBagliOrtaklikYatirimlari");
        (u "Ticari Alacaklar", u "ticariAlacaklar");
        (u "Finans Sektörü Faaliyetlerinden Alacaklar", u "finansSektoruFaaliyetlerindenAlacaklarDuran");
        (u "Diğer Alacaklar", u "digerAlacaklarDuran");
        (u "Müşteri Sözleşmelerinden Doğan Varlıklar", u "musteriSozlesmelerindenDoganVarliklarDuran");
        (u "İmtiyaz Sözleşmelerine İlişkin Finansal Varlıklar", u "imtiyazSozlesmelerineIliskinFinansalVarliklarDuran");
        (u "Türev Araçlar", u "turevAraclarDuran");
        (u "Stoklar", u "stoklarDuran");
        (u "Özkaynak Yöntemiyle Değerlenen Yatırımlar", u "ozkaynakYontemiyleDegerlenenYatirimlar");
        (u "Canlı Varlıklar", u "canliVarliklarDuran");
        (u "Yatırım Amaçlı Gayrimenkuller", u "yatirimAmacliGayrimenkuller");
        (u "Proje Halindeki Yatırım Amaçlı Gayrimenkuller", u "projeHalindekiYatirimAmacliGayrimenkuller");
        (u "Maddi Duran Varlıklar", u "maddiDuranVarliklar");
        (u "Kullanım Hakkı Varlıkları", u "kullanimHakkiVarliklari");
        (u "Maddi Olmayan Duran Varlıklar", u "maddiOlmayanDuranVarliklar");
        (u "Peşin Ödenmiş Giderler", u "pesinOdenmisGiderlerDuran");
        (u "Ertelenmiş Vergi Varlığı", u "ertelenmisVergiVarligiDuran");
        (u "Cari Dönem Vergisiyle İlgili Duran Varlıklar", u "cariDonemVergisiyleIlgiliDuranVarliklar");
        (u "Nakdi Dışı Serbest Kullanılabilir Teminatlar", u "nakdiDisiSerbestKullanilabilirTeminatlarDuran");
        (u "Diğer Duran Varlıklar", u "digerDuranVarliklar");
        (u "Toplam Duran Varlıklar", u "toplamDuranVarliklar_dummy") ]) ]);
  (u "PASIF", [
     (u "Kısa Vadeli Yükümlülükler", [
        (u "Finansal Borçlar", u "finansalBorclarKV");
        (u "Diğer Finansal Yükümlülükler", u "digerFinansalYukumluluklerKV");
        (u "Ticari Borçlar", u "ticariBorclarKV");
        (u "Finans Sektörü Faaliyetlerinden Borçlar", u "finansSektoruFaaliyetlerindenBorclarKV");
        (u "Çalışanlara Sağlanan Faydalar Kapsamında Borçlar", u "calisanlaraSaglananFaydalarBorclarKV");
        (u "Diğer Borçlar", u "digerBorclarKV");
        (u "Müşteri Sözleşmelerinden Doğan Yükümlülükler", u "musteriSozlesmelerindenDoganYukumluluklerKV");
        (u "Özkaynak Yöntemiyle Değerlenen Yatırımlardan Yükümlülükler", u "ozkaynakYontemiyleDegerlenenYatirimlardanYukumluluklerKV");
        (u "Türev Araçlar", u "turevAraclarKV");
        (u "Devlet Teşvik ve Yardımları", u "devletTesvikYardimKV");
        (u "Ertelenmiş Gelirler", u "ertelenmisGelirlerKV");
        (u "Dönem Karı Vergi Yükümlülüğü", u "donemKariVergiYukumluluguKV");
        (u "Kısa Vadeli Karşılıklar", u "kisaVadeliKarsiliklar");
        (u "Diğer Kısa Vadeli Yükümlülükler", u "digerKisaVadeliYukumlulukler");
        (u "Satış Amaçlı Sınıflandırılan Varlık Gruplarına İlişkin Yükümlülükler", u "satisAmacliSiniflandirilanVarlikGruplarinaIliskinYukumlulukler");
        (u "Ortaklara Dağıtılmak Üzere Elde Tutulan Varlık Gruplarına İlişkin Yükümlülükler", u "ortaklaraDagitilmakUzereEldeTutulanVarlikGruplarinaIliskinYukumlulukler");
        (u "Toplam Kısa Vadeli Yükümlülükler", u "toplamKVY_dummy") ]);
     (u "Uzun Vadeli Yükümlülükler", [
        (u "Finansal Borçlar", u "finansalBorclarUV");
        (u "Diğer Finansal Yükümlülükler", u "digerFinansalYukumluluklerUV");
        (u "Ticari Borçlar", u "ticariBorclarUV");
        (u "Finans Sektörü Faaliyetlerinden Borçlar", u "finansSektoruFaaliyetlerindenBorclarUV");
        (u "Çalışanlara Sağlanan Faydalar Kapsamında Borçlar", u "calisanlaraSaglananFaydalarBorclarUV");
        (u "Diğer Borçlar", u "digerBorclarUV");
        (u "Müşteri Sözleşmelerinden Doğan Yükümlülükler", u "musteriSozlesmelerindenDoganYukumluluklerUV");
        (u "Özkaynak Yöntemiyle Değerlenen Yatırımlardan Yükümlülükler", u "ozkaynakYontemiyleDegerlenenYatirimlardanYukumluluklerUV");
        (u "Türev Araçlar", u "turevAraclarUV");
        (u "Devlet Teşvik ve Yardımları", u "devletTesvikYardimUV");
        (u "Ertelenmiş Gelirler", u "ertelenmisGelirlerUV");
        (u "Cari Dönem Vergisiyle İlgili Borçlar", u "cariDonemVergisiyleIlgiliBorclarUV");
        (u "Ertelenmiş Vergi Yükümlülüğü", u "ertelenmisVergiYukumlulugu");
        (u "Diğer Uzun Vadeli Yükümlülükler", u "digerUzunVadeliYukumlulukler");
        (u "Toplam Uzun Vadeli Yükümlülükler", u "toplamUVY_dummy") ]);
     (u "Özkaynaklar", [
        (u "Ana Ortaklığa Ait Özkaynaklar", u "anaOrtakligaAitOzkaynaklar");
        (u "Ödenmiş Sermaye", u "odenmisSermaye");
        (u "Sermaye Düzeltme Farkları", u "sermayeDuzeltmeFarklari");
        (u "Birleşme Dengeleştirme Hesabı", u "birlesmeDengeletirmeHesabi");
        (u "Pay Sahiplerinin İlave Sermaye Katkıları", u "paySahipleriIlaveSermayeKatkilari");
        (u "Sermaye Avansı", u "sermayeAvansi");
        (u "Geri Alınmış Paylar (-)", u "geriAlinmisPaylar");
        (u "Karşılıklı İştirak Sermaye Düzeltmesi (-)", u "karsilikliIstirakSermayeDuzeltmesi");
        (u "Paylara İlişkin Primler (iskontolar)", u "paylaraIliskinPrimlerIskontolar");
        (u "Ortak Kontrole Tabi Teşebbüs veya İşletmeleri İçeren Birleşmelerin Etkisi", u "ortakKontroleTabiBirlesmeEtkisi");
        (u "Pay Bazlı Ödemeler (-)", u "payBazliOdemeler");
        (u "Kar veya Zararda Yeniden Sınıflandırılmayacak Birikmiş Diğer Kapsamlı Gelirler (Giderler)", u "yenidenSiniflandirilmayacakBirikmisDigerKapsamliGelirGider");
        (u "Kar veya Zararda Yeniden Sınıflandırılacak Birikmiş Diğer Kapsamlı Gelirler (Giderler)", u "yenidenSiniflandirilacakBirikmisDigerKapsamliGelirGider");
        (u "Kardan Ayrılan Kısıtlanmış Yedekler", u "kardanAyrilanKisitlanmisYedekler");
        (u "Diğer Yedekler", u "digerYedekler");
        (u "Geçmiş Yıllar Kar/Zararları", u "gecmisYillarKarZarari");
        (u "Dönem Net Karı", u "donemKariZarari");
        (u "Azınlık Payları", u "kontrolGucuOlmayanPaylar");
        (u "Toplam Özkaynaklar", u "ozkaynaklarToplam_dummy");
        (u "Toplam Kaynaklar", u "toplamKaynaklar_dummy");
        (u "Hedge Dahil Net Yabancı Para Pozisyonu", u "hedgeDahilNetYabanciParaPozisyonu") ]) ]) ].

(** [SECTION_FIELDS[side][group]] *)
Definition section_group (side group : pystr) : list (pystr * pystr) :=
  dict_get_or (dict_get_or SECTION_FIELDS side []) group [].

Definition is_dummy (k : pystr) : bool := endswith k (u "_dummy").

(** Section key lists for totals *)
Definition DONEN_KEYS : list pystr := Eval vm_compute in
  map snd (filter (fun lk => negb (is_dummy (snd lk)))
             (section_group (u "AKTIF") (u "Dönen Varlıklar"))).
Definition DURAN_KEYS : list pystr := Eval vm_compute in
  map snd (filter (fun lk => negb (is_dummy (snd lk)))
             (section_group (u "AKTIF") (u "Duran Varlıklar"))).
Definition KV_KEYS : list pystr := Eval vm_compute in
  map snd (filter (fun lk => negb (is_dummy (snd lk)))
             (section_group (u "PASIF") (u "Kısa Vadeli Yükümlülükler"))).
Definition UV_KEYS : list pystr := Eval vm_compute in
  map snd (filter (fun lk => negb (is_dummy (snd lk)))
             (section_group (u "PASIF") (u "Uzun Vadeli Yükümlülükler"))).
Definition OZ_KEYS : list pystr := Eval vm_compute in
  map snd (filter (fun lk => negb (is_dummy (snd lk)))
             (section_group (u "PASIF") (u "Özkaynaklar"))).

(* ================================================================== *)
(** * Aggregation and validation *)
(* ================================================================== *)

(** Validation findings: the Python dict [{"tip": ..., "mesaj": ...}].
    The message keeps the values its f-string formats. *)
Inductive tip : Type := kritik | uyari.

Inductive mesaj : Type :=
| BilancoDengesizligi (aktif pasif fark : float)
    (* "Bilanço dengesizliği: Aktif (.. TL) != Pasif (.. TL). Fark: .. TL" *)
| IsletmeAdiBos            (* "İşletme adı boş bırakılmamalıdır." *)
| NegatifDeger (key : pystr) (num : float)
    (* "{key} negatif değer içeriyor: {num}" *)
| LikiditeDusuk (likidite_orani : float)
    (* "Likidite oranı düşük (..). Kısa vadeli borçlar dönen varlıklardan fazla." *)
| OzKaynaklarNegatif       (* "Öz kaynaklar negatif! ..." *)
| BilancoBos.              (* "Hiçbir varlık girilmemiş. Bilanço boş görünüyor." *)

Record finding : Type := Finding { f_tip : tip; f_mesaj : mesaj }.

Definition tip_eqb (a b : tip) : bool :=
  match a, b with kritik, kritik | uyari, uyari => true | _, _ => false end.

(** [x / y] on floats; [None] stands for the [ZeroDivisionError]. *)
Definition py_truediv (x y : float) : option float :=
  if PrimFloat.eqb y 0 then None else Some (x / y)%float.

Section Core.

Context {rt : PyRuntime}.

(** [float(v)]; [None] stands for the exception raised. *)
Definition to_float (v : pyval) : option float :=
  match v with
  | VNone => None
  | VInt z => float_of_int z
  | VFloat f => Some f
  | VStr s => float_of_str s
  end.

(** [str(v)] *)
Definition py_str (v : pyval) : pystr :=
  match v with
  | VNone => u "None"
  | VInt z => str_of_int z
  | VFloat f => str_of_float f
  | VStr s => s
  end.

(** One turn of the summing loops:
    [try: total += float(d.get(key, 0) or 0) except Exception: continue] *)
Definition add_entry (d : entries) (total : float) (key : pystr) : float :=
  match to_float (py_or (dict_get_or d key (VInt 0)) (VInt 0)) with
  | Some x => (total + x)%float
  | None => total
  end.

Definition sum_donen_varliklar (d : entries) : float :=
  fold_left (add_entry d) DONEN_KEYS 0%float.

Definition sum_duran_varliklar (d : entries) : float :=
  let total := fold_left (add_entry d) DURAN_KEYS 0%float in
  match to_float (py_or (dict_get_or d (u "birikmiAmort") (VInt 0)) (VInt 0)) with
  | Some x => (total - x)%float
  | None => total
  end.

Definition sum_kv_yabanci_kaynaklar (d : entries) : float :=
  fold_left (add_entry d) KV_KEYS 0%float.

Definition sum_uv_yabanci_kaynaklar (d : entries) : float :=
  fold_left (add_entry d) UV_KEYS 0%float.

Definition sum_oz_kaynaklar (d : entries) : float :=
  fold_left (add_entry d) OZ_KEYS 0%float.

(** The loop of [validate] over [d.items()]. *)
Definition negatif_kontrol (errors : list finding) (item : pystr * pyval) : list finding :=
  let (key, value) := item in
  if pystr_in key [u "isletmeAdi"; u "bilancoTarihi"; u "birikmiAmort"] then errors
  else
    match to_float value with
    | None => errors
    | Some num =>
      if (num <? 0)%float then errors ++ [Finding uyari (NegatifDeger key num)]
      else errors
    end.

(** [likidite_orani = dv / (kv if kv != 0 else 1)] *)
Definition likidite_orani (dv kv : float) : option float :=
  py_truediv dv (if negb (PrimFloat.eqb kv 0) then kv else 1%float).

Definition validate (d : entries) : option (list finding) :=
  let errors := [] in
  let aktif := (sum_donen_varliklar d + sum_duran_varliklar d)%float in
  let pasif :=
    (sum_kv_yabanci_kaynaklar d + sum_uv_yabanci_kaynaklar d + sum_oz_kaynaklar d)%float in
  let errors :=
    if (0.01 <? abs (aktif - pasif))%float
    then errors ++ [Finding kritik (BilancoDengesizligi aktif pasif (aktif - pasif))]
    else errors in
  let errors :=
    if negb (truthy (VStr (strip (py_str (dict_get_or d (u "isletmeAdi") (VStr []))))))
    then errors ++ [Finding uyari IsletmeAdiBos]
    else errors in
  let errors := fold_left negatif_kontrol d errors in
  let kv := sum_kv_yabanci_kaynaklar d in
  let dv := sum_donen_varliklar d in
  match likidite_orani dv kv with
  | None => None
  | Some oran =>
    let errors :=
      if (oran <? 1)%float then errors ++ [Finding uyari (LikiditeDusuk oran)]
      else errors in
    let errors :=
      if (sum_oz_kaynaklar d <? 0)%float
      then errors ++ [Finding kritik OzKaynaklarNegatif]
      else errors in
    let errors :=
      if PrimFloat.eqb aktif 0 then errors ++ [Finding uyari BilancoBos] else errors in
    Some errors
  end.

(** ** Document builder *)

(** The nested document: a leaf value, the findings list, or an object
    with its fields in order. *)
Inductive docval : Type :=
| DVal (v : pyval)
| DErrors (l : list finding)
| DObj (fields : list (pystr * docval)).

(** [doc[k]] *)
Definition doc_field (doc : docval) (k : pystr) : option docval :=
  match doc with
  | DObj fields => dict_get fields k
  | _ => None
  end.

(** ["key": d.get("key", 0)] *)
Definition kalem (d : entries) (key : string) : pystr * docval :=
  (u key, DVal (dict_get_or d (u key) (VInt 0))).

(** [(a / b * 100) if b != 0 else 0.0] *)
Definition yuzde (a b : float) : option float :=
  if negb (PrimFloat.eqb b 0)
  then match py_truediv a b with Some q => Some (q * 100)%float | None => None end
  else Some 0%float.

(** [errors] are the findings, [now] is [datetime.now().isoformat()]. *)
Definition build_mongo_like_document (d : entries) (errors : list finding) (now : pystr)
  : option docval :=
  let donen := sum_donen_varliklar d in
  let duran := sum_duran_varliklar d in
  let aktif_toplam := (donen + duran)%float in
  let kv := sum_kv_yabanci_kaynaklar d in
  let uv := sum_uv_yabanci_kaynaklar d in
  let oz := sum_oz_kaynaklar d in
  let pasif_toplam := (kv + uv + oz)%float in
  match likidite_orani donen kv, yuzde oz aktif_toplam, yuzde (kv + uv)%float aktif_toplam with
  | Some likidite, Some ozkaynaklar_orani, Some borc_orani =>
    Some (DObj [
      (u "_id", DVal VNone);
      (u "isletmeBilgileri", DObj [
         (u "ad", DVal (dict_get_or d (u "isletmeAdi") (VStr [])));
         (u "tarih", DVal (dict_get_or d (u "bilancoTarihi") (VStr []))) ]);
      (u "aktif", DObj [
         (u "donenVarliklar", DObj [
            kalem d "kasa"; kalem d "bankalar"; kalem d "alicilar";
            kalem d "alacakSenetleri"; kalem d "verilenDepozito";
            kalem d "digerAlacaklar"; kalem d "ticariMallar"; kalem d "yariMamul";
            kalem d "mamul"; kalem d "digerDonenVarliklar";
            (u "toplam", DVal (VFloat donen)) ]);
         (u "duranVarliklar", DObj [
            kalem d "ticariAlacaklar"; kalem d "istirakler"; kalem d "bagliOrtakliklar";
            kalem d "arazi"; kalem d "binalar"; kalem d "tesisatMakineler";
            kalem d "demirbaslar"; kalem d "tasitlar"; kalem d "birikmiAmort";
            kalem d "digerDuranVarliklar";
            (u "toplam", DVal (VFloat duran)) ]);
         (u "toplam", DVal (VFloat aktif_toplam)) ]);
      (u "pasif", DObj [
         (u "kisaVadeliYabanciKaynaklar", DObj [
            kalem d "bankKredileri"; kalem d "saticilar"; kalem d "borcSenetleri";
            kalem d "digerBorclar"; kalem d "odenecekVergiler";
            (u "toplam", DVal (VFloat kv)) ]);
         (u "uzunVadeliYabanciKaynaklar", DObj [
            kalem d "uzunVadeBankKredileri"; kalem d "tahviller";
            kalem d "uzunVadeBorclar";
            (u "toplam", DVal (VFloat uv)) ]);
         (u "ozKaynaklar", DObj [
            kalem d "odenmisSermaye"; kalem d "sermayeYedekleri"; kalem d "karYedekleri";
            kalem d "gecmisYilKarlari"; kalem d "donemNetKari";
            (u "toplam", DVal (VFloat oz)) ]);
         (u "toplam", DVal (VFloat pasif_toplam)) ]);
      (u "rasyolar", DObj [
         (u "likiditeOrani", DVal (VStr (format_2f likidite)));
         (u "ozkaynaklarOrani", DVal (VStr (format_2f ozkaynaklar_orani)));
         (u "borcOrani", DVal (VStr (format_2f borc_orani))) ]);
      (u "kayitTarihi", DVal (VStr now));
      (u "dogrulama", DObj [
         (u "durumu",
          DVal (VStr (if (length errors =? 0)%nat then u "basarili" else u "uyarilarla")));
         (u "hatalar", DErrors errors) ]) ])
  | _, _, _ => None
  end.

End Core.

(* ================================================================== *)
(** * Spreadsheets *)
(* ================================================================== *)

(** A row is the tuple of its cell values ([None] for an empty cell), a
    worksheet the list of its rows from row 1 on, a workbook its named
    sheets in order; an openpyxl workbook always holds a first sheet.
    Writing the workbook to a file and loading it again is taken to give
    back the text and the numbers of its cells. *)
Definition row := list pyval.
Definition worksheet := list row.

Record workbook : Type := Workbook {
  wb_first : pystr * worksheet;
  wb_rest : list (pystr * worksheet)
}.

Definition sheets (wb : workbook) : dict worksheet := wb_first wb :: wb_rest wb.

(** [ws.max_row] and [ws.max_column]; both are 1 on an empty sheet. *)
Definition max_row (ws : worksheet) : nat := Nat.max 1 (length ws).
Definition max_column (ws : worksheet) : nat :=
  fold_left (fun m r => Nat.max m (length r)) ws 1.

(** [ws[r_idx]], the cells of row [r_idx] (counted from 1). *)
Definition ws_row (ws : worksheet) (r_idx : nat) : row := nth (r_idx - 1) ws [].

(** [row[col - 1] if len(row) >= col else None] *)
Definition cell_at (r : row) (col : nat) : pyval :=
  if (col <=? length r)%nat then nth (col - 1) r VNone else VNone.

Definition is_None (v : pyval) : bool :=
  match v with VNone => true | _ => false end.

(** [str(v).strip() == ""]: only text can be blank, the numeral of a
    number never is. *)
Definition str_blank (v : pyval) : bool :=
  match v with
  | VStr s => pystr_eqb (strip s) []
  | _ => false
  end.

(** [l.index(x)], for [x] in [l]. *)
Fixpoint index_of (x : pystr) (l : list pystr) : nat :=
  match l with
  | [] => 0
  | y :: r => if pystr_eqb y x then 0 else S (index_of x r)
  end.

(** ** The label tables of [load_from_excel] *)

(** Fuzzy matching is switched off. *)
Definition STRICT_LABELS : bool := true.

Record label_maps : Type := LabelMaps {
  label_to_key : dict pystr;
  group_label_to_key_map : dict (dict pystr);
  group_names_norm : list pystr
}.

(** The innermost loop: [for label, key in fields]. *)
Definition add_field (group_norm : pystr) (m : label_maps) (lk : pystr * pystr)
  : label_maps :=
  let (label, key) := lk in
  if is_dummy key then m
  else
    let norm_label := _normalize label in
    LabelMaps
      (dict_set (label_to_key m) norm_label key)
      (dict_set (group_label_to_key_map m) group_norm
         (dict_set (dict_get_or (group_label_to_key_map m) group_norm []) norm_label key))
      (group_names_norm m).

(** [for group, fields in SECTION_FIELDS[side].items()] *)
Definition add_group (m : label_maps) (gf : pystr * list (pystr * pystr)) : label_maps :=
  let (group, fields) := gf in
  let group_norm := _normalize group in
  let names :=
    if pystr_in group_norm (group_names_norm m) then group_names_norm m
    else group_names_norm m ++ [group_norm] in
  let gmap :=
    if dict_mem (group_label_to_key_map m) group_norm then group_label_to_key_map m
    else dict_set (group_label_to_key_map m) group_norm [] in
  fold_left (add_field group_norm) fields (LabelMaps (label_to_key m) gmap names).

Definition build_label_maps : label_maps :=
  fold_left (fun m side => fold_left add_group (dict_get_or SECTION_FIELDS side []) m)
    [u "AKTIF"; u "PASIF"] (LabelMaps [] [] []).

Definition LABELS : label_maps := Eval vm_compute in build_label_maps.

(** [[lbl for lbl, _ in sum(SECTION_FIELDS["AKTIF"].values(), [])
                       + sum(SECTION_FIELDS["PASIF"].values(), [])]] *)
Definition all_labels : list pystr :=
  map fst (flat_map snd (dict_get_or SECTION_FIELDS (u "AKTIF") [])
           ++ flat_map snd (dict_get_or SECTION_FIELDS (u "PASIF") [])).

(** [_alias(src, target_label)] *)
Definition _alias (alias_to_key : dict pystr) (st : string * string) : dict pystr :=
  let (src, target_label) := st in
  let norm_src := _normalize (u src) in
  if pystr_in (u target_label) all_labels then
    match dict_get (label_to_key LABELS) (_normalize (u target_label)) with
    | Some key => if truthy (VStr key) then dict_set alias_to_key norm_src key
                  else alias_to_key
    | None => alias_to_key
    end
  else alias_to_key.

Definition alias_to_key : dict pystr := Eval vm_compute in
  fold_left _alias
    [ ("Donem Kari Vergi Yukumlulugu", "Dönem Karı Vergi Yükümlülüğü");
      ("Donem Kar Vergi Yukumlulugu", "Dönem Karı Vergi Yükümlülüğü");
      ("Cari Donem Vergisiyle ilgili Varliklar", "Cari Dönem Vergisiyle İlgili Varlıklar");
      ("Cari Donem Vergisiyle ilgili Borclar", "Cari Dönem Vergisiyle İlgili Borçlar");
      ("Ozkaynak Yontemiyle Degerlenen Yatirimlardan Yukumlulukler",
       "Özkaynak Yöntemiyle Değerlenen Yatırımlardan Yükümlülükler");
      ("Ozkaynak Yontemiyle Degerlenen Yatirimlar",
       "Özkaynak Yöntemiyle Değerlenen Yatırımlar");
      ("Pesin Odenmis Giderler", "Peşin Ödenmiş Giderler");
      ("Ertelenmis Vergi Varligi", "Ertelenmiş Vergi Varlığı");
      ("Ertelenmis Gelirler", "Ertelenmiş Gelirler");
      ("Turkiye Cumhuriyeti Merkez Bankasi Hesabi",
       "Türkiye Cumhuriyet Merkez Bankası Hesabı");
      ("Türkiye Cumhuriyeti Merkez Bankası Hesabı",
       "Türkiye Cumhuriyet Merkez Bankası Hesabı") ]%string
    [].

(** ** Column layout detection *)

Record layout : Type := Layout {
  is_simple_format : bool;
  header_row_idx : nat;
  key_col : nat;        (* 0 while unassigned *)
  val_col : nat;
  label_col : nat
}.

Section Excel.

Context {rt : PyRuntime}.

(** [[str(c.value).strip().lower() if c.value is not None else ""
      for c in ws[r_idx]]] *)
Definition header_vals (ws : worksheet) (r_idx : nat) : list pystr :=
  map (fun c => match c with
                | VNone => []
                | _ => py_lower (strip (py_str c))
                end) (ws_row ws r_idx).

(** The header search [for r_idx in range(1, min(10, ws.max_row) + 1)],
    with [n] rows left to visit; it stops at the first header row. *)
Fixpoint scan_header (ws : worksheet) (r_idx n : nat) (lay : layout) : layout :=
  match n with
  | O => lay
  | S n' =>
    let row_vals := header_vals ws r_idx in
    if existsb (fun x => truthy (VStr x)) row_vals
       && pystr_in (u "anahtar") row_vals && pystr_in (u "tutar") row_vals
    then
      Layout (is_simple_format lay) r_idx
        (index_of (u "anahtar") row_vals + 1)
        (index_of (u "tutar") row_vals + 1)
        (if pystr_in (u "etiket") row_vals
         then index_of (u "etiket") row_vals + 1
         else 3)
    else scan_header ws (S r_idx) n' lay
  end.

(** The format detection of [load_from_excel].  After the header search
    the statement [if not is_simple_format:] assigns the default columns
    4, 5 and 3, whatever the search found. *)
Definition detect_layout (ws : worksheet) : layout :=
  let lay := Layout false 1 0 0 0 in
  if (max_column ws <=? 2)%nat then Layout true (header_row_idx lay) 0 2 1
  else
    let lay := scan_header ws 1 (Nat.min 10 (max_row ws)) lay in
    if negb (is_simple_format lay)
    then Layout (is_simple_format lay) (header_row_idx lay) 4 5 3
    else lay.

(** ** Reading the rows *)

(** [float(val) if val is not None and str(val).strip() != "" else 0.0],
    and [0.0] when [float] raises. *)
Definition amount_of (val : pyval) : float :=
  if negb (is_None val) && negb (str_blank val)
  then match to_float val with Some x => x | None => 0%float end
  else 0%float.

(** The first value [float] accepts:
    [for _, v in reversed(non_empty): try: value = float(v); break] *)
Fixpoint first_float (vs : list pyval) : pyval :=
  match vs with
  | [] => VNone
  | v :: r => match to_float v with Some x => VFloat x | None => first_float r end
  end.

(** The first text cell:
    [for _, v in non_empty: if isinstance(v, str) and v.strip() != ""] *)
Fixpoint first_text (vs : list pyval) : pyval :=
  match vs with
  | [] => VNone
  | VStr s :: r => if negb (pystr_eqb (strip s) []) then VStr s else first_text r
  | _ :: r => first_text r
  end.

(** [_pick_label_value(row_vals)]: the pair [(label, value)]. *)
Definition _pick_label_value (row_vals : row) : pyval * pyval :=
  match row_vals with
  | [] => (VNone, VNone)
  | _ =>
    let non_empty := filter (fun v => negb (is_None v) && negb (str_blank v)) row_vals in
    match non_empty with
    | [] => (VNone, VNone)
    | _ => (first_text non_empty, first_float (rev non_empty))
    end
  end.

(** The group-scoped lookup, then the global one. *)
Definition lookup_label (current_group : option pystr) (norm : pystr) : option pystr :=
  match current_group with
  | Some g =>
    if truthy (VStr g) && dict_mem (dict_get_or (group_label_to_key_map LABELS) g []) norm
    then dict_get (dict_get_or (group_label_to_key_map LABELS) g []) norm
    else dict_get (label_to_key LABELS) norm
  | None => dict_get (label_to_key LABELS) norm
  end.

(** [if mapped is None and not STRICT_LABELS:] the fuzzy match. *)
Definition fuzzy (mapped : option pystr) (norm : pystr) (cutoff : float) : option pystr :=
  match mapped with
  | None =>
    if negb STRICT_LABELS then
      match get_close_match norm (map fst (label_to_key LABELS)) cutoff with
      | Some m => dict_get (label_to_key LABELS) m
      | None => mapped
      end
    else mapped
  | Some _ => mapped
  end.

(** The loop state: the mapping read so far and [current_group]. *)
Definition load_state : Type := entries * option pystr.

(** One row of the simple two-column format. *)
Definition step_simple (st : load_state) (r : row) : load_state :=
  let (d, current_group) := st in
  let label := if (1 <=? length r)%nat then nth 0 r VNone else VNone in
  let val := if (2 <=? length r)%nat then nth 1 r VNone else VNone in
  if is_None label then st
  else
    let norm := _normalize (py_str label) in
    if pystr_in norm (group_names_norm LABELS) && (is_None val || str_blank val)
    then (d, Some norm)
    else
      let mapped := lookup_label current_group norm in
      let mapped := fuzzy mapped norm 0.75%float in
      match mapped with
      | Some key => (dict_set d key (VFloat (amount_of val)), current_group)
      | None => st
      end.

(** One row of the detailed format. *)
Definition step_detailed (lay : layout) (st : load_state) (r : row) : load_state :=
  let (d, current_group) := st in
  let key := cell_at r (key_col lay) in
  let val := cell_at r (val_col lay) in
  let label := cell_at r (label_col lay) in
  if negb (is_None label)
     && pystr_in (_normalize (py_str label)) (group_names_norm LABELS)
     && (is_None val || str_blank val) && (is_None key || str_blank key)
  then (d, Some (_normalize (py_str label)))
  else
    let (label, val) :=
      if is_None key && (is_None label || (is_None val || str_blank val))
      then _pick_label_value r else (label, val) in
    let key :=
      if is_None key then
        if negb (is_None label) then
          let norm := _normalize (py_str label) in
          let mapped := lookup_label current_group norm in
          let mapped := match mapped with
                        | None => dict_get alias_to_key norm
                        | Some _ => mapped
                        end in
          match fuzzy mapped norm 0.82%float with
          | Some k => VStr k
          | None => VNone
          end
        else key
      else key in
    if is_None key then st
    else (dict_set d (py_str key) (VFloat (amount_of val)), current_group).

(** The body of [for row in ws.iter_rows(min_row=header_row_idx + 1,
    values_only=True)]. *)
Definition step (lay : layout) (st : load_state) (r : row) : load_state :=
  match r with
  | [] => st
  | _ => if is_simple_format lay then step_simple st r else step_detailed lay st r
  end.

(** [str(meta[cell].value or "")] for a cell of column B. *)
Definition meta_text (meta : worksheet) (r_idx : nat) : pyval :=
  VStr (py_str (py_or (cell_at (ws_row meta r_idx) 2) (VStr []))).

(** The entity name and the date, read when the workbook has a sheet
    "Bilgi". *)
Definition load_meta (wb : workbook) : entries :=
  let d : entries := [] in
  match dict_get (sheets wb) (u "Bilgi") with
  | Some meta =>
    dict_set (dict_set d (u "isletmeAdi") (meta_text meta 1))
      (u "bilancoTarihi") (meta_text meta 2)
  | None => d
  end.

Definition load_from_excel (wb : workbook) : entries :=
  let d := load_meta wb in
  let ws := snd (wb_first wb) in
  let lay := detect_layout ws in
  fst (fold_left (step lay) (skipn (header_row_idx lay) ws) (d, None)).

(** ** Writing *)

(** [float(d.get(key, 0) or 0)], and [0.0] when it raises. *)
Definition entry_amount (d : entries) (key : pystr) : float :=
  match to_float (py_or (dict_get_or d key (VInt 0)) (VInt 0)) with
  | Some x => x
  | None => 0%float
  end.

Definition build_excel_rows_from_data (d : entries)
  : list (pystr * pystr * pystr * pystr * float) :=
  flat_map (fun side =>
    flat_map (fun gf : pystr * list (pystr * pystr) =>
      let (group, fields) := gf in
      flat_map (fun lk : pystr * pystr =>
        let (label, key) := lk in
        if is_dummy key then []
        else [(side, group, label, key, entry_amount d key)]) fields)
      (dict_get_or SECTION_FIELDS side []))
    [u "AKTIF"; u "PASIF"].

(** The workbook [save_to_excel] writes: the sheet "Bilanço" with the
    header and one row per line item, then the sheet "Bilgi". *)
Definition save_to_excel (d : entries) : workbook :=
  let ws :=
    [VStr (u "Taraf"); VStr (u "Grup"); VStr (u "Etiket"); VStr (u "Anahtar");
     VStr (u "Tutar")]
    :: map (fun t => match t with
                     | (side, group, label, key, val) =>
                       [VStr side; VStr group; VStr label; VStr key; VFloat val]
                     end) (build_excel_rows_from_data d) in
  let meta :=
    [ [VStr (u "İşletme Adı"); VStr (py_str (dict_get_or d (u "isletmeAdi") (VStr [])))];
      [VStr (u "Bilanço Tarihi");
       VStr (py_str (dict_get_or d (u "bilancoTarihi") (VStr [])))] ] in
  Workbook (u "Bilanço", ws) [(u "Bilgi", meta)].

End Excel.


(* ================================================================== *)
(** * The workbook file *)
(* ================================================================== *)

(** [save_to_excel] ends with [wb.save(path)] and [load_from_excel]
    starts with [load_workbook(path, data_only=True)]: between the two
    the workbook is a file, written and read by openpyxl.  A number is
    written as the numeral ["%.16g" % value], with sixteen significant
    digits; a text that starts with "=" is written as a formula, whose
    value is absent from a file that no spreadsheet program has
    computed; an empty text is written as a cell without a value, and a
    cell that holds [None] is not written. *)

(** ** Numerals of the file *)

(** The binary64 number nearest to the positive rational [num / den],
    ties to even, with the sign [neg]: the quotient is taken with at
    least 56 bits and a last bit that records a remainder, and rounded
    as the standard library rounds an integer. *)
Definition float_of_ratio (neg : bool) (num den : Z) : float :=
  let s := Z.max 0 (56 + Z.log2 den - Z.log2 num) in
  let n := (num * 2 ^ s)%Z in
  let m := (2 * (n / den) + (if (n mod den =? 0)%Z then 0 else 1))%Z in
  SF2Prim (binary_normalize prec emax (if neg then - m else m) (- s - 1) false).

(** [float(text)] for the numeral [digits * 10 ** e] with its sign. *)
Definition float_of_decimal (neg : bool) (digits e : Z) : float :=
  if (digits =? 0)%Z then (if neg then (-0)%float else 0%float)
  else if (0 <=? e)%Z then float_of_ratio neg (digits * 10 ^ e) 1
  else float_of_ratio neg digits (10 ^ (- e)).

(** [10 ** k <= num / den] *)
Definition ge_pow10 (num den k : Z) : bool :=
  if (0 <=? k)%Z then (den * 10 ^ k <=? num)%Z else (den <=? num * 10 ^ (- k))%Z.

(** The decimal exponent of [num / den], from an estimate [k]. *)
Fixpoint decimal_exponent (fuel : nat) (num den k : Z) : Z :=
  match fuel with
  | O => k
  | S fuel' =>
    if negb (ge_pow10 num den k) then decimal_exponent fuel' num den (k - 1)
    else if ge_pow10 num den (k + 1) then decimal_exponent fuel' num den (k + 1)
    else k
  end.

(** [num / den] rounded to an integer, ties to even. *)
Definition round_half_even (num den : Z) : Z :=
  let q := (num / den)%Z in
  let r := (num mod den)%Z in
  if (2 * r <? den)%Z then q
  else if (den <? 2 * r)%Z then (q + 1)%Z
  else if Z.even q then q else (q + 1)%Z.

(** The sixteen significant digits of [num / den]: the integer [digits]
    with [10 ** 15 <= digits < 10 ** 16] and the exponent [e] for which
    [digits * 10 ** e] is nearest. *)
Definition sixteen_digits (num den : Z) : Z * Z :=
  let k := decimal_exponent 8 num den (((Z.log2 num - Z.log2 den) * 1233) / 4096) in
  let e := (k - 15)%Z in
  let digits :=
    if (0 <=? e)%Z then round_half_even num (den * 10 ^ e)
    else round_half_even (num * 10 ^ (- e)) den in
  if (digits =? 10 ^ 16)%Z then (10 ^ 15, e + 1)%Z else (digits, e).

(** The value [load_workbook] gives for a cell that held the finite
    float [x] when the workbook was saved.  The file holds the numeral
    ["%.16g" % x]; it is read with [int] when it has neither a point nor
    an exponent, with [float] otherwise. *)
Definition number_cell (x : float) : pyval :=
  match Prim2SF x with
  | S754_finite neg m e2 =>
    let num := if (0 <=? e2)%Z then (Zpos m * 2 ^ e2)%Z else Zpos m in
    let den := if (0 <=? e2)%Z then 1%Z else (2 ^ (- e2))%Z in
    let (digits, e) := sixteen_digits num den in
    if (e <=? 0)%Z && (digits mod 10 ^ (- e) =? 0)%Z
    then VInt (let z := (digits / 10 ^ (- e))%Z in if neg then - z else z)
    else VFloat (float_of_decimal neg digits e)
  | _ => VInt 0
  end.

(** The number a numeric cell gives to [float]. *)
Definition float_of_cell (c : pyval) : float :=
  match c with
  | VInt z => match float_of_int z with Some x => x | None => 0%float end
  | VFloat x => x
  | _ => 0%float
  end.

(** What comes back for the float [x]: [x] rounded to sixteen
    significant digits. *)
Definition file_value (x : float) : float := float_of_cell (number_cell x).

(** A character that XML can hold and that is no control character. *)
Definition plain_char (c : N) : bool :=
  ((32 <=? c) && (c <=? 55295) || (57344 <=? c) && (c <=? 65533)
   || (65536 <=? c) && (c <=? 1114111))%N.

(** [s.startswith(p)] and [p in s]. *)
Fixpoint startswith (s p : pystr) : bool :=
  match p, s with
  | [], _ => true
  | a :: p', b :: s' => (a =? b)%N && startswith s' p'
  | _ :: _, [] => false
  end.

Fixpoint contains (s p : pystr) : bool :=
  startswith s p || match s with [] => false | _ :: r => contains r p end.

(** The value [load_workbook] gives for a cell that held [v] when the
    workbook was saved.  A number, [int] or [float], is written as
    ["%.16g" % v]; an empty text leaves the cell without a value; a text
    of more than one character that starts with "=" is a formula, which
    [data_only=True] reads as [None] from a file that no spreadsheet
    program has computed; any other text comes back as it is.  [None]
    stands for a workbook that cannot be saved or read back (a control
    character in a text, an infinity or a NaN, an integer too large for
    [float]) and for the texts left out of the model, whose treatment
    depends on the version of openpyxl: one that starts with "#" (the
    error codes such as "#N/A"), one that begins or ends with white
    space, one that holds "_x" or "x005F_" (the escapes of the file
    format), one longer than the 32767 characters of a cell. *)
Definition stored_cell (v : pyval) : option pyval :=
  match v with
  | VNone => Some VNone
  | VInt z =>
    match float_of_int z with
    | Some x => Some (number_cell x)
    | None => None
    end
  | VFloat x => if is_finite x then Some (number_cell x) else None
  | VStr [] => Some VNone
  | VStr (c :: r) =>
    if negb (forallb plain_char (c :: r)) || (32767 <? N.of_nat (length (c :: r)))%N
    then None
    else if contains (c :: r) (u "_x") || contains (c :: r) (u "x005F_") then None
    else if (c =? 61)%N then Some (if (1 <=? length r)%nat then VNone else VStr [c])
    else if (c =? 35)%N then None
    else if py_isspace c || py_isspace (last r c) then None
    else Some (VStr (c :: r))
  end.

(** [Some] of the elements when each is there. *)
Fixpoint all_some {A} (l : list (option A)) : option (list A) :=
  match l with
  | [] => Some []
  | None :: _ => None
  | Some x :: r =>
    match all_some r with
    | Some xs => Some (x :: xs)
    | None => None
    end
  end.

Fixpoint drop_while {A} (p : A -> bool) (l : list A) : list A :=
  match l with
  | x :: r => if p x then drop_while p r else l
  | [] => []
  end.

(** The cells of a row that are written: those up to the last one that
    holds a value. *)
Definition written_row (r : row) : row := rev (drop_while is_None (rev r)).

(** A sheet as it is read back: the rows up to the last one with a
    cell, each cell with the value the file gives. *)
Definition reload_sheet (ws : worksheet) : option worksheet :=
  match all_some (map (fun r => all_some (map stored_cell (written_row r))) ws) with
  | Some rows =>
    Some (rev (drop_while (fun r : row => match r with [] => true | _ => false end)
                 (rev rows)))
  | None => None
  end.

(** [wb.save(path)] followed by [load_workbook(path, data_only=True)]:
    the sheets keep their names and their order. *)
Definition reload (wb : workbook) : option workbook :=
  match reload_sheet (snd (wb_first wb)),
        all_some (map (fun sh : pystr * worksheet =>
                         match reload_sheet (snd sh) with
                         | Some ws => Some (fst sh, ws)
                         | None => None
                         end) (wb_rest wb)) with
  | Some ws, Some rest => Some (Workbook (fst (wb_first wb), ws) rest)
  | _, _ => None
  end.

Section Amounts.

Context {rt : PyRuntime}.

(** The number an entry stands for when it is written:
    [float(v or 0)], and 0.0 when [float] raises; [None] is an absent
    key. *)
Definition entry_value (v : option pyval) : float :=
  match v with
  | Some (VFloat x) => if (x =? 0)%float then 0%float else x
  | Some (VInt z) => match float_of_int z with Some x => x | None => 0%float end
  | Some (VStr s) =>
    if pystr_eqb s [] then 0%float
    else match float_of_str s with Some x => x | None => 0%float end
  | Some VNone => 0%float
  | None => 0%float
  end.

End Amounts.

(** ** A run-time library that reads plain numerals *)

(** The number the ASCII digits of [s] write after [acc]. *)
Fixpoint digits_value (s : pystr) (acc : Z) : option Z :=
  match s with
  | [] => Some acc
  | c :: r =>
    if ((48 <=? c) && (c <=? 57))%N
    then digits_value r (10 * acc + Z.of_N (c - 48))%Z
    else None
  end.

(** The text before the first point and the text after it. *)
Fixpoint split_point (s : pystr) : pystr * option pystr :=
  match s with
  | [] => ([], None)
  | c :: r =>
    if (c =? 46)%N then ([], Some r)
    else let (a, b) := split_point r in (c :: a, b)
  end.

(** [float(s)] for a sign, digits, a point and digits, with a digit at
    least: the nearest binary64 number. *)
Definition decimal_float (s : pystr) : option float :=
  let (neg, body) :=
    match s with
    | 45%N :: r => (true, r)
    | 43%N :: r => (false, r)
    | _ => (false, s)
    end in
  let (whole, after) := split_point body in
  let fraction := match after with Some f => f | None => [] end in
  match whole ++ fraction with
  | [] => None
  | all =>
    match digits_value all 0 with
    | Some n => Some (float_of_decimal neg n (- Z.of_nat (length fraction)))
    | None => None
    end
  end.

(** A run-time library whose [float] reads the plain decimal numerals
    as Python does, correctly rounded, and rejects every other text
    (Python reads some more: exponents, "inf" and "nan", underscores
    between digits, blanks around the numeral, digits of other
    scripts).  It runs the development on amounts that are typed. *)
Definition decimal_runtime : PyRuntime :=
  {| float_of_str := decimal_float;
     str_of_float := fun _ => u "0.0";
     format_2f := fun _ => u "0.00";
     get_close_match := fun _ _ _ => None |}.

(* ================================================================== *)
(** * Scenarios and auxiliary notions of the properties *)
(* ================================================================== *)

(** The balanced-sheet scenario written with the key [kasa] of the
    console entry form. *)
Definition kasa_scenario : entries :=
  [(u "kasa", VFloat 1000); (u "odenmisSermaye", VFloat 1000)].

(** The same amounts with the cash entered under the schema key
    [nakitVeNakitBenzerleri]. *)
Definition schema_key_scenario : entries :=
  [(u "nakitVeNakitBenzerleri", VFloat 1000); (u "odenmisSermaye", VFloat 1000)].

(** The negative-equity scenario: one entry, all other keys absent. *)
Definition negative_equity_scenario : entries :=
  [(u "odenmisSermaye", VFloat (-100))].

(** The non-subtotal keys of the schema, in the order of
    [SECTION_FIELDS]. *)
Definition schema_keys : list pystr := Eval vm_compute in
  flat_map (fun side =>
    flat_map (fun gf : pystr * list (pystr * pystr) =>
      map snd (filter (fun lk => negb (is_dummy (snd lk))) (snd gf)))
      (dict_get_or SECTION_FIELDS side []))
    [u "AKTIF"; u "PASIF"].

(** The negative-equity scenario as the entry form holds it: an empty
    entity name, a date, and every schema key present, at 0 but for
    [odenmisSermaye]. *)
Definition negative_equity_form_scenario : entries :=
  (u "isletmeAdi", VStr (u "")) :: (u "bilancoTarihi", VStr (u "2024-12-31"))
  :: map (fun k => (k, VFloat (if pystr_eqb k (u "odenmisSermaye") then -100 else 0)))
       schema_keys.

(** No key occurs twice in a list of keys. *)
Fixpoint distinct_keys (l : list pystr) : bool :=
  match l with
  | [] => true
  | k :: r => negb (pystr_in k r) && distinct_keys r
  end.

(** The assignments [d[k] = v] of a list of pairs, in order. *)
Definition write_all (d : entries) (kvs : list (pystr * float)) : entries :=
  fold_left (fun d kv => dict_set d (fst kv) (VFloat (snd kv))) kvs d.

(** ** Notions about rows *)

Section RowNotions.

Context {rt : PyRuntime}.

(** The cells the row loop reads under a layout: label, amount and, on
    the detailed path, key. *)
Definition row_label (lay : layout) (r : row) : pyval :=
  if is_simple_format lay
  then (if (1 <=? length r)%nat then nth 0 r VNone else VNone)
  else cell_at r (label_col lay).

Definition row_val (lay : layout) (r : row) : pyval :=
  if is_simple_format lay
  then (if (2 <=? length r)%nat then nth 1 r VNone else VNone)
  else cell_at r (val_col lay).

Definition row_key (lay : layout) (r : row) : pyval :=
  if is_simple_format lay then VNone else cell_at r (key_col lay).

(** The rows the loop takes for group headers, with the group they set. *)
Definition group_header (lay : layout) (r : row) : option pystr :=
  let norm := _normalize (py_str (row_label lay r)) in
  if negb (is_None (row_label lay r))
     && pystr_in norm (group_names_norm LABELS)
     && (is_None (row_val lay r) || str_blank (row_val lay r))
     && (is_None (row_key lay r) || str_blank (row_key lay r))
  then Some norm else None.

End RowNotions.

(** The key of "Diğer Borçlar" in the two groups that list the label. *)
Definition diger_borclar_key (group_norm : pystr) : pystr :=
  if pystr_eqb group_norm (_normalize (u "Kısa Vadeli Yükümlülükler"))
  then u "digerBorclarKV" else u "digerBorclarUV".

(** Every key of the schema, subtotal markers included. *)
Definition all_keys : list pystr := Eval vm_compute in
  map snd (flat_map snd (dict_get_or SECTION_FIELDS (u "AKTIF") [])
           ++ flat_map snd (dict_get_or SECTION_FIELDS (u "PASIF") [])).

(** ** Example workbooks *)

(** A detailed sheet whose header names the columns in another order. *)
Definition permuted_header_book : workbook :=
  Workbook (u "Sayfa1",
    [ [VStr (u "Etiket"); VStr (u "Anahtar"); VStr (u "Tutar")];
      [VStr (u "Stoklar"); VStr (u "stoklar"); VInt 100] ]) [].

(** "Diğer Borçlar" under the headers of two different groups, one of
    which does not list the label. *)
Definition colliding_groups_book : workbook :=
  Workbook (u "Sayfa1",
    [ [VStr (u "Kalem"); VStr (u "Tutar")];
      [VStr (u "Özkaynaklar"); VNone];
      [VStr (u "Diğer Borçlar"); VInt 10];
      [VStr (u "Uzun Vadeli Yükümlülükler"); VNone];
      [VStr (u "Diğer Borçlar"); VInt 20] ]) [].

(** "Diğer Borçlar" under the headers of the two groups that list it. *)
Definition two_groups_book : workbook :=
  Workbook (u "Sayfa1",
    [ [VStr (u "Kalem"); VStr (u "Tutar")];
      [VStr (u "Kısa Vadeli Yükümlülükler"); VNone];
      [VStr (u "Diğer Borçlar"); VInt 10];
      [VStr (u "Uzun Vadeli Yükümlülükler"); VNone];
      [VStr (u "DİĞER BORÇLAR"); VInt 20] ]) [].

(** A two-column sheet with no header row. *)
Definition headerless_book : workbook :=
  Workbook (u "Sayfa1", [ [VStr (u "Stoklar"); VInt 5] ]) [].

(** A detailed sheet with a key that is no schema key. *)
Definition foreign_key_book : workbook :=
  Workbook (u "Sayfa1",
    [ [VStr (u "Taraf"); VStr (u "Grup"); VStr (u "Etiket"); VStr (u "Anahtar");
       VStr (u "Tutar")];
      [VStr (u "AKTIF"); VStr (u "Dönen Varlıklar"); VStr (u "Stoklar");
       VStr (u "fooBar"); VInt 5] ]) [].

(** [doc[k1][k2]...] *)
Fixpoint doc_path (doc : docval) (path : list pystr) : option docval :=
  match path with
  | [] => Some doc
  | k :: rest =>
    match doc_field doc k with
    | Some sub => doc_path sub rest
    | None => None
    end
  end.

Definition is_kritik (f : finding) : bool := tip_eqb (f_tip f) kritik.

Definition is_likidite_uyarisi (f : finding) : bool :=
  match f_mesaj f with
  | LikiditeDusuk _ => tip_eqb (f_tip f) uyari
  | _ => false
  end.

(* ================================================================== *)
(** * Further parts of the program *)
(* ================================================================== *)

(** [s.replace(old, new)] for a one-character [old]. *)
Definition replace_char (old : N) (new : pystr) (s : pystr) : pystr :=
  flat_map (fun c => if (c =? old)%N then new else [c]) s.

Section Entry.

Context {rt : PyRuntime}.

(** [parse_float]: the text of an entry field as a number, 0.0 for an
    empty field and whenever [float] raises. *)
Definition parse_float (value : pystr) : float :=
  let normalized := replace_char 44 (u ".") (replace_char 32 (u "") (strip value)) in
  if pystr_eqb normalized (u "") then 0%float
  else match float_of_str normalized with
       | Some x => x
       | None => 0%float
       end.

(** [gui_collect_data]: [vars_map] holds the text of each field's
    [StringVar], in the order of the form. *)
Definition gui_collect_data (vars_map : dict pystr) : entries :=
  fold_left (fun (d : entries) (kv : pystr * pystr) =>
    let (key, var) := kv in
    if pystr_in key [u "isletmeAdi"; u "bilancoTarihi"]
    then dict_set d key (VStr var)
    else dict_set d key (VFloat (parse_float var)))
    vars_map [].

(** The test of [refresh] that colours the two totals green. *)
Definition refresh_dengeli (d : entries) : bool :=
  let aktif := (sum_donen_varliklar d + sum_duran_varliklar d)%float in
  let pasif :=
    (sum_kv_yabanci_kaynaklar d + sum_uv_yabanci_kaynaklar d + sum_oz_kaynaklar d)%float in
  (abs (aktif - pasif) <=? 0.01)%float.

End Entry.

(** The [vars_map] that [create_gui] builds: the entity name (empty), the
    date (today) and one field, reading "0", per non-subtotal key. *)
Definition initial_vars_map (today : pystr) : dict pystr :=
  fold_left (fun vars side =>
    fold_left (fun vars (gf : pystr * list (pystr * pystr)) =>
      fold_left (fun (vars : dict pystr) (lk : pystr * pystr) =>
        let (label, key) := lk in
        if is_dummy key then vars
        else if dict_mem vars key then vars
        else dict_set vars key (u "0"))
        (snd gf) vars)
      (dict_get_or SECTION_FIELDS side []) vars)
    [u "AKTIF"; u "PASIF"]
    [(u "isletmeAdi", u ""); (u "bilancoTarihi", today)].

(** The status line of [draw_canvas]. *)
Inductive denge : Type :=
| DENGELI          (* "DENGELİ" *)
| AKTIF_BUYUK      (* "AKTİF > PASİF" *)
| PASIF_BUYUK.     (* "PASİF > AKTİF" *)

Definition denge_durumu (aktif pasif : float) : denge :=
  let diff := (aktif - pasif)%float in
  if (abs diff <=? 0.01)%float then DENGELI
  else if (0 <? diff)%float then AKTIF_BUYUK else PASIF_BUYUK.

Section Formatting.

(** [f"{value:,.2f}"], a function of the run-time library. *)
Variable format_grouped : float -> pystr.

(** [format_tl]: the grouped text with "," and "." exchanged by way of
    "_". *)
Definition format_tl (value : float) : pystr :=
  replace_char 95 (u ".")
    (replace_char 46 (u ",") (replace_char 44 (u "_") (format_grouped value))).

End Formatting.

(** "," for "." and "." for ",". *)
Definition swap_separators (c : N) : N :=
  if (c =? 44)%N then 46%N else if (c =? 46)%N then 44%N else c.

(** [_compute_next_id] of [save_to_mongo].  [cursor] is the [_id] of each
    item the query yields, in the order it yields them ([_id] descending,
    at most 200); [None] stands for a query that raises. *)
Fixpoint first_int_id (ids : list pyval) : Z :=
  match ids with
  | [] => 1
  | VInt val :: _ => val + 1
  | _ :: rest => first_int_id rest
  end.

Definition _compute_next_id (cursor : option (list pyval)) : Z :=
  match cursor with
  | Some ids => first_int_id ids
  | None => 1
  end.

(** The payload [save_to_mongo] inserts: the document's fields, with a
    computed [_id] unless the document carries an [int] one. *)
Definition mongo_payload (doc : list (pystr * docval)) (cursor : option (list pyval))
  : list (pystr * docval) :=
  match dict_get doc (u "_id") with
  | Some (DVal (VInt _)) => doc
  | _ => dict_set doc (u "_id") (DVal (VInt (_compute_next_id cursor)))
  end.

(** The [int] ids among the ids of a cursor, in order. *)
Fixpoint int_ids (ids : list pyval) : list Z :=
  match ids with
  | [] => []
  | VInt z :: rest => z :: int_ids rest
  | _ :: rest => int_ids rest
  end.

Definition is_dengesizlik (f : finding) : bool :=
  match f_mesaj f with
  | BilancoDengesizligi _ _ _ => true
  | _ => false
  end.

(** The side, group, label and key of each non-subtotal line item, in
    the order of [SECTION_FIELDS]. *)
Definition schema_rows : list (pystr * pystr * pystr * pystr) := Eval vm_compute in
  flat_map (fun side =>
    flat_map (fun gf : pystr * list (pystr * pystr) =>
      map (fun lk : pystr * pystr => (side, fst gf, fst lk, snd lk))
        (filter (fun lk => negb (is_dummy (snd lk))) (snd gf)))
      (dict_get_or SECTION_FIELDS side []))
    [u "AKTIF"; u "PASIF"].

(** The keys of the entry form: the two text fields, then the schema. *)
Definition form_keys : list pystr :=
  [u "isletmeAdi"; u "bilancoTarihi"] ++ schema_keys.

(** A form that has been filled in: a name, a date, 12,5 for the stocks
    and 100 for every other amount. *)
Definition filled_form : dict pystr :=
  (u "isletmeAdi", u "Acme") :: (u "bilancoTarihi", u "2024-12-31")
  :: map (fun k => (k, if pystr_eqb k (u "stoklar") then u "12,5" else u "100"))
       schema_keys.

Section FormValue.

Context {rt : PyRuntime}.

(** The value [gui_collect_data] stores for a field: its text for the two
    text fields, its number for any other. *)
Definition gui_value (kv : pystr * pystr) : pyval :=
  if pystr_in (fst kv) [u "isletmeAdi"; u "bilancoTarihi"]
  then VStr (snd kv)
  else VFloat (parse_float (snd kv)).

End FormValue.

(** A list of integers in descending order. *)
Fixpoint descending (l : list Z) : bool :=
  match l with
  | a :: (b :: _) as rest => (b <=? a)%Z && descending rest
  | _ => true
  end.

(** What [_normalize] makes of one character before it splits the text:
    lower case, decomposition, marks dropped, anything but a letter, a
    digit or a space turned into a space. *)
Definition norm_char (c : N) : pystr :=
  map (fun ch => if allowed ch then ch else 32%N)
    (filter (fun ch => negb (combining ch)) (flat_map decomp (lower_char c))).

(** A small letter a-z or a digit. *)
Definition word_char (c : N) : bool := allowed c && negb (c =? 32)%N.

(** A word of [_normalize]'s output: letters and digits, at least one. *)
Definition is_word (w : pystr) : Prop := w <> [] /\ Forall (fun c => word_char c = true) w.

(** The small unaccented letter for a capital A-Z and for the Turkish
    letters Ç ç Ğ ğ İ Ö ö Ş ş Ü ü; any other character as it is (the
    dotless ı among them). *)
Definition plain_letter (c : N) : N :=
  if ((65 <=? c) && (c <=? 90))%N then (c + 32)%N
  else if ((c =? 199) || (c =? 231))%N then 99%N
  else if ((c =? 286) || (c =? 287))%N then 103%N
  else if (c =? 304)%N then 105%N
  else if ((c =? 214) || (c =? 246))%N then 111%N
  else if ((c =? 350) || (c =? 351))%N then 115%N
  else if ((c =? 220) || (c =? 252))%N then 117%N
  else c.

(** A two-column sheet that lists the schema: a header row, then for
    each group a row with the group's name alone, followed by one row per
    line of the group, subtotal lines included, with its label and an
    amount. *)
Definition grouped_sheet (amount : pystr -> float) : worksheet :=
  [VStr (u "Kalem"); VStr (u "Tutar")]
  :: flat_map (fun side =>
       flat_map (fun gf : pystr * list (pystr * pystr) =>
         [VStr (fst gf); VNone]
         :: map (fun lk : pystr * pystr => [VStr (fst lk); VFloat (amount (snd lk))])
              (snd gf))
         (dict_get_or SECTION_FIELDS side []))
       [u "AKTIF"; u "PASIF"].

(** An entry as [load_from_excel] returns it: a float, or a text under
    one of the two text keys. *)
Definition loaded_entry (kv : pystr * pyval) : Prop :=
  (exists x, snd kv = VFloat x)
  \/ (exists s, snd kv = VStr s /\ In (fst kv) [u "isletmeAdi"; u "bilancoTarihi"]).

(** ** Opening a saved document *)

(** An assignment of [do_open_json] and [do_open_mongo]: the object of
    the document that is read, the key read in it and the key of the
    form variable that is set. *)
Definition assignment : Type := dict docval * pystr * pystr.

(** [set(l)]: each element once.  The loop over the set is modelled in
    the order of the list: a turn of the loop assigns to the variable of
    its own key only, and the keys of the set are distinct. *)
Fixpoint py_set (l : list pystr) : list pystr :=
  match l with
  | [] => []
  | x :: r => x :: filter (fun y => negb (pystr_eqb x y)) (py_set r)
  end.

(** [o.get(k, {})] *)
Definition get_object (o : dict docval) (k : pystr) : docval :=
  dict_get_or o k (DObj []).

Definition is_leaf (v : docval) : bool :=
  match v with DVal _ => true | _ => false end.

Definition info_actions (info : dict docval) : list assignment :=
  [(info, u "ad", u "isletmeAdi"); (info, u "tarih", u "bilancoTarihi")].

(** [for key in set(DONEN_KEYS + DURAN_KEYS + ["birikmiAmort"])]: the
    current assets' object, then the fixed assets' one. *)
Definition aktif_actions (donen duran : dict docval) : list assignment :=
  flat_map (fun key => [(donen, key, key); (duran, key, key)])
    (py_set (DONEN_KEYS ++ DURAN_KEYS ++ [u "birikmiAmort"])).

(** The three loops over [KV_KEYS], [UV_KEYS] and [OZ_KEYS]. *)
Definition pasif_actions (kv uv oz : dict docval) : list assignment :=
  map (fun key => (kv, key, key)) KV_KEYS
  ++ map (fun key => (uv, key, key)) UV_KEYS
  ++ map (fun key => (oz, key, key)) OZ_KEYS.

(** The value a list of assignments leaves for the variable [k], when
    one of them sets it. *)
Definition write_to (k : pystr) (cur : option pyval) (a : assignment) : option pyval :=
  let '(section, src, dst) := a in
  if pystr_eqb dst k then
    match dict_get section src with
    | Some (DVal x) => Some x
    | _ => cur
    end
  else cur.

Definition last_write (k : pystr) (actions : list assignment) : option pyval :=
  fold_left (write_to k) actions None.

Section OpenDocument.

Context {rt : PyRuntime}.

(** [if src in section and dst in vars_map:
       vars_map[dst].set(str(section.get(src)))].
    The form's variables are the texts of [vars_map], a variable keeps
    its place.  [None] stands for a value that is itself an object or a
    list, whose [str] is not modelled. *)
Definition fill (vars : dict pystr) (a : assignment) : option (dict pystr) :=
  let '(section, src, dst) := a in
  match dict_get section src with
  | Some v =>
    if dict_mem vars dst then
      match v with
      | DVal x => Some (dict_set vars dst (py_str x))
      | _ => None
      end
    else Some vars
  | None => Some vars
  end.

Definition fill_step (acc : option (dict pystr)) (a : assignment) : option (dict pystr) :=
  match acc with Some vars => fill vars a | None => None end.

Definition fill_all (actions : list assignment) (vars : dict pystr)
  : option (dict pystr) :=
  fold_left fill_step actions (Some vars).

(** The first [try] block, the entity name and the date.  When [doc] or
    [info] is no object, the membership test or [get] raises or the
    tests fail, and the block assigns nothing. *)
Definition open_info (doc : docval) (vars : dict pystr) : option (dict pystr) :=
  match doc with
  | DObj fields =>
    match get_object fields (u "isletmeBilgileri") with
    | DObj info => fill_all (info_actions info) vars
    | _ => Some vars
    end
  | _ => Some vars
  end.

(** The second [try] block, the assets.  When [doc] or [akt] is no
    object, [get] raises before anything is assigned.  [None]: one of
    the two groups is no object, a case that is not modelled (what is
    assigned before the exception depends on the order of the set). *)
Definition open_aktif (doc : docval) (vars : dict pystr) : option (dict pystr) :=
  match doc with
  | DObj fields =>
    match get_object fields (u "aktif") with
    | DObj akt =>
      match get_object akt (u "donenVarliklar"), get_object akt (u "duranVarliklar") with
      | DObj donen, DObj duran => fill_all (aktif_actions donen duran) vars
      | _, _ => None
      end
    | _ => Some vars
    end
  | _ => Some vars
  end.

(** The third [try] block, liabilities and equity; [None] as above. *)
Definition open_pasif (doc : docval) (vars : dict pystr) : option (dict pystr) :=
  match doc with
  | DObj fields =>
    match get_object fields (u "pasif") with
    | DObj pas =>
      match get_object pas (u "kisaVadeliYabanciKaynaklar"),
            get_object pas (u "uzunVadeliYabanciKaynaklar"),
            get_object pas (u "ozKaynaklar") with
      | DObj kv, DObj uv, DObj oz => fill_all (pasif_actions kv uv oz) vars
      | _, _, _ => None
      end
    | _ => Some vars
    end
  | _ => Some vars
  end.

(** What [do_open_json] and [do_open_mongo] do to the form's variables
    with the document they have read. *)
Definition open_document (doc : docval) (vars : dict pystr) : option (dict pystr) :=
  match open_info doc vars with
  | Some vars =>
    match open_aktif doc vars with
    | Some vars => open_pasif doc vars
    | None => None
    end
  | None => None
  end.

End OpenDocument.

(** ** Opening a workbook in the form *)

Section OpenExcel.

Context {rt : PyRuntime}.

(** [if key in data and key in vars_map:
       vars_map[key].set(str(data.get(key, "")))] *)
Definition set_text (data : entries) (key : pystr) (vars : dict pystr) : dict pystr :=
  if dict_mem data key && dict_mem vars key
  then dict_set vars key (py_str (dict_get_or data key (VStr [])))
  else vars.

(** One turn of [for key, var in vars_map.items()], with the count
    [updated]. *)
Definition fill_amount (data : entries) (st : dict pystr * nat) (key : pystr)
  : dict pystr * nat :=
  let (vars, updated) := st in
  if pystr_in key [u "isletmeAdi"; u "bilancoTarihi"] then st
  else
    match dict_get data key with
    | Some v => (dict_set vars key (py_str v), S updated)
    | None => st
    end.

(** What [do_open_excel] does to the form's variables with the mapping
    [load_from_excel] returned, and the number of fields it reports as
    updated. *)
Definition do_open_excel (data : entries) (vars_map : dict pystr) : dict pystr * nat :=
  let vars :=
    set_text data (u "bilancoTarihi") (set_text data (u "isletmeAdi") vars_map) in
  fold_left (fill_amount data) (map fst vars_map) (vars, 0).

(** The text a field has after a mapping was opened: the text of the
    mapping's value for the field's key, the field's own text when the
    mapping has no such key. *)
Definition opened_text (data : entries) (vars_map : dict pystr) (key : pystr)
  : option pystr :=
  match dict_get data key with
  | Some v => Some (py_str v)
  | None => dict_get vars_map key
  end.

(** A state of the variables on the way through [do_open_excel]: the
    keys of the form, every field holding its own text or already the
    text of the mapping. *)
Definition on_the_way (data : entries) (vars_map vars : dict pystr) : Prop :=
  map fst vars = map fst vars_map
  /\ forall k, dict_get vars k = opened_text data vars_map k
               \/ dict_get vars k = dict_get vars_map k.

End OpenExcel.

(** ** The command-line dialogue *)

(** A computation that reads lines of the standard input: it gives a
    result and the lines left, or [None] when [input] meets the end of
    the input and raises [EOFError]. *)
Definition io (A : Type) : Type := list pystr -> option (A * list pystr).

Definition ret {A} (x : A) : io A := fun lines => Some (x, lines).

Definition bind {A B} (m : io A) (f : A -> io B) : io B :=
  fun lines =>
    match m lines with
    | Some (x, rest) => f x rest
    | None => None
    end.

(** [input(...)]: the next line, without its end of line. *)
Definition input : io pystr :=
  fun lines =>
    match lines with
    | line :: rest => Some (line, rest)
    | [] => None
    end.

(** The amounts [collect_bilanco_data] asks for, in the order of its
    dictionary display; each is [prompt_num(..., 0.0)]. *)
Definition CLI_KEYS : list pystr :=
  [u "kasa"; u "bankalar"; u "alicilar"; u "alacakSenetleri"; u "verilenDepozito";
   u "digerAlacaklar"; u "ticariMallar"; u "yariMamul"; u "mamul";
   u "digerDonenVarliklar";
   u "ticariAlacaklar"; u "istirakler"; u "bagliOrtakliklar"; u "arazi"; u "binalar";
   u "tesisatMakineler"; u "demirbaslar"; u "tasitlar"; u "birikmiAmort";
   u "digerDuranVarliklar";
   u "bankKredileri"; u "saticilar"; u "borcSenetleri"; u "digerBorclar";
   u "odenecekVergiler";
   u "uzunVadeBankKredileri"; u "tahviller"; u "uzunVadeBorclar";
   u "odenmisSermaye"; u "sermayeYedekleri"; u "karYedekleri"; u "gecmisYilKarlari";
   u "donemNetKari"].

(** The keys the dialogue and the totals have in common. *)
Definition CLI_COUNTED : list pystr :=
  [u "digerDonenVarliklar"; u "ticariAlacaklar"; u "birikmiAmort";
   u "digerDuranVarliklar"; u "odenmisSermaye"].

Section Dialogue.

Context {rt : PyRuntime}.

(** [raw.strip() if raw.strip() != "" else default] *)
Definition prompt_str (default : pystr) : io pystr :=
  bind input (fun raw =>
    ret (if negb (pystr_eqb (strip raw) (u "")) then strip raw else default)).

(** [parse_float(raw) if raw.strip() != "" else float(default)] *)
Definition prompt_num (default : float) : io float :=
  bind input (fun raw =>
    ret (if negb (pystr_eqb (strip raw) (u "")) then parse_float raw else default)).

(** The amounts of the dictionary display, asked for in its order. *)
Fixpoint prompt_amounts (keys : list pystr) : io entries :=
  match keys with
  | [] => ret []
  | key :: rest =>
    bind (prompt_num 0) (fun x =>
    bind (prompt_amounts rest) (fun items =>
    ret ((key, VFloat x) :: items)))
  end.

(** [today] is [datetime.now().strftime("%Y-%m-%d")]. *)
Definition collect_bilanco_data (today : pystr) : io entries :=
  bind (prompt_str (u "")) (fun name =>
  bind (prompt_str today) (fun date =>
  bind (prompt_amounts CLI_KEYS) (fun items =>
  ret ((u "isletmeAdi", VStr name) :: (u "bilancoTarihi", VStr date) :: items)))).

(** [cli_main]: the exit code and, when a file is written, its name and
    the document.  [None] stands for an exception.  The insertion into
    MongoDB that [--mongo] asks for changes neither: its exceptions are
    caught. *)
Definition cli_main (today now : pystr) (lines : list pystr)
  : option (Z * option (pystr * docval)) :=
  match collect_bilanco_data today lines with
  | None => None
  | Some (data, _) =>
    match validate data with
    | None => None
    | Some errors =>
      let kritik_sayisi := length (filter is_kritik errors) in
      if (0 <? kritik_sayisi)%nat then Some (1%Z, None)
      else
        match build_mongo_like_document data errors now with
        | None => None
        | Some doc =>
          match doc_field doc (u "_id") with
          | Some (DVal id) =>
            Some (0%Z, Some (u "bilanco_tablolari_" ++ py_str id ++ u ".json", doc))
          | _ => None
          end
        end
    end
  end.

End Dialogue.

(** The amounts whose key is the same in the form and in the document. *)
Definition restored_amounts : list pystr :=
  [u "digerDonenVarliklar"; u "ticariAlacaklar"; u "digerDuranVarliklar";
   u "odenmisSermaye"].

Definition restored_keys : list pystr :=
  [u "isletmeAdi"; u "bilancoTarihi"] ++ restored_amounts.

(* ================================================================== *)
(** * Properties *)
(* ================================================================== *)

(** Case analysis on the condition of the first conditional of the goal. *)
Ltac destruct_if :=
  match goal with
  | |- context [if ?c then _ else _] => destruct c
  end.

Section Properties.

Context {rt : PyRuntime}.

(** ** Floats *)

Lemma finite_eqb_refl (x : float) : is_finite x = true -> (x =? x)%float = true.
Proof.
  unfold is_finite, is_nan. destruct (x =? x)%float; [reflexivity|]. discriminate.
Qed.

Lemma finite_spec (x : float) :
  is_finite x = true ->
  (exists s, Prim2SF x = S754_zero s) \/ (exists s m e, Prim2SF x = S754_finite s m e).
Proof.
  unfold is_finite, is_nan, is_infinity. rewrite !FloatAxioms.eqb_spec, abs_spec.
  destruct (Prim2SF x) as [s| s | |s m e]; intros H.
  - left; eauto.
  - destruct s; vm_compute in H; discriminate.
  - vm_compute in H. discriminate.
  - right; eauto.
Qed.

Lemma finite_sub_diag_small (x : float) :
  is_finite x = true -> (abs (x - x) <=? 1e-9)%float = true.
Proof.
  intros H. rewrite leb_spec, abs_spec, sub_spec.
  destruct (finite_spec x H) as [[s ->]|(s & m & e & ->)].
  - destruct s; vm_compute; reflexivity.
  - unfold SF64sub, SFsub. rewrite Z.sub_diag. vm_compute. reflexivity.
Qed.

Lemma zero_sub_small (x : float) :
  (x =? 0)%float = true -> (abs (x - 0) <=? 1e-9)%float = true.
Proof.
  rewrite FloatAxioms.eqb_spec, leb_spec, abs_spec, sub_spec.
  destruct (Prim2SF x) as [s| s | |s m e]; intros H.
  - destruct s; vm_compute; reflexivity.
  - vm_compute in H. destruct s; discriminate.
  - vm_compute in H. discriminate.
  - exfalso. revert H. unfold SFeqb, SFcompare.
    change (Prim2SF 0) with (S754_zero false). destruct s; discriminate.
Qed.

(** ** Strings and dictionaries *)

Lemma pystr_eqb_eq (a b : pystr) : pystr_eqb a b = true <-> a = b.
Proof.
  unfold pystr_eqb. revert b.
  induction a as [|x a IH]; intros [|y b]; cbn; try (split; congruence).
  rewrite andb_true_iff in *. specialize (IH b). rewrite andb_true_iff in IH.
  rewrite andb_true_iff, N.eqb_eq. split.
  - intros [Hl [Hx Hr]]. f_equal; [assumption|]. apply IH. now split.
  - intros [= -> ->]. destruct (proj2 IH eq_refl) as [Hl Hr]. repeat split; assumption.
Qed.

Lemma pystr_eqb_refl (a : pystr) : pystr_eqb a a = true.
Proof. now apply pystr_eqb_eq. Qed.

Lemma pystr_eqb_neq (a b : pystr) : a <> b -> pystr_eqb a b = false.
Proof.
  intros H. destruct (pystr_eqb a b) eqn:E; [|reflexivity].
  apply pystr_eqb_eq in E. contradiction.
Qed.

Lemma pystr_in_In (x : pystr) (l : list pystr) : pystr_in x l = true <-> In x l.
Proof.
  unfold pystr_in. rewrite existsb_exists. split.
  - intros (y & Hy & E). apply pystr_eqb_eq in E. now subst.
  - intros H. exists x. split; [assumption|apply pystr_eqb_refl].
Qed.

Lemma distinct_keys_NoDup (l : list pystr) : distinct_keys l = true -> NoDup l.
Proof.
  induction l as [|k l IH]; cbn; intros H; constructor.
  - apply andb_true_iff in H as [H _]. intros Hin.
    apply pystr_in_In in Hin. rewrite Hin in H. discriminate.
  - apply IH. now apply andb_true_iff in H as [_ H].
Qed.

Lemma dict_get_set_same {A} (d : dict A) (k : pystr) (v : A) :
  dict_get (dict_set d k v) k = Some v.
Proof.
  induction d as [|[k' v'] d IH]; cbn.
  - now rewrite pystr_eqb_refl.
  - destruct (pystr_eqb k k') eqn:E; cbn; rewrite E; [reflexivity|assumption].
Qed.

Lemma dict_get_set_other {A} (d : dict A) (k k' : pystr) (v : A) :
  k <> k' -> dict_get (dict_set d k v) k' = dict_get d k'.
Proof.
  intros Hne. induction d as [|[k0 v0] d IH]; cbn.
  - rewrite pystr_eqb_neq; [reflexivity|congruence].
  - destruct (pystr_eqb k k0) eqn:E; cbn.
    + apply pystr_eqb_eq in E. subst k0.
      rewrite pystr_eqb_neq; [reflexivity|congruence].
    + now rewrite IH.
Qed.

Lemma write_all_other (kvs : list (pystr * float)) (d : entries) (k : pystr) :
  ~ In k (map fst kvs) -> dict_get (write_all d kvs) k = dict_get d k.
Proof.
  revert d. induction kvs as [|[k0 v0] kvs IH]; intros d Hn; cbn in *.
  - reflexivity.
  - unfold write_all in *. cbn. rewrite IH by tauto.
    apply dict_get_set_other. intros ->. tauto.
Qed.

Lemma write_all_get (kvs : list (pystr * float)) (d : entries) (k : pystr) (v : float) :
  NoDup (map fst kvs) -> In (k, v) kvs ->
  dict_get (write_all d kvs) k = Some (VFloat v).
Proof.
  revert d. induction kvs as [|[k0 v0] kvs IH]; intros d Hnd Hin; cbn in *.
  - contradiction.
  - inversion Hnd as [|? ? Hk0 Hnd']; subst.
    destruct Hin as [[= -> ->]|Hin].
    + change (dict_get (write_all (dict_set d k (VFloat v)) kvs) k = Some (VFloat v)).
      rewrite write_all_other by assumption. apply dict_get_set_same.
    + apply (IH (dict_set d k0 (VFloat v0))); assumption.
Qed.


(** ** Totality of the ratio computations *)

Lemma likidite_orani_total (dv kv : float) :
  likidite_orani dv kv
  = Some (dv / (if negb (PrimFloat.eqb kv 0) then kv else 1))%float.
Proof.
  unfold likidite_orani, py_truediv.
  destruct (PrimFloat.eqb kv 0) eqn:E; cbn [negb].
  - reflexivity.
  - rewrite E. reflexivity.
Qed.

Lemma yuzde_total (a b : float) : exists q, yuzde a b = Some q.
Proof.
  unfold yuzde, py_truediv.
  destruct (PrimFloat.eqb b 0) eqn:E; cbn [negb]; eauto.
Qed.

Lemma negatif_kontrol_no_likidite (l : list (pystr * pyval)) (errors : list finding) :
  filter is_likidite_uyarisi (fold_left negatif_kontrol l errors)
  = filter is_likidite_uyarisi errors.
Proof.
  revert errors. induction l as [|[k v] l IH]; intros errors; cbn [fold_left].
  - reflexivity.
  - rewrite IH. unfold negatif_kontrol.
    repeat destruct_if; try reflexivity.
    destruct (to_float v) as [num|]; [|reflexivity].
    destruct_if; [|reflexivity].
    rewrite filter_app. cbn. now rewrite app_nil_r.
Qed.

(** C7: [validate] never fails; its liquidity ratio is
    [sum_donen_varliklar] divided by [sum_kv_yabanci_kaynaklar] when that
    sum is non-zero and by 1 when it is zero, so the division is defined;
    the findings hold a liquidity warning, carrying that ratio, exactly
    when the ratio is below 1.0. *)
Theorem validate_liquidity (d : entries) :
  let dv := sum_donen_varliklar d in
  let kv := sum_kv_yabanci_kaynaklar d in
  let oran := (dv / (if negb (PrimFloat.eqb kv 0) then kv else 1))%float in
  likidite_orani dv kv = Some oran
  /\ exists errors,
       validate d = Some errors
       /\ filter is_likidite_uyarisi errors
          = if (oran <? 1)%float then [Finding uyari (LikiditeDusuk oran)] else [].
Proof.
  intros dv kv oran. split; [apply likidite_orani_total|].
  unfold validate. fold dv kv. rewrite likidite_orani_total. fold oran.
  eexists. split; [reflexivity|].
  set (e0 := fold_left negatif_kontrol d _).
  assert (H0 : filter is_likidite_uyarisi e0 = []).
  { unfold e0. rewrite negatif_kontrol_no_likidite.
    repeat destruct_if; reflexivity. }
  clearbody e0.
  repeat destruct_if; rewrite ?filter_app, ?H0; reflexivity.
Qed.

(** ** The document's validation status *)

(** C6: the document is always built, and its field
    [dogrulama.durumu] is "uyarilarla" exactly when the findings list is
    non-empty and "basarili" exactly when it is empty; the label is
    decided by the emptiness of the list alone, whatever the severities
    of the findings, which the document carries unchanged under
    [dogrulama.hatalar]. *)
Theorem document_status (d : entries) (errors : list finding) (now : pystr) :
  exists doc durumu,
    build_mongo_like_document d errors now = Some doc
    /\ doc_path doc [u "dogrulama"; u "durumu"] = Some (DVal (VStr durumu))
    /\ doc_path doc [u "dogrulama"; u "hatalar"] = Some (DErrors errors)
    /\ durumu = match errors with [] => u "basarili" | _ :: _ => u "uyarilarla" end
    /\ (durumu = u "uyarilarla" <-> errors <> [])
    /\ (durumu = u "basarili" <-> errors = []).
Proof.
  unfold build_mongo_like_document.
  rewrite likidite_orani_total.
  destruct (yuzde_total (sum_oz_kaynaklar d)
              (sum_donen_varliklar d + sum_duran_varliklar d)) as [q1 ->].
  destruct (yuzde_total (sum_kv_yabanci_kaynaklar d + sum_uv_yabanci_kaynaklar d)
              (sum_donen_varliklar d + sum_duran_varliklar d)) as [q2 ->].
  eexists. eexists. split; [reflexivity|].
  split; [vm_compute; reflexivity|].
  split; [vm_compute; reflexivity|].
  destruct errors as [|e errors]; cbn [length Nat.eqb].
  - split; [reflexivity|]. split; split; intro H; try reflexivity.
    + vm_compute in H. discriminate.
    + now contradiction H.
  - split; [reflexivity|].
    split; split; intro H; try reflexivity; try discriminate;
      try (vm_compute in H; discriminate).
Qed.

(** ** The two scenarios of the specification *)

(** C1: what the code computes on the balanced-sheet scenario
    [{kasa: 1000, odenmisSermaye: 1000}]: [kasa] is no member of
    [DONEN_KEYS], so the current-assets sum is 0 while equity is 1000;
    [validate] reports the imbalance as critical and warns about the
    liquidity ratio 0 / 1 and the empty sheet; the document lists
    [kasa = 1000] under [donenVarliklar] next to a [toplam] of 0. *)
Theorem kasa_scenario_on_code :
  sum_donen_varliklar kasa_scenario = 0%float
  /\ sum_oz_kaynaklar kasa_scenario = 1000%float
  /\ validate kasa_scenario
     = Some [ Finding kritik (BilancoDengesizligi 0 1000 (-1000));
              Finding uyari IsletmeAdiBos;
              Finding uyari (LikiditeDusuk 0);
              Finding uyari BilancoBos ]
  /\ exists doc,
       build_mongo_like_document kasa_scenario [] (u "") = Some doc
       /\ doc_path doc [u "aktif"; u "donenVarliklar"; u "kasa"]
          = Some (DVal (VFloat 1000))
       /\ doc_path doc [u "aktif"; u "donenVarliklar"; u "toplam"]
          = Some (DVal (VFloat 0)).
Proof.
  split; [vm_compute; reflexivity|].
  split; [vm_compute; reflexivity|].
  split; [vm_compute; reflexivity|].
  eexists. split; [vm_compute; reflexivity|].
  split; vm_compute; reflexivity.
Qed.

(** Entered under a key of the schema, the same amounts balance: the
    current-assets sum is 1000, the ratio is 1000 / 1, and the only
    finding is the warning for the missing entity name. *)
Lemma schema_key_scenario_balanced :
  sum_donen_varliklar schema_key_scenario = 1000%float
  /\ sum_oz_kaynaklar schema_key_scenario = 1000%float
  /\ likidite_orani (sum_donen_varliklar schema_key_scenario)
       (sum_kv_yabanci_kaynaklar schema_key_scenario) = Some 1000%float
  /\ validate schema_key_scenario = Some [Finding uyari IsletmeAdiBos]
  /\ (forall errors, validate schema_key_scenario = Some errors ->
        existsb is_kritik errors = false
        /\ existsb is_likidite_uyarisi errors = false).
Proof.
  repeat split; try (vm_compute; reflexivity);
    vm_compute in H; injection H as <-; reflexivity.
Qed.

(** C3 (amended): on [{odenmisSermaye: -100}], every other key absent
    or every other schema key at 0 with an empty entity name, [validate]
    returns six findings in the order of its checks: the critical
    imbalance (assets 0, liabilities and equity -100), the warning for
    the missing entity name, the warning for the negative item, the
    liquidity warning (ratio 0), the critical negative equity and the
    empty-sheet warning. *)
Theorem negative_equity_findings :
  let six :=
    [ Finding kritik (BilancoDengesizligi 0 (-100) 100);
      Finding uyari IsletmeAdiBos;
      Finding uyari (NegatifDeger (u "odenmisSermaye") (-100));
      Finding uyari (LikiditeDusuk 0);
      Finding kritik OzKaynaklarNegatif;
      Finding uyari BilancoBos ] in
  validate negative_equity_scenario = Some six
  /\ validate negative_equity_form_scenario = Some six.
Proof. split; vm_compute; reflexivity. Qed.

(** ** Round trip through the spreadsheet *)

Lemma schema_keys_distinct : NoDup schema_keys.
Proof. apply distinct_keys_NoDup. vm_compute. reflexivity. Qed.

(** The number an entry stands for, by the type of the entry. *)
Lemma entry_amount_value (d : entries) (key : pystr) :
  entry_amount d key = entry_value (dict_get d key).
Proof.
  unfold entry_amount, dict_get_or, py_or, entry_value.
  destruct (dict_get d key) as [[|z|x|s]|]; cbn [truthy].
  - reflexivity.
  - destruct (Z.eqb_spec z 0) as [->|Hz]; reflexivity.
  - destruct (x =? 0)%float; reflexivity.
  - destruct s; reflexivity.
  - reflexivity.
Qed.

(** The rows written: one per line item of the schema, with its
    amount. *)
Lemma build_rows_shape (d : entries) :
  build_excel_rows_from_data d
  = map (fun r : pystr * pystr * pystr * pystr =>
           match r with
           | (side, group, label, key) => (side, group, label, key, entry_amount d key)
           end) schema_rows.
Proof.
  unfold build_excel_rows_from_data. generalize (entry_amount d). intros amount.
  vm_compute. reflexivity.
Qed.

Lemma schema_rows_keys :
  map (fun r : pystr * pystr * pystr * pystr => match r with (_, _, _, key) => key end)
    schema_rows = schema_keys.
Proof. vm_compute. reflexivity. Qed.

(** *** The file *)

Lemma all_some_map {A B} (f : A -> option B) (l : list A) (l' : list B) :
  Forall2 (fun x y => f x = Some y) l l' -> all_some (map f l) = Some l'.
Proof.
  induction 1 as [|x y l l' Hxy _ IH]; cbn [map all_some]; [reflexivity|].
  now rewrite Hxy, IH.
Qed.

Lemma drop_while_last {A} (p : A -> bool) (l : list A) :
  Forall (fun x => p x = false) l -> rev (drop_while p (rev l)) = l.
Proof.
  intros H. assert (E : drop_while p (rev l) = rev l).
  { apply Forall_rev in H. destruct (rev l) as [|x r]; [reflexivity|].
    cbn [drop_while]. inversion H as [|? ? Hx _]; subst. now rewrite Hx. }
  rewrite E. apply rev_involutive.
Qed.

Lemma reload_sheet_rows (ws ws' : worksheet) :
  Forall2 (fun r r' => all_some (map stored_cell (written_row r)) = Some r' /\ r' <> [])
    ws ws' ->
  reload_sheet ws = Some ws'.
Proof.
  intros H. unfold reload_sheet.
  rewrite (@all_some_map _ _ (fun r => all_some (map stored_cell (written_row r))) ws ws').
  - f_equal. apply drop_while_last.
    clear - H. induction H as [|r r' ws ws' [_ Hr] _ IH]; constructor; [|exact IH].
    now destruct r'.
  - clear - H. induction H as [|r r' ws ws' [Hr _] _ IH]; constructor; assumption.
Qed.

(** The numeral of a finite float reads as an [int] or as a [float]. *)
Lemma number_cell_numeric (x : float) :
  (exists z, number_cell x = VInt z) \/ (exists y, number_cell x = VFloat y).
Proof.
  unfold number_cell. destruct (Prim2SF x) as [s|s| |s m e]; eauto.
  destruct (sixteen_digits _ _) as [digits e10]. destruct (_ && _); eauto.
Qed.

(** The texts of the sheet "Bilanço" come back as they are. *)
Lemma schema_texts_stored (side group label key : pystr) :
  In (side, group, label, key) schema_rows ->
  stored_cell (VStr side) = Some (VStr side)
  /\ stored_cell (VStr group) = Some (VStr group)
  /\ stored_cell (VStr label) = Some (VStr label)
  /\ stored_cell (VStr key) = Some (VStr key).
Proof.
  assert (Hb : forall s,
            match stored_cell (VStr s) with
            | Some (VStr s') => pystr_eqb s' s
            | _ => false
            end = true ->
            stored_cell (VStr s) = Some (VStr s)).
  { intros s. destruct (stored_cell (VStr s)) as [[| | |s']|]; try discriminate.
    intros E. apply pystr_eqb_eq in E. now subst. }
  assert (H : forallb (fun r : pystr * pystr * pystr * pystr =>
                match r with
                | (side, group, label, key) =>
                  forallb (fun s => match stored_cell (VStr s) with
                                    | Some (VStr s') => pystr_eqb s' s
                                    | _ => false
                                    end) [side; group; label; key]
                end) schema_rows = true) by (vm_compute; reflexivity).
  rewrite forallb_forall in H. intros Hin. specialize (H _ Hin). cbv beta iota in H.
  cbn [forallb] in H. rewrite !andb_true_iff in H.
  destruct H as (H1 & H2 & H3 & H4 & _). auto.
Qed.

Lemma stored_float (x : float) :
  is_finite x = true -> stored_cell (VFloat x) = Some (number_cell x).
Proof. intros H. cbn [stored_cell]. now rewrite H. Qed.

Lemma rows_stored (amount : pystr -> float) (rows : list (pystr * pystr * pystr * pystr)) :
  (forall r, In r rows -> In r schema_rows) ->
  (forall r, In r rows -> is_finite (amount (snd r)) = true) ->
  Forall2 (fun r r' => all_some (map stored_cell (written_row r)) = Some r' /\ r' <> [])
    (map (fun r : pystr * pystr * pystr * pystr =>
            match r with
            | (side, group, label, key) =>
              [VStr side; VStr group; VStr label; VStr key; VFloat (amount key)]
            end) rows)
    (map (fun r : pystr * pystr * pystr * pystr =>
            match r with
            | (side, group, label, key) =>
              [VStr side; VStr group; VStr label; VStr key; number_cell (amount key)]
            end) rows).
Proof.
  induction rows as [|[[[side group] label] key] rows IH]; intros Hin Hfin;
    cbn [map]; constructor.
  - destruct (@schema_texts_stored side group label key) as (H1 & H2 & H3 & H4).
    { apply Hin. now left. }
    split; [|discriminate]. unfold written_row.
    cbn [rev app drop_while is_None map all_some].
    rewrite H1, H2, H3, H4.
    rewrite (@stored_float (amount key)) by (apply (Hfin (side, group, label, key)); now left).
    reflexivity.
  - apply IH; intros r Hr; [apply Hin|apply Hfin]; now right.
Qed.

(** The workbook as it is read back from the file. *)
Lemma reload_saved (d : entries) (name date : pyval) :
  (forall key, In key schema_keys -> is_finite (entry_amount d key) = true) ->
  stored_cell (VStr (py_str (dict_get_or d (u "isletmeAdi") (VStr [])))) = Some name ->
  stored_cell (VStr (py_str (dict_get_or d (u "bilancoTarihi") (VStr [])))) = Some date ->
  reload (save_to_excel d)
  = Some (Workbook
            (u "Bilanço",
             [VStr (u "Taraf"); VStr (u "Grup"); VStr (u "Etiket"); VStr (u "Anahtar");
              VStr (u "Tutar")]
             :: map (fun r : pystr * pystr * pystr * pystr =>
                       match r with
                       | (side, group, label, key) =>
                         [VStr side; VStr group; VStr label; VStr key;
                          number_cell (entry_amount d key)]
                       end) schema_rows)
            [(u "Bilgi", [ [VStr (u "İşletme Adı"); name];
                           [VStr (u "Bilanço Tarihi"); date] ])]).
Proof.
  intros Hfin Hname Hdate. unfold reload, save_to_excel.
  cbn [wb_first wb_rest snd fst map]. rewrite build_rows_shape, map_map.
  erewrite reload_sheet_rows; [erewrite reload_sheet_rows; [reflexivity|]|].
  - constructor; [|constructor; [|constructor]].
    + split; [|discriminate]. unfold written_row. cbn [rev app drop_while is_None map].
      cbn [all_some]. rewrite Hname.
      change (stored_cell (VStr (u "İşletme Adı"))) with (Some (VStr (u "İşletme Adı"))).
      reflexivity.
    + split; [|discriminate]. unfold written_row. cbn [rev app drop_while is_None map].
      cbn [all_some]. rewrite Hdate.
      change (stored_cell (VStr (u "Bilanço Tarihi")))
        with (Some (VStr (u "Bilanço Tarihi"))).
      reflexivity.
  - constructor.
    + split; [vm_compute; reflexivity|discriminate].
    + apply (@rows_stored (entry_amount d) schema_rows); [auto|].
      intros r Hr. apply Hfin. rewrite <- schema_rows_keys. apply in_map_iff.
      exists r. split; [now destruct r as [[[? ?] ?] ?]|assumption].
Qed.

(** A row that carries a key and a number is stored under that key,
    whatever its label. *)
Lemma step_keyed_row (d : entries) (g : option pystr) (a b c : pyval) (k : pystr)
    (x : float) :
  step (Layout false 1 4 5 3) (d, g) [a; b; c; VStr k; number_cell x]
  = (dict_set d k (VFloat (file_value x)), g).
Proof.
  unfold file_value.
  destruct (number_cell_numeric x) as [[z ->]|[y ->]];
    unfold step, step_detailed, cell_at;
    cbn [is_simple_format key_col val_col label_col length Nat.leb nth Nat.sub];
    cbn [is_None str_blank orb negb];
    rewrite !andb_false_r; cbn [andb is_None negb py_str];
    unfold amount_of; reflexivity.
Qed.

Lemma fold_saved_rows (amount : pystr -> float)
    (rows : list (pystr * pystr * pystr * pystr)) (d : entries) (g : option pystr) :
  fold_left (step (Layout false 1 4 5 3))
    (map (fun r : pystr * pystr * pystr * pystr =>
            match r with
            | (side, group, label, key) =>
              [VStr side; VStr group; VStr label; VStr key; number_cell (amount key)]
            end) rows) (d, g)
  = (write_all d (map (fun r : pystr * pystr * pystr * pystr =>
                         match r with
                         | (_, _, _, key) => (key, file_value (amount key))
                         end) rows), g).
Proof.
  revert d. induction rows as [|[[[side group] label] key] rows IH]; intros d.
  - reflexivity.
  - cbn [map fold_left]. rewrite step_keyed_row. rewrite IH. reflexivity.
Qed.

(** What [load_from_excel] makes of the file [save_to_excel] wrote: the
    name and the date as the file gives them, then every amount as its
    numeral reads. *)
Lemma load_saved_file (d : entries) (name date : pyval) :
  (forall key, In key schema_keys -> is_finite (entry_amount d key) = true) ->
  stored_cell (VStr (py_str (dict_get_or d (u "isletmeAdi") (VStr [])))) = Some name ->
  stored_cell (VStr (py_str (dict_get_or d (u "bilancoTarihi") (VStr [])))) = Some date ->
  exists wb,
    reload (save_to_excel d) = Some wb
    /\ load_from_excel wb
       = write_all [(u "isletmeAdi", VStr (py_str (py_or name (VStr []))));
                    (u "bilancoTarihi", VStr (py_str (py_or date (VStr []))))]
           (map (fun key => (key, file_value (entry_amount d key))) schema_keys).
Proof.
  intros Hfin Hname Hdate. eexists. split; [exact (reload_saved d Hfin Hname Hdate)|].
  unfold load_from_excel. cbn [wb_first snd].
  assert (Hlay : forall cell : pystr -> pyval,
            detect_layout
              ([VStr (u "Taraf"); VStr (u "Grup"); VStr (u "Etiket"); VStr (u "Anahtar");
                VStr (u "Tutar")]
               :: map (fun r : pystr * pystr * pystr * pystr =>
                         match r with
                         | (side, group, label, key) =>
                           [VStr side; VStr group; VStr label; VStr key; cell key]
                         end) schema_rows)
            = Layout false 1 4 5 3) by (intros cell; vm_compute; reflexivity).
  rewrite (Hlay (fun key => number_cell (entry_amount d key))).
  cbn [header_row_idx skipn]. rewrite fold_saved_rows. cbn [fst].
  rewrite <- schema_rows_keys, map_map.
  unfold load_meta, sheets, meta_text, ws_row, cell_at, dict_get_or.
  cbn [wb_first wb_rest dict_get].
  change (pystr_eqb (u "Bilgi") (u "Bilanço")) with false.
  change (pystr_eqb (u "Bilgi") (u "Bilgi")) with true.
  cbv iota. cbn [Nat.sub nth length Nat.leb]. reflexivity.
Qed.

(** C4 (amended): from the file that [save_to_excel] wrote for
    a mapping [d] whose amounts are finite and whose name and date the
    file can hold, [load_from_excel] reads, under every non-subtotal
    schema key, the amount [float(d.get(key, 0) or 0)] rounded to the
    sixteen significant digits of its numeral.  Whenever that numeral
    stands for the amount itself, a finite number [x] under the key
    comes back equal to [x] and within 1e-9 of it. *)
Theorem excel_round_trip (d : entries) :
  (forall key, In key schema_keys ->
     is_finite (entry_value (dict_get d key)) = true) ->
  stored_cell (VStr (py_str (dict_get_or d (u "isletmeAdi") (VStr [])))) <> None ->
  stored_cell (VStr (py_str (dict_get_or d (u "bilancoTarihi") (VStr [])))) <> None ->
  exists wb,
    reload (save_to_excel d) = Some wb
    /\ forall key, In key schema_keys ->
         dict_get (load_from_excel wb) key
         = Some (VFloat (file_value (entry_value (dict_get d key))))
         /\ (file_value (entry_value (dict_get d key)) = entry_value (dict_get d key) ->
             forall x, dict_get d key = Some (VFloat x) ->
               (x =? file_value (entry_value (dict_get d key)))%float = true
               /\ (abs (x - file_value (entry_value (dict_get d key))) <=? 1e-9)%float
                  = true).
Proof.
  intros Hfin Hname Hdate.
  destruct (stored_cell (VStr (py_str (dict_get_or d (u "isletmeAdi") (VStr [])))))
    as [name|] eqn:En; [|contradiction].
  destruct (stored_cell (VStr (py_str (dict_get_or d (u "bilancoTarihi") (VStr [])))))
    as [date|] eqn:Ed; [|contradiction].
  destruct (@load_saved_file d name date) as (wb & Hwb & Hload); try assumption.
  { intros key Hkey. rewrite entry_amount_value. now apply Hfin. }
  exists wb. split; [exact Hwb|]. intros key Hkey. split.
  - rewrite Hload, <- entry_amount_value. apply write_all_get.
    + rewrite map_map. cbn [fst]. rewrite map_id. apply schema_keys_distinct.
    + apply in_map_iff. exists key. split; [reflexivity|assumption].
  - intros Hexact x Hx. rewrite Hexact. specialize (Hfin key Hkey).
    rewrite Hx in *. cbn [entry_value] in *.
    destruct (x =? 0)%float eqn:E.
    + split; [assumption|]. now apply zero_sub_small.
    + split; [now apply finite_eqb_refl|now apply finite_sub_diag_small].
Qed.

(** ** Layout detection *)

Lemma scan_header_simple (ws : worksheet) (n r_idx : nat) (lay : layout) :
  is_simple_format (scan_header ws r_idx n lay) = is_simple_format lay.
Proof.
  revert r_idx. induction n as [|n IH]; intros r_idx; cbn [scan_header].
  - reflexivity.
  - destruct_if; [reflexivity|apply IH].
Qed.

(** The layout is the simple one, or the detailed one with the columns
    4, 5 and 3. *)
Lemma detect_layout_shape (ws : worksheet) :
  (max_column ws <= 2 /\ detect_layout ws = Layout true 1 0 2 1)
  \/ (2 < max_column ws /\ exists h, detect_layout ws = Layout false h 4 5 3).
Proof.
  unfold detect_layout. destruct (max_column ws <=? 2)%nat eqn:E.
  - left. split; [now apply Nat.leb_le|reflexivity].
  - right. split; [now apply Nat.leb_gt|].
    rewrite scan_header_simple. cbn [is_simple_format negb]. eauto.
Qed.

(** C2: what the code computes on a sheet whose header row reads
    Etiket, Anahtar, Tutar: the header search finds row 1 and the columns
    key = 2, amount = 3, label = 1, the layout used is nevertheless
    key = 4, amount = 5, label = 3, and the row
    ("Stoklar", "stoklar", 100) is stored under [stoklarDuran]; read with
    the columns found it would be stored under its key [stoklar]. *)
Theorem permuted_header_on_code :
  let ws := snd (wb_first permuted_header_book) in
  scan_header ws 1 (Nat.min 10 (max_row ws)) (Layout false 1 0 0 0) = Layout false 1 2 3 1
  /\ detect_layout ws = Layout false 1 4 5 3
  /\ load_from_excel permuted_header_book = [(u "stoklarDuran", VFloat 100)]
  /\ fst (fold_left (step (Layout false 1 2 3 1)) (skipn 1 ws) ([], None))
     = [(u "stoklar", VFloat 100)].
Proof.
  repeat split; vm_compute; reflexivity.
Qed.

(** ** The simple format *)

Lemma step_simple_layout (lay : layout) (st : load_state) (r : row) :
  is_simple_format lay = true -> step lay st r = step_simple st r.
Proof.
  intros H. unfold step. rewrite H. destruct r; [|reflexivity].
  unfold step_simple. destruct st. reflexivity.
Qed.

Lemma fold_step_simple (lay : layout) (rows : list row) (st : load_state) :
  is_simple_format lay = true ->
  fold_left (step lay) rows st = fold_left step_simple rows st.
Proof.
  intros H. revert st. induction rows as [|r rows IH]; intros st; cbn [fold_left].
  - reflexivity.
  - rewrite step_simple_layout by assumption. apply IH.
Qed.

(** C8: on a sheet of at most two columns the row loop starts at row 2:
    the mapping read is the one the loop builds from the rows after the
    first, so the first row contributes no entry whatever it holds; when
    the sheet is not the sheet "Bilgi" itself, replacing the first row
    leaves the result unchanged. *)
Theorem simple_format_skips_first_row (name : pystr) (r : row) (rows : list row)
    (others : list (pystr * worksheet)) :
  max_column (r :: rows) <= 2 ->
  let wb := Workbook (name, r :: rows) others in
  header_row_idx (detect_layout (r :: rows)) = 1
  /\ load_from_excel wb = fst (fold_left step_simple rows (load_meta wb, None))
  /\ (pystr_eqb (u "Bilgi") name = false ->
      forall r', max_column (r' :: rows) <= 2 ->
        load_from_excel (Workbook (name, r' :: rows) others) = load_from_excel wb).
Proof.
  intros Hc wb.
  assert (Hload : forall r0, max_column (r0 :: rows) <= 2 ->
            load_from_excel (Workbook (name, r0 :: rows) others)
            = fst (fold_left step_simple rows
                     (load_meta (Workbook (name, r0 :: rows) others), None))).
  { intros r0 H0. unfold load_from_excel. cbn [wb_first snd].
    destruct (detect_layout_shape (r0 :: rows)) as [[_ ->]|[Hgt _]]; [|lia].
    cbn [header_row_idx skipn]. now rewrite fold_step_simple. }
  split; [|split].
  - destruct (detect_layout_shape (r :: rows)) as [[_ ->]|[Hgt _]]; [reflexivity|lia].
  - apply Hload. assumption.
  - intros Hname r' Hc'. unfold wb. rewrite !Hload by assumption.
    unfold load_meta, sheets. cbn [wb_first wb_rest dict_get].
    rewrite Hname. reflexivity.
Qed.

(** ** The detailed format *)

(** A turn of the row loop leaves the mapping as it is or assigns one
    key. *)
Lemma step_cases (lay : layout) (st : load_state) (r : row) :
  fst (step lay st r) = fst st
  \/ exists k v, fst (step lay st r) = dict_set (fst st) k v.
Proof.
  destruct st as [d g]. unfold step. destruct r as [|c r]; [now left|].
  destruct (is_simple_format lay).
  - unfold step_simple.
    repeat destruct_if; try destruct (fuzzy _ _ _); cbn [fst];
      solve [now left | right; eauto].
  - unfold step_detailed.
    destruct_if; [now left|].
    match goal with
    | |- context [let (_, _) := ?x in _] => destruct x as [label val]
    end.
    destruct_if; cbn [fst]; solve [now left | right; eauto].
Qed.

Lemma dict_mem_set {A} (d : dict A) (k k' : pystr) (v : A) :
  dict_mem d k' = true -> dict_mem (dict_set d k v) k' = true.
Proof.
  unfold dict_mem. destruct (list_eq_dec N.eq_dec k k') as [->|Hne].
  - now rewrite dict_get_set_same.
  - now rewrite dict_get_set_other.
Qed.

Lemma step_mem_mono (lay : layout) (st : load_state) (r : row) (k : pystr) :
  dict_mem (fst st) k = true -> dict_mem (fst (step lay st r)) k = true.
Proof.
  intros H. destruct (step_cases lay st r) as [->|(k0 & v0 & ->)].
  - assumption.
  - now apply dict_mem_set.
Qed.

Lemma fold_step_mem_mono (lay : layout) (rows : list row) (st : load_state) (k : pystr) :
  dict_mem (fst st) k = true -> dict_mem (fst (fold_left (step lay) rows st)) k = true.
Proof.
  revert st. induction rows as [|r rows IH]; intros st H; cbn [fold_left].
  - assumption.
  - apply IH. now apply step_mem_mono.
Qed.

(** A row with a non-blank key cell is stored under that cell's text. *)
Lemma step_detailed_keyed (h : nat) (d : entries) (g : option pystr) (r : row) :
  is_None (cell_at r 4) = false -> str_blank (cell_at r 4) = false ->
  step (Layout false h 4 5 3) (d, g) r
  = (dict_set d (py_str (cell_at r 4)) (VFloat (amount_of (cell_at r 5))), g).
Proof.
  intros Hn Hb. unfold step. cbn [is_simple_format].
  destruct r as [|c r]; [discriminate|].
  unfold step_detailed. cbn [key_col val_col label_col].
  rewrite Hn, Hb. cbn [orb]. rewrite !andb_false_r. cbn [andb negb].
  rewrite Hn. reflexivity.
Qed.

(** C9: on the detailed path a data row whose key cell is not blank is
    stored under the text of that cell, with the amount of its amount
    cell, whatever its label cell holds and whether or not the text is a
    key of the schema; the key is in the mapping returned.  The sheet
    [foreign_key_book] yields the key "fooBar", which no line item has. *)
Theorem detailed_key_cell_verbatim (wb : workbook) (r : row) :
  let ws := snd (wb_first wb) in
  let lay := detect_layout ws in
  let key := cell_at r (key_col lay) in
  is_simple_format lay = false ->
  In r (skipn (header_row_idx lay) ws) ->
  is_None key = false -> str_blank key = false ->
  (forall d g,
     step lay (d, g) r
     = (dict_set d (py_str key) (VFloat (amount_of (cell_at r (val_col lay)))), g))
  /\ dict_mem (load_from_excel wb) (py_str key) = true
  /\ (dict_mem (load_from_excel foreign_key_book) (u "fooBar") = true
      /\ ~ In (u "fooBar") all_keys).
Proof.
  intros ws lay key Hs Hin Hn Hb.
  destruct (detect_layout_shape ws) as [[_ E]|[_ [h E]]];
    [fold lay in E; rewrite E in Hs; discriminate|].
  fold lay in E. subst key. unfold load_from_excel. fold ws lay.
  revert Hin Hn Hb. rewrite E. cbn [key_col val_col header_row_idx].
  intros Hin Hn Hb.
  split; [intros d g; now apply step_detailed_keyed|]. split.
  - apply in_split in Hin as (l1 & l2 & ->).
    rewrite fold_left_app. cbn [fold_left].
    destruct (fold_left _ l1 _) as [d1 g1].
    rewrite step_detailed_keyed by assumption.
    apply fold_step_mem_mono. cbn [fst]. unfold dict_mem.
    now rewrite dict_get_set_same.
  - split; [vm_compute; reflexivity|].
    intros Hin'. apply pystr_in_In in Hin'. vm_compute in Hin'. discriminate.
Qed.

(** ** Label tables *)

Lemma dict_get_In {A} (d : dict A) (k : pystr) (v : A) :
  dict_get d k = Some v -> In (k, v) d.
Proof.
  induction d as [|[k' v'] d IH]; cbn; [discriminate|].
  destruct (pystr_eqb k k') eqn:E.
  - apply pystr_eqb_eq in E. intros [= ->]. subst. now left.
  - intros H. right. now apply IH.
Qed.

Lemma dict_mem_In {A} (d : dict A) (k : pystr) :
  dict_mem d k = true -> In k (map fst d).
Proof.
  unfold dict_mem. destruct (dict_get d k) as [v|] eqn:E; [|discriminate].
  intros _. apply dict_get_In in E. apply in_map_iff. now exists (k, v).
Qed.

(** Every label of a group table is a label of the global table. *)
Lemma group_keys_global (g norm : pystr) :
  dict_mem (dict_get_or (group_label_to_key_map LABELS) g []) norm = true ->
  dict_mem (label_to_key LABELS) norm = true.
Proof.
  assert (Hall : forallb (fun gd : pystr * dict pystr =>
                   forallb (fun kv => dict_mem (label_to_key LABELS) (fst kv)) (snd gd))
                   (group_label_to_key_map LABELS) = true)
    by (vm_compute; reflexivity).
  rewrite forallb_forall in Hall.
  unfold dict_get_or. destruct (dict_get _ g) as [gd|] eqn:E; [|discriminate].
  apply dict_get_In in E. specialize (Hall _ E). cbn [snd] in Hall.
  rewrite forallb_forall in Hall. intros Hm. apply dict_mem_In in Hm.
  apply in_map_iff in Hm as ([k v] & <- & Hin). exact (Hall _ Hin).
Qed.

Lemma lookup_label_none (g : option pystr) (norm : pystr) :
  dict_get (label_to_key LABELS) norm = None -> lookup_label g norm = None.
Proof.
  intros H. unfold lookup_label. destruct g as [g|]; [|assumption].
  destruct (truthy (VStr g) && dict_mem _ norm) eqn:E; [|assumption].
  apply andb_true_iff in E as [_ E]. apply group_keys_global in E.
  unfold dict_mem in E. rewrite H in E. discriminate.
Qed.

(** With [STRICT_LABELS] set, the fuzzy match changes nothing. *)
Lemma fuzzy_strict (mapped : option pystr) (norm : pystr) (cutoff : float) :
  fuzzy mapped norm cutoff = mapped.
Proof. destruct mapped; reflexivity. Qed.

(** C10: for a label whose normal form is no label of the schema but an
    entry of the alias table, a row of the simple format adds no entry,
    whatever its other cells hold, while a row of the detailed format
    with an empty key cell and a non-blank amount is stored under the
    key the alias table gives: the alias table is read on the detailed
    path only. *)
Theorem alias_only_on_detailed_path (d : entries) (g : option pystr) (label : pyval)
    (k : pystr) :
  is_None label = false ->
  dict_get (label_to_key LABELS) (_normalize (py_str label)) = None ->
  dict_get alias_to_key (_normalize (py_str label)) = Some k ->
  (forall rest, fst (step (Layout true 1 0 2 1) (d, g) (label :: rest)) = d)
  /\ (forall h r,
        cell_at r 4 = VNone -> cell_at r 3 = label ->
        (is_None (cell_at r 5) || str_blank (cell_at r 5)) = false ->
        step (Layout false h 4 5 3) (d, g) r
        = (dict_set d k (VFloat (amount_of (cell_at r 5))), g)).
Proof.
  intros Hn Hl Ha. split.
  - intros rest. unfold step, step_simple.
    cbn [is_simple_format length Nat.leb nth]. rewrite Hn.
    destruct_if; [reflexivity|].
    rewrite lookup_label_none by assumption. reflexivity.
  - intros h r Hk Hlab Hv. unfold step. cbn [is_simple_format].
    destruct r as [|c r]; [subst label; discriminate|].
    unfold step_detailed. cbn [key_col val_col label_col].
    rewrite Hk, Hlab, Hv, Hn. cbn [is_None orb andb negb].
    rewrite !andb_false_r. rewrite Hn. cbn [negb].
    rewrite lookup_label_none by assumption. rewrite Ha.
    rewrite fuzzy_strict. reflexivity.
Qed.

(** ** Group scoping *)

Lemma cell_at_nil (col : nat) : cell_at [] col = VNone.
Proof. unfold cell_at. destruct (col <=? _)%nat; [|reflexivity]. now destruct (col - 1). Qed.

(** The empty row is no group header. *)
Lemma group_header_nil (lay : layout) : group_header lay [] = None.
Proof.
  unfold group_header, row_label. rewrite cell_at_nil.
  now destruct (is_simple_format lay).
Qed.

(** A group-header row sets the current group and adds no entry. *)
Lemma step_header (lay : layout) (d : entries) (g : option pystr) (r : row) (G : pystr) :
  group_header lay r = Some G -> step lay (d, g) r = (d, Some G).
Proof.
  destruct r as [|c r]; [now rewrite group_header_nil|].
  unfold group_header, row_label, row_val, row_key, step.
  destruct (is_simple_format lay) eqn:Es.
  - unfold step_simple.
    destruct (is_None (if (1 <=? _)%nat then _ else _)) eqn:En; [discriminate|].
    cbn [negb andb orb]. rewrite andb_true_r.
    destruct (pystr_in _ _ && _); [|discriminate]. now intros [= <-].
  - unfold step_detailed.
    destruct (negb _ && _ && _ && _); [|discriminate]. now intros [= <-].
Qed.

(** Any other row leaves the current group as it is. *)
Lemma step_keeps_group (lay : layout) (d : entries) (g : option pystr) (r : row) :
  group_header lay r = None -> snd (step lay (d, g) r) = g.
Proof.
  unfold group_header, row_label, row_val, row_key, step.
  destruct r as [|c r]; [reflexivity|].
  destruct (is_simple_format lay) eqn:Es.
  - unfold step_simple.
    destruct (is_None (if (1 <=? _)%nat then _ else _)) eqn:En; [reflexivity|].
    cbn [negb andb orb]. rewrite andb_true_r.
    destruct (pystr_in _ _ && _); [discriminate|]. intros _.
    now destruct (fuzzy _ _ _).
  - unfold step_detailed.
    destruct (negb _ && _ && _ && _); [discriminate|]. intros _.
    match goal with
    | |- context [let (_, _) := ?x in _] => destruct x as [label val]
    end.
    now destruct_if.
Qed.

Lemma fold_keeps_group (lay : layout) (rows : list row) (d : entries) (g : option pystr) :
  Forall (fun m => group_header lay m = None) rows ->
  snd (fold_left (step lay) rows (d, g)) = g.
Proof.
  revert d. induction rows as [|r rows IH]; intros d H; cbn [fold_left].
  - reflexivity.
  - inversion H as [|? ? Hr Hrows]; subst.
    pose proof (@step_keeps_group lay d g r Hr) as Hs.
    destruct (step lay (d, g) r) as [d' g']. cbn [snd] in Hs. subst g'.
    now apply IH.
Qed.

Lemma diger_borclar_scoped (G : pystr) :
  G = _normalize (u "Kısa Vadeli Yükümlülükler")
  \/ G = _normalize (u "Uzun Vadeli Yükümlülükler") ->
  lookup_label (Some G) (_normalize (u "Diğer Borçlar")) = Some (diger_borclar_key G).
Proof. intros [->| ->]; vm_compute; reflexivity. Qed.

Lemma diger_borclar_no_group :
  pystr_in (_normalize (u "Diğer Borçlar")) (group_names_norm LABELS) = false.
Proof. vm_compute. reflexivity. Qed.

(** C5 (amended): after the header row of one of the two groups that
    list "Diğer Borçlar" (Kısa Vadeli Yükümlülükler, Uzun Vadeli
    Yükümlülükler) and any rows that are no group headers, a row whose
    label normalizes like "Diğer Borçlar" -- on the detailed path a row
    with an empty key cell and a non-blank amount -- is stored under the
    key of that group, [digerBorclarKV] or [digerBorclarUV]; the two keys
    differ. *)
Theorem diger_borclar_group_scoped (lay : layout) (st : load_state) (hdr : row)
    (mid : list row) (r : row) (G : pystr) :
  G = _normalize (u "Kısa Vadeli Yükümlülükler")
  \/ G = _normalize (u "Uzun Vadeli Yükümlülükler") ->
  group_header lay hdr = Some G ->
  Forall (fun m => group_header lay m = None) mid ->
  is_None (row_label lay r) = false ->
  _normalize (py_str (row_label lay r)) = _normalize (u "Diğer Borçlar") ->
  is_simple_format lay = true
  \/ (is_None (row_key lay r) = true
      /\ (is_None (row_val lay r) || str_blank (row_val lay r)) = false) ->
  (exists d',
     fold_left (step lay) (hdr :: mid) st = (d', Some G)
     /\ step lay (d', Some G) r
        = (dict_set d' (diger_borclar_key G) (VFloat (amount_of (row_val lay r))), Some G))
  /\ diger_borclar_key (_normalize (u "Kısa Vadeli Yükümlülükler"))
     <> diger_borclar_key (_normalize (u "Uzun Vadeli Yükümlülükler")).
Proof.
  intros HG Hh Hmid Hn Hnorm Hshape. split; [|vm_compute; discriminate].
  destruct st as [d g]. cbn [fold_left]. rewrite (@step_header lay d g hdr G Hh).
  pose proof (@fold_keeps_group lay mid d (Some G) Hmid) as Hg.
  destruct (fold_left (step lay) mid (d, Some G)) as [d' g']. cbn [snd] in Hg. subst g'.
  exists d'. split; [reflexivity|].
  revert Hn Hnorm Hshape. unfold row_label, row_val, row_key, step.
  destruct r as [|c r].
  { rewrite cell_at_nil. destruct (is_simple_format lay); discriminate. }
  destruct (is_simple_format lay) eqn:Es.
  - intros Hn Hnorm _. unfold step_simple. rewrite Hn, Hnorm.
    rewrite diger_borclar_no_group. cbn [andb].
    rewrite (diger_borclar_scoped HG). reflexivity.
  - intros Hn Hnorm [[=]|[Hk Hv]]. unfold step_detailed.
    rewrite Hn, Hnorm, Hk, Hv. cbn [negb andb orb].
    rewrite diger_borclar_no_group. cbn [andb]. rewrite Hn, Hnorm. cbn [negb].
    rewrite (diger_borclar_scoped HG). reflexivity.
Qed.

End Properties.

(* ================================================================== *)
(** * Further properties: totals and validation *)
(* ================================================================== *)

Section Totals.

Context {rt : PyRuntime}.

Lemma schema_keys_split :
  schema_keys = DONEN_KEYS ++ DURAN_KEYS ++ KV_KEYS ++ UV_KEYS ++ OZ_KEYS.
Proof. vm_compute. reflexivity. Qed.

Lemma add_entry_agree (d d' : entries) (total : float) (key : pystr) :
  dict_get d key = dict_get d' key -> add_entry d total key = add_entry d' total key.
Proof. intros H. unfold add_entry, dict_get_or. now rewrite H. Qed.

Lemma sum_keys_agree (d d' : entries) (keys : list pystr) (total : float) :
  (forall k, In k keys -> dict_get d k = dict_get d' k) ->
  fold_left (add_entry d) keys total = fold_left (add_entry d') keys total.
Proof.
  revert total. induction keys as [|k keys IH]; intros total H; cbn [fold_left].
  - reflexivity.
  - rewrite (@add_entry_agree d d' total k) by (apply H; now left).
    apply IH. intros k' Hk'. apply H. now right.
Qed.

(** The five totals read the mapping at the non-subtotal schema keys and
    at [birikmiAmort] only: two mappings that agree there have the same
    totals, whatever else they hold. *)
Theorem totals_read_schema_keys_only (d d' : entries) :
  (forall k, In k schema_keys \/ k = u "birikmiAmort" -> dict_get d k = dict_get d' k) ->
  sum_donen_varliklar d = sum_donen_varliklar d'
  /\ sum_duran_varliklar d = sum_duran_varliklar d'
  /\ sum_kv_yabanci_kaynaklar d = sum_kv_yabanci_kaynaklar d'
  /\ sum_uv_yabanci_kaynaklar d = sum_uv_yabanci_kaynaklar d'
  /\ sum_oz_kaynaklar d = sum_oz_kaynaklar d'.
Proof.
  intros H.
  assert (Hs : forall keys, (forall k, In k keys -> In k schema_keys) ->
             fold_left (add_entry d) keys 0%float = fold_left (add_entry d') keys 0%float).
  { intros keys Hk. apply sum_keys_agree. intros k Hin. apply H. left. now apply Hk. }
  unfold sum_donen_varliklar, sum_duran_varliklar, sum_kv_yabanci_kaynaklar,
    sum_uv_yabanci_kaynaklar, sum_oz_kaynaklar, dict_get_or.
  rewrite <- (H (u "birikmiAmort")) by now right.
  rewrite !Hs; [repeat split; reflexivity|..];
    intros k Hk; rewrite schema_keys_split, !in_app_iff; tauto.
Qed.

(** ** Findings *)

Lemma negatif_kontrol_no_kritik (l : list (pystr * pyval)) (errors : list finding) :
  filter is_kritik (fold_left negatif_kontrol l errors) = filter is_kritik errors.
Proof.
  revert errors. induction l as [|[k v] l IH]; intros errors; cbn [fold_left].
  - reflexivity.
  - rewrite IH. unfold negatif_kontrol.
    repeat destruct_if; try reflexivity.
    destruct (to_float v) as [num|]; [|reflexivity].
    destruct_if; [|reflexivity].
    rewrite filter_app. cbn. now rewrite app_nil_r.
Qed.

(** The critical findings of [validate] are the imbalance, reported when
    the two sides differ by more than 0.01, and the negative equity,
    reported when the equity total is below 0, in that order; nothing
    else is critical. *)
Theorem validate_kritik (d : entries) :
  let aktif := (sum_donen_varliklar d + sum_duran_varliklar d)%float in
  let pasif :=
    (sum_kv_yabanci_kaynaklar d + sum_uv_yabanci_kaynaklar d + sum_oz_kaynaklar d)%float in
  exists errors,
    validate d = Some errors
    /\ filter is_kritik errors
       = (if (0.01 <? abs (aktif - pasif))%float
          then [Finding kritik (BilancoDengesizligi aktif pasif (aktif - pasif))] else [])
         ++ (if (sum_oz_kaynaklar d <? 0)%float
             then [Finding kritik OzKaynaklarNegatif] else []).
Proof.
  intros aktif pasif. unfold validate. fold aktif pasif.
  rewrite likidite_orani_total.
  eexists. split; [reflexivity|].
  repeat destruct_if;
    rewrite ?filter_app, ?negatif_kontrol_no_kritik, ?filter_app; reflexivity.
Qed.

Lemma if_app_tail {A} (c : bool) (e : list A) (x : A) :
  (if c then e ++ [x] else e) = e ++ (if c then [x] else []).
Proof. destruct c; [reflexivity|now rewrite app_nil_r]. Qed.

Lemma negatif_kontrol_In (l : list (pystr * pyval)) (errors : list finding) (f : finding) :
  In f (fold_left negatif_kontrol l errors) <->
  In f errors
  \/ exists key value num,
       In (key, value) l
       /\ pystr_in key [u "isletmeAdi"; u "bilancoTarihi"; u "birikmiAmort"] = false
       /\ to_float value = Some num /\ (num <? 0)%float = true
       /\ f = Finding uyari (NegatifDeger key num).
Proof.
  revert errors. induction l as [|[k v] l IH]; intros errors; cbn [fold_left].
  - split; [now left|]. intros [H|(key & value & num & [] & _)]. exact H.
  - rewrite IH. unfold negatif_kontrol.
    destruct (pystr_in k _) eqn:Ek.
    { split; [intros [H|(key & value & num & Hin & Hr)]; [now left|right]
             |intros [H|(key & value & num & [[= <- <-]|Hin] & Hk & Hr)]; [now left| |right]].
      - exists key, value, num. split; [now right|assumption].
      - rewrite Ek in Hk. discriminate.
      - now exists key, value, num. }
    destruct (to_float v) as [n|] eqn:Ev.
    2:{ split; [intros [H|(key & value & num & Hin & Hr)]; [now left|right]
               |intros [H|(key & value & num & [[= <- <-]|Hin] & Hk & Hf & Hr)];
                [now left| |right]].
        - exists key, value, num. split; [now right|assumption].
        - rewrite Ev in Hf. discriminate.
        - now exists key, value, num. }
    destruct (n <? 0)%float eqn:En.
    + rewrite in_app_iff. cbn [In].
      split.
      * intros [[H|[<-|[]]]|(key & value & num & Hin & Hr)].
        -- now left.
        -- right. exists k, v, n. repeat split; try assumption. now left.
        -- right. exists key, value, num. split; [now right|assumption].
      * intros [H|(key & value & num & [[= <- <-]|Hin] & Hk & Hf & Hlt & ->)].
        -- left. now left.
        -- left. right. left. rewrite Ev in Hf. now injection Hf as <-.
        -- right. now exists key, value, num.
    + split; [intros [H|(key & value & num & Hin & Hr)]; [now left|right]
             |intros [H|(key & value & num & [[= <- <-]|Hin] & Hk & Hf & Hlt & Hr)];
              [now left| |right]].
      * exists key, value, num. split; [now right|assumption].
      * rewrite Ev in Hf. injection Hf as <-. rewrite En in Hlt. discriminate.
      * now exists key, value, num.
Qed.

(** [validate] warns about a negative value exactly for the items of the
    mapping whose value [float] accepts and finds below 0, the items
    [isletmeAdi], [bilancoTarihi] and [birikmiAmort] excepted: these three
    keys are never reported as negative. *)
Theorem validate_negative_items (d : entries) :
  exists errors,
    validate d = Some errors
    /\ forall key num,
         In (Finding uyari (NegatifDeger key num)) errors
         <-> exists value,
               In (key, value) d
               /\ pystr_in key [u "isletmeAdi"; u "bilancoTarihi"; u "birikmiAmort"] = false
               /\ to_float value = Some num /\ (num <? 0)%float = true.
Proof.
  unfold validate. rewrite likidite_orani_total.
  eexists. split; [reflexivity|]. intros key num.
  assert (Hfold : forall init,
            (forall f, In f init -> f <> Finding uyari (NegatifDeger key num)) ->
            In (Finding uyari (NegatifDeger key num)) (fold_left negatif_kontrol d init)
            <-> exists value,
                  In (key, value) d
                  /\ pystr_in key [u "isletmeAdi"; u "bilancoTarihi"; u "birikmiAmort"]
                     = false
                  /\ to_float value = Some num /\ (num <? 0)%float = true).
  { intros init Hinit. rewrite negatif_kontrol_In. split.
    - intros [H|(k & v & n & Hin & Hk & Hf & Hlt & [= <- <-])].
      + now apply Hinit in H.
      + now exists v.
    - intros (v & Hin & Hk & Hf & Hlt). right. now exists key, v, num. }
  rewrite !if_app_tail, <- !app_assoc. rewrite in_app_iff.
  rewrite Hfold.
  - repeat destruct_if; cbn [app In];
      (split; [intros [H|H]; [exact H|exfalso]|intros H; now left]);
      repeat destruct H as [H|H]; try discriminate H; contradiction.
  - repeat destruct_if; cbn [app In]; intros f Hf;
      repeat destruct Hf as [Hf|Hf]; try contradiction; subst f; discriminate.
Qed.

(** ** The sheet without amounts *)

Lemma add_entry_falsy (d : entries) (total : float) (key : pystr) :
  truthy (dict_get_or d key (VInt 0)) = false ->
  add_entry d total key = (total + 0)%float.
Proof. intros H. unfold add_entry, py_or. now rewrite H. Qed.

Lemma sum_keys_falsy (d : entries) (keys : list pystr) :
  (forall k, In k keys -> truthy (dict_get_or d k (VInt 0)) = false) ->
  fold_left (add_entry d) keys 0%float = 0%float.
Proof.
  induction keys as [|k keys IH]; intros H; cbn [fold_left].
  - reflexivity.
  - rewrite add_entry_falsy by (apply H; now left).
    change (0 + 0)%float with 0%float. apply IH. intros k' Hk'. apply H. now right.
Qed.

(** When every non-subtotal schema key and [birikmiAmort] are absent from
    the mapping or hold a false value (0, 0.0, an empty text, None),
    [validate] ends its findings with the liquidity warning for the ratio
    0 / 1 and the empty-sheet warning, and reports nothing critical. *)
Theorem validate_zero_sheet (d : entries) :
  (forall k, In k schema_keys \/ k = u "birikmiAmort" ->
     truthy (dict_get_or d k (VInt 0)) = false) ->
  exists errors,
    validate d = Some (errors ++ [Finding uyari (LikiditeDusuk 0);
                                  Finding uyari BilancoBos])
    /\ filter is_kritik errors = [].
Proof.
  intros H.
  assert (Hs : forall keys, (forall k, In k keys -> In k schema_keys) ->
             fold_left (add_entry d) keys 0%float = 0%float).
  { intros keys Hk. apply sum_keys_falsy. intros k Hin. apply H. left. now apply Hk. }
  assert (Hdonen : sum_donen_varliklar d = 0%float).
  { apply Hs. intros k Hk. rewrite schema_keys_split, !in_app_iff. tauto. }
  assert (Hduran : sum_duran_varliklar d = 0%float).
  { unfold sum_duran_varliklar, py_or. rewrite (H (u "birikmiAmort")) by now right.
    rewrite Hs; [reflexivity|].
    intros k Hk. rewrite schema_keys_split, !in_app_iff. tauto. }
  assert (Hkv : sum_kv_yabanci_kaynaklar d = 0%float).
  { apply Hs. intros k Hk. rewrite schema_keys_split, !in_app_iff. tauto. }
  assert (Huv : sum_uv_yabanci_kaynaklar d = 0%float).
  { apply Hs. intros k Hk. rewrite schema_keys_split, !in_app_iff. tauto. }
  assert (Hoz : sum_oz_kaynaklar d = 0%float).
  { apply Hs. intros k Hk. rewrite schema_keys_split, !in_app_iff. tauto. }
  unfold validate. rewrite Hdonen, Hduran, Hkv, Huv, Hoz.
  change (likidite_orani 0 0) with (Some 0%float).
  cbv beta iota zeta.
  change (0.01 <? abs (0 + 0 - (0 + 0 + 0)))%float with false.
  change (0 <? 1)%float with true.
  change (0 <? 0)%float with false.
  change (PrimFloat.eqb (0 + 0) 0) with true.
  cbv beta iota.
  eexists. split.
  - rewrite <- app_assoc. reflexivity.
  - rewrite negatif_kontrol_no_kritik. now destruct_if.
Qed.

(** ** The balance indicator of the form *)

Lemma SFcompare_antisym (x y : spec_float) :
  SFcompare y x = option_map CompOpp (SFcompare x y).
Proof.
  destruct x as [sx|sx| |sx mx ex], y as [sy|sy| |sy my ey];
    try destruct sx; try destruct sy; try reflexivity; cbn;
    rewrite (Z.compare_antisym ex ey); destruct (Z.compare ex ey); cbn;
    try reflexivity;
    replace (Pos.compare_cont Eq my mx) with (CompOpp (Pos.compare_cont Eq mx my))
      by apply (Pos.compare_cont_antisym mx my Eq);
    now destruct (Pos.compare_cont Eq mx my).
Qed.

Lemma SFcompare_refl (x : spec_float) :
  SFcompare x x = match x with S754_nan => None | _ => Some Eq end.
Proof.
  destruct x as [s|s| |s m e]; try destruct s; try reflexivity; cbn;
    now rewrite Z.compare_refl, Pos.compare_cont_refl.
Qed.

(** [c < x] is [not (x <= c)] unless [x] is not a number. *)
Lemma ltb_not_leb (c x : float) :
  is_nan c = false ->
  (c <? x)%float = negb (x <=? c)%float && negb (is_nan x).
Proof.
  unfold is_nan. rewrite ltb_spec, leb_spec, !FloatAxioms.eqb_spec.
  unfold SFltb, SFleb, SFeqb. rewrite (SFcompare_antisym (Prim2SF x) (Prim2SF c)).
  rewrite !SFcompare_refl.
  destruct (Prim2SF c) as [sc|sc| |sc mc ec]; try discriminate; intros _;
    destruct (Prim2SF x) as [sx|sx| |sx mx ex]; try reflexivity;
    match goal with
    | |- context [SFcompare ?a ?b] => destruct (SFcompare a b) as [[| |]|] eqn:E
    end; try reflexivity; cbn in E; discriminate.
Qed.

Lemma is_nan_abs (x : float) : is_nan (abs x) = is_nan x.
Proof.
  unfold is_nan. rewrite !FloatAxioms.eqb_spec, abs_spec. unfold SFeqb.
  rewrite !SFcompare_refl. now destruct (Prim2SF x).
Qed.

Lemma negatif_kontrol_no_dengesizlik (l : list (pystr * pyval)) (errors : list finding) :
  existsb is_dengesizlik (fold_left negatif_kontrol l errors)
  = existsb is_dengesizlik errors.
Proof.
  revert errors. induction l as [|[k v] l IH]; intros errors; cbn [fold_left].
  - reflexivity.
  - rewrite IH. unfold negatif_kontrol.
    repeat destruct_if; try reflexivity.
    destruct (to_float v) as [num|]; [|reflexivity].
    destruct_if; [|reflexivity].
    rewrite existsb_app. cbn. now rewrite !orb_false_r.
Qed.

(** [validate] reports the imbalance exactly when [refresh] shows the
    totals as unbalanced (and the status of [draw_canvas] is not
    "DENGELİ"), unless the difference of the two sides is not a number:
    then the form shows the sheet as unbalanced and [validate] reports no
    imbalance. *)
Theorem validate_agrees_with_refresh (d : entries) :
  let aktif := (sum_donen_varliklar d + sum_duran_varliklar d)%float in
  let pasif :=
    (sum_kv_yabanci_kaynaklar d + sum_uv_yabanci_kaynaklar d + sum_oz_kaynaklar d)%float in
  exists errors,
    validate d = Some errors
    /\ existsb is_dengesizlik errors
       = negb (refresh_dengeli d) && negb (is_nan (aktif - pasif))
    /\ (refresh_dengeli d = true <-> denge_durumu aktif pasif = DENGELI).
Proof.
  intros aktif pasif. unfold validate, refresh_dengeli, denge_durumu. fold aktif pasif.
  rewrite likidite_orani_total.
  eexists. split; [reflexivity|]. split.
  - rewrite <- is_nan_abs. rewrite <- ltb_not_leb by reflexivity.
    repeat destruct_if;
      rewrite ?existsb_app, ?negatif_kontrol_no_dengesizlik, ?existsb_app; reflexivity.
  - cbv zeta. destruct (abs (aktif - pasif) <=? 0.01)%float.
    + split; reflexivity.
    + split; [discriminate|]. now destruct (0 <? aktif - pasif)%float.
Qed.

End Totals.

(* ================================================================== *)
(** * Further properties: entry form and export *)
(* ================================================================== *)

Section EntryForm.

Context {rt : PyRuntime}.

(** ** Text cleaning of [parse_float] *)

Lemma lstrip_all_space (s : pystr) : forallb py_isspace s = true -> lstrip s = [].
Proof.
  induction s as [|c s IH]; cbn; [reflexivity|].
  intros H. apply andb_true_iff in H as [Hc Hs]. rewrite Hc. now apply IH.
Qed.

(** A field that holds nothing but white space reads as 0.0. *)
Theorem parse_float_blank (value : pystr) :
  forallb py_isspace value = true -> parse_float value = 0%float.
Proof.
  intros H. unfold parse_float, strip. rewrite (lstrip_all_space value H).
  reflexivity.
Qed.

Lemma lstrip_app_space (a b : pystr) :
  forallb py_isspace a = true -> lstrip (a ++ b) = lstrip b.
Proof.
  induction a as [|c a IH]; cbn; [reflexivity|].
  intros H. apply andb_true_iff in H as [Hc Ha]. rewrite Hc. now apply IH.
Qed.

(** A per-character rewriting that keeps white space white (or drops
    it) and maps any other character to one character that is not white
    space commutes with [strip]. *)
Section CharMap.

Variable f : N -> pystr.
Hypothesis f_space : forall c, py_isspace c = true ->
  forallb py_isspace (f c) = true /\ rev (f c) = f c.
Hypothesis f_other : forall c, py_isspace c = false ->
  exists c', f c = [c'] /\ py_isspace c' = false.

Lemma lstrip_flat_map (s : pystr) : lstrip (flat_map f s) = flat_map f (lstrip s).
Proof.
  induction s as [|c s IH]; cbn [flat_map lstrip]; [reflexivity|].
  destruct (py_isspace c) eqn:Ec.
  - rewrite lstrip_app_space by apply (f_space c Ec). exact IH.
  - destruct (f_other c Ec) as (c' & Hf & Hc'). cbn [flat_map]. rewrite Hf.
    cbn. now rewrite Hc'.
Qed.

Lemma rev_flat_map (s : pystr) : rev (flat_map f s) = flat_map f (rev s).
Proof.
  induction s as [|c s IH]; cbn [flat_map rev]; [reflexivity|].
  rewrite rev_app_distr, IH, flat_map_app. cbn [flat_map]. rewrite app_nil_r.
  f_equal. destruct (py_isspace c) eqn:Ec.
  - apply (f_space c Ec).
  - destruct (f_other c Ec) as (c' & -> & _). reflexivity.
Qed.

Lemma strip_flat_map (s : pystr) : strip (flat_map f s) = flat_map f (strip s).
Proof.
  unfold strip. now rewrite lstrip_flat_map, rev_flat_map, lstrip_flat_map, rev_flat_map.
Qed.

End CharMap.

Lemma strip_remove_spaces (s : pystr) :
  strip (replace_char 32 (u "") s) = replace_char 32 (u "") (strip s).
Proof.
  apply strip_flat_map.
  - intros c Hc. destruct (N.eqb_spec c 32); cbn; [now split|].
    rewrite Hc. now split.
  - intros c Hc. exists c. destruct (N.eqb_spec c 32); [subst; discriminate|].
    now split.
Qed.

Lemma strip_comma_to_dot (s : pystr) :
  strip (replace_char 44 (u ".") s) = replace_char 44 (u ".") (strip s).
Proof.
  apply strip_flat_map.
  - intros c Hc. destruct (N.eqb_spec c 44); [subst; discriminate|].
    cbn. rewrite Hc. now split.
  - intros c Hc. destruct (N.eqb_spec c 44); [now exists 46%N|now exists c].
Qed.

Lemma replace_char_twice (old : N) (new : pystr) (s : pystr) :
  forallb (fun c => negb (c =? old)%N) new = true ->
  replace_char old new (replace_char old new s) = replace_char old new s.
Proof.
  intros Hnew. unfold replace_char.
  assert (Hid : forall t, forallb (fun c => negb (c =? old)%N) t = true ->
            flat_map (fun c => if (c =? old)%N then new else [c]) t = t).
  { induction t as [|c t IH]; cbn; [reflexivity|].
    intros H. apply andb_true_iff in H as [Hc Ht].
    destruct (c =? old)%N; [discriminate|]. cbn. now rewrite IH. }
  induction s as [|c s IH]; cbn [flat_map]; [reflexivity|].
  rewrite flat_map_app, IH. f_equal.
  destruct (c =? old)%N eqn:E; [now apply Hid|].
  cbn. now rewrite E.
Qed.

Lemma remove_spaces_comma_to_dot (s : pystr) :
  replace_char 32 (u "") (replace_char 44 (u ".") s)
  = replace_char 44 (u ".") (replace_char 32 (u "") s).
Proof.
  unfold replace_char. induction s as [|c s IH]; cbn [flat_map]; [reflexivity|].
  rewrite !flat_map_app, IH. f_equal.
  destruct (N.eqb_spec c 44) as [->|H44]; [reflexivity|].
  destruct (N.eqb_spec c 32) as [->|H32]; [reflexivity|].
  cbn. destruct (N.eqb_spec c 32); [contradiction|].
  destruct (N.eqb_spec c 44); [contradiction|reflexivity].
Qed.

(** [parse_float] reads a text as it reads the same text with every
    space removed and every comma turned into a dot: spaces between
    digits and a decimal comma make no difference. *)
Theorem parse_float_spaces_commas (value : pystr) :
  parse_float (replace_char 44 (u ".") (replace_char 32 (u "") value))
  = parse_float value.
Proof.
  unfold parse_float.
  rewrite strip_comma_to_dot, strip_remove_spaces.
  rewrite remove_spaces_comma_to_dot.
  rewrite (replace_char_twice 32 (u "")) by reflexivity.
  rewrite (replace_char_twice 44 (u ".")) by reflexivity.
  reflexivity.
Qed.

(** ** Collecting the form *)

Lemma dict_get_app {A} (a b : dict A) (k : pystr) :
  dict_get (a ++ b) k = match dict_get a k with Some v => Some v | None => dict_get b k end.
Proof.
  induction a as [|[k' v'] a IH]; cbn; [reflexivity|].
  now destruct (pystr_eqb k k').
Qed.

Lemma dict_set_fresh {A} (d : dict A) (k : pystr) (v : A) :
  dict_get d k = None -> dict_set d k v = d ++ [(k, v)].
Proof.
  induction d as [|[k' v'] d IH]; cbn; [reflexivity|].
  destruct (pystr_eqb k k'); [discriminate|]. intros H. now rewrite IH.
Qed.

(** Assigning keys that are new and distinct appends them in order. *)
Lemma fold_set_fresh {A B} (g : pystr * B -> A) (l : list (pystr * B)) (d : dict A) :
  NoDup (map fst l) ->
  (forall k, In k (map fst l) -> dict_get d k = None) ->
  fold_left (fun d kv => dict_set d (fst kv) (g kv)) l d
  = d ++ map (fun kv => (fst kv, g kv)) l.
Proof.
  revert d. induction l as [|[k b] l IH]; intros d Hnd Hfresh; cbn [fold_left map].
  - now rewrite app_nil_r.
  - inversion Hnd as [|? ? Hk Hnd']; subst. cbn [fst].
    rewrite dict_set_fresh by (apply Hfresh; now left).
    rewrite IH; [now rewrite <- app_assoc|assumption|].
    intros k' Hk'. rewrite dict_get_app, Hfresh by now right.
    cbn. rewrite pystr_eqb_neq; [reflexivity|]. intros ->. contradiction.
Qed.

Lemma dict_get_NoDup {A} (d : dict A) (k : pystr) (v : A) :
  NoDup (map fst d) -> In (k, v) d -> dict_get d k = Some v.
Proof.
  induction d as [|[k' v'] d IH]; cbn; [contradiction|].
  intros Hnd [[= -> ->]|Hin].
  - now rewrite pystr_eqb_refl.
  - inversion Hnd as [|? ? Hk Hnd']; subst.
    rewrite pystr_eqb_neq; [now apply IH|].
    intros ->. apply Hk. apply in_map_iff. now exists (k', v).
Qed.

Lemma fold_left_same {A B} (f g : A -> B -> A) (l : list B) (a : A) :
  (forall a b, f a b = g a b) -> fold_left f l a = fold_left g l a.
Proof.
  intros H. revert a. induction l as [|b l IH]; intros a; cbn; [reflexivity|].
  now rewrite H, IH.
Qed.

Lemma gui_collect_data_map (vars_map : dict pystr) :
  NoDup (map fst vars_map) ->
  gui_collect_data vars_map = map (fun kv => (fst kv, gui_value kv)) vars_map.
Proof.
  intros Hnd. unfold gui_collect_data.
  rewrite (@fold_left_same _ _ _
             (fun (d : entries) kv => dict_set d (fst kv) (gui_value kv))).
  - now rewrite (@fold_set_fresh pyval pystr gui_value vars_map [] Hnd).
  - intros d [key var]. unfold gui_value. cbn [fst snd]. now destruct (pystr_in key _).
Qed.

(** [gui_collect_data] yields one entry per field, in the order of the
    form: the text of the field for [isletmeAdi] and [bilancoTarihi], and
    for every other field a float, the number [parse_float] reads. *)
Theorem gui_collect_data_shape (vars_map : dict pystr) :
  NoDup (map fst vars_map) ->
  gui_collect_data vars_map = map (fun kv => (fst kv, gui_value kv)) vars_map
  /\ map fst (gui_collect_data vars_map) = map fst vars_map
  /\ (forall key value, In (key, value) (gui_collect_data vars_map) ->
        (exists x, value = VFloat x)
        \/ (exists t, value = VStr t /\ In key [u "isletmeAdi"; u "bilancoTarihi"])).
Proof.
  intros Hnd. rewrite (@gui_collect_data_map vars_map Hnd).
  split; [reflexivity|]. split.
  - rewrite map_map. now apply map_ext.
  - intros key value Hin. apply in_map_iff in Hin as ([k t] & [= <- <-] & _).
    unfold gui_value. cbn [fst snd].
    destruct (pystr_in k _) eqn:E.
    + right. exists t. split; [reflexivity|]. now apply pystr_in_In.
    + left. eauto.
Qed.

(** ** The form, the workbook and back *)

Lemma form_keys_distinct : NoDup form_keys.
Proof. apply distinct_keys_NoDup. vm_compute. reflexivity. Qed.

Lemma schema_key_not_text (k : pystr) :
  In k schema_keys -> pystr_in k [u "isletmeAdi"; u "bilancoTarihi"] = false.
Proof.
  assert (H : forallb (fun k => negb (pystr_in k [u "isletmeAdi"; u "bilancoTarihi"]))
                schema_keys = true) by (vm_compute; reflexivity).
  rewrite forallb_forall in H. intros Hk. apply H in Hk.
  now destruct (pystr_in k _).
Qed.

Lemma schema_key_not_text_eqb (k : pystr) :
  In k schema_keys ->
  pystr_eqb k (u "isletmeAdi") = false /\ pystr_eqb k (u "bilancoTarihi") = false.
Proof.
  intros Hk. apply schema_key_not_text in Hk. unfold pystr_in in Hk.
  cbn [existsb] in Hk. apply orb_false_iff in Hk as [H1 H2].
  apply orb_false_iff in H2 as [H2 _]. now split.
Qed.

Lemma write_all_fresh (kvs : list (pystr * float)) (d : entries) :
  NoDup (map fst kvs) ->
  (forall k, In k (map fst kvs) -> dict_get d k = None) ->
  write_all d kvs = d ++ map (fun kv => (fst kv, VFloat (snd kv))) kvs.
Proof.
  intros Hnd Hfresh. unfold write_all.
  exact (@fold_set_fresh pyval float (fun kv => VFloat (snd kv)) kvs d Hnd Hfresh).
Qed.

(** The mapping collected from the entry form comes back unchanged
    from [save_to_excel] followed by [load_from_excel] of the file
    written, provided the file holds what the form holds: every amount
    is finite, is no negative zero (which comes back as 0.0) and is a
    number that its sixteen-digit numeral gives back, and the name and
    the date are empty or texts a cell gives back as they are (a text
    that starts with "=" is not: it comes back empty). *)
Theorem form_excel_round_trip (vars_map : dict pystr) :
  map fst vars_map = form_keys ->
  (forall k s, In (k, s) vars_map -> In k schema_keys ->
     is_finite (parse_float s) = true
     /\ ((parse_float s =? 0)%float = true -> parse_float s = 0%float)
     /\ file_value (parse_float s) = parse_float s) ->
  (forall k s, In (k, s) vars_map -> In k [u "isletmeAdi"; u "bilancoTarihi"] ->
     s = [] \/ stored_cell (VStr s) = Some (VStr s)) ->
  exists wb,
    reload (save_to_excel (gui_collect_data vars_map)) = Some wb
    /\ load_from_excel wb = gui_collect_data vars_map.
Proof.
  intros Hkeys Hamount Htext.
  assert (Hnd : NoDup (map fst vars_map)) by (rewrite Hkeys; apply form_keys_distinct).
  rewrite (@gui_collect_data_map vars_map Hnd).
  destruct vars_map as [|[k1 n] [|[k2 t] rest]]; try discriminate.
  injection Hkeys as -> -> Hrest.
  set (amounts := map (fun kv : pystr * pystr => (fst kv, parse_float (snd kv))) rest).
  assert (Hd : map (fun kv => (fst kv, gui_value kv))
                 ((u "isletmeAdi", n) :: (u "bilancoTarihi", t) :: rest)
               = (u "isletmeAdi", VStr n) :: (u "bilancoTarihi", VStr t)
                 :: map (fun kv => (fst kv, VFloat (snd kv))) amounts).
  { cbn [map]. f_equal. f_equal. unfold amounts. rewrite map_map. cbn [fst snd].
    apply map_ext_in. intros [k s] Hin. unfold gui_value. cbn [fst snd].
    rewrite (@schema_key_not_text k); [reflexivity|].
    rewrite <- Hrest. apply in_map_iff. now exists (k, s). }
  rewrite Hd. set (d := _ :: _ :: map _ amounts).
  assert (Hkeys : map fst amounts = schema_keys).
  { unfold amounts. rewrite map_map, <- Hrest. apply map_ext. now intros []. }
  assert (Hnd' : NoDup (map fst amounts)).
  { rewrite Hkeys. apply schema_keys_distinct. }
  assert (Hrow : forall k s, In (k, s) rest ->
            In k schema_keys /\ entry_amount d k = parse_float s).
  { intros k s Hin.
    assert (Hk : In k schema_keys).
    { rewrite <- Hrest. apply in_map_iff. now exists (k, s). }
    split; [exact Hk|].
    assert (Hget : dict_get d k = Some (VFloat (parse_float s))).
    { unfold d. cbn [dict_get].
      destruct (@schema_key_not_text_eqb k Hk) as [Hm1 Hm2].
      rewrite Hm1, Hm2.
      apply dict_get_NoDup.
      - rewrite map_map. cbn [fst]. exact Hnd'.
      - apply in_map_iff. exists (k, parse_float s). split; [reflexivity|].
        unfold amounts. apply in_map_iff. now exists (k, s). }
    unfold entry_amount, dict_get_or, py_or. rewrite Hget. cbn [truthy].
    destruct (parse_float s =? 0)%float eqn:E; cbn [negb to_float].
    - change (float_of_int 0) with (Some 0%float). cbv iota.
      symmetry. apply (Hamount k s); [right; now right|assumption..].
    - reflexivity. }
  assert (Ham : map (fun k => (k, file_value (entry_amount d k))) schema_keys = amounts).
  { rewrite <- Hrest. unfold amounts. rewrite map_map. apply map_ext_in.
    intros [k s] Hin. cbn [fst snd]. f_equal.
    destruct (Hrow k s Hin) as [Hk ->].
    apply (Hamount k s); [right; now right|assumption]. }
  assert (Hcell : forall k s, In k [u "isletmeAdi"; u "bilancoTarihi"] ->
            In (k, s) [(u "isletmeAdi", n); (u "bilancoTarihi", t)] ->
            exists c, stored_cell (VStr s) = Some c
                      /\ py_str (py_or c (VStr [])) = s).
  { intros k s Hk Hin.
    destruct (Htext k s) as [->|Hs]; [cbn [In] in *; tauto|exact Hk| |].
    - exists VNone. now split.
    - exists (VStr s). split; [exact Hs|]. destruct s; [discriminate|reflexivity]. }
  destruct (Hcell (u "isletmeAdi") n) as (name & Hname & Hn); [now left|now left|].
  destruct (Hcell (u "bilancoTarihi") t) as (date & Hdate & Ht);
    [right; now left|right; now left|].
  destruct (@load_saved_file _ d name date) as (wb & Hwb & Hload).
  - intros k Hk. rewrite <- Hrest in Hk. apply in_map_iff in Hk as ([k' s] & <- & Hin).
    cbn [fst]. destruct (Hrow k' s Hin) as [Hk' ->].
    apply (Hamount k' s); [right; now right|assumption].
  - exact Hname.
  - exact Hdate.
  - exists wb. split; [exact Hwb|]. rewrite Hload, Ham, Hn, Ht.
    rewrite write_all_fresh; [reflexivity|assumption|].
    intros k Hk. rewrite Hkeys in Hk.
    destruct (@schema_key_not_text_eqb k Hk) as [Hm1 Hm2].
    cbn [dict_get]. now rewrite Hm1, Hm2.
Qed.

(** The form of [create_gui] has the two text fields and one field per
    non-subtotal schema key. *)
Lemma initial_vars_map_keys (today : pystr) :
  map fst (initial_vars_map today) = form_keys.
Proof. vm_compute. reflexivity. Qed.

(** ** Export *)

(** [build_excel_rows_from_data] writes one row per non-subtotal schema
    key and reads the mapping at those keys only: two mappings that agree
    on the schema keys give the same rows, so an entry under any other key
    is not exported. *)
Theorem export_reads_schema_keys_only (d d' : entries) :
  (forall k, In k schema_keys -> dict_get d k = dict_get d' k) ->
  build_excel_rows_from_data d = build_excel_rows_from_data d'
  /\ map (fun t : pystr * pystr * pystr * pystr * float =>
            match t with (_, _, _, key, _) => key end)
       (build_excel_rows_from_data d) = schema_keys.
Proof.
  intros H. rewrite !build_rows_shape. split.
  - apply map_ext_in. intros [[[side group] label] key] Hin.
    unfold entry_amount, dict_get_or. rewrite H; [reflexivity|].
    rewrite <- schema_rows_keys. apply in_map_iff.
    now exists (side, group, label, key).
  - rewrite map_map. rewrite <- schema_rows_keys. apply map_ext.
    now intros [[[side group] label] key].
Qed.

End EntryForm.

(* ================================================================== *)
(** * Further properties: amounts as text, identifiers *)
(* ================================================================== *)

(** [format_tl] exchanges the two separators of the grouped text: every
    "," becomes "." and every "." becomes ",", nothing else changes
    (the grouped text holds no "_"). *)
Theorem format_tl_swaps_separators (format_grouped : float -> pystr) (value : float) :
  ~ In 95%N (format_grouped value) ->
  format_tl format_grouped value = map swap_separators (format_grouped value).
Proof.
  unfold format_tl, replace_char. generalize (format_grouped value). intros s.
  induction s as [|c s IH]; intros Hno; [reflexivity|].
  cbn [flat_map map]. rewrite !flat_map_app, IH by (intros H; apply Hno; now right).
  f_equal. unfold swap_separators.
  destruct (N.eqb_spec c 44) as [->|H44]; [reflexivity|].
  cbn [flat_map app].
  destruct (N.eqb_spec c 46) as [->|H46]; [reflexivity|].
  cbn [flat_map app].
  destruct (N.eqb_spec c 95) as [->|H95]; [|reflexivity].
  exfalso. apply Hno. now left.
Qed.

Section Identifiers.

Context {rt : PyRuntime}.

Lemma first_int_id_head (ids : list pyval) :
  first_int_id ids = match int_ids ids with [] => 1%Z | z :: _ => (z + 1)%Z end.
Proof.
  induction ids as [|v ids IH]; [reflexivity|]. now destruct v.
Qed.

Lemma descending_head (a : Z) (l : list Z) :
  descending (a :: l) = true -> forall z, In z l -> (z <= a)%Z.
Proof.
  revert a. induction l as [|b l IH]; intros a H z Hz; [contradiction|].
  cbn [descending] in H. apply andb_true_iff in H as [Hba Hrest].
  apply Z.leb_le in Hba. destruct Hz as [->|Hz]; [assumption|].
  specialize (IH b Hrest z Hz). lia.
Qed.

Lemma int_ids_In (ids : list pyval) (z : Z) : In (VInt z) ids -> In z (int_ids ids).
Proof.
  induction ids as [|v ids IH]; [contradiction|].
  intros [->|H]; [now left|]. destruct v; cbn; auto.
Qed.

(** When the ids of the cursor come in descending order, the id computed
    by [_compute_next_id] is greater than every [int] id the cursor
    yields; it is 1 when the cursor yields no [int] id. *)
Theorem next_id_is_fresh (ids : list pyval) :
  descending (int_ids ids) = true ->
  (forall z, In (VInt z) ids -> (z < _compute_next_id (Some ids))%Z)
  /\ (int_ids ids = [] -> _compute_next_id (Some ids) = 1%Z).
Proof.
  intros Hdesc. cbn [_compute_next_id]. rewrite first_int_id_head. split.
  - intros z Hz. apply int_ids_In in Hz.
    destruct (int_ids ids) as [|a l]; [contradiction|].
    destruct Hz as [->|Hz]; [lia|].
    pose proof (@descending_head a l Hdesc z Hz). lia.
  - now intros ->.
Qed.

(** The payload [save_to_mongo] inserts for a document of
    [build_mongo_like_document] carries the computed id under [_id] and
    every other field of the document unchanged; building the payload
    again from that payload keeps the id. *)
Theorem saved_document_id (d : entries) (errors : list finding) (now : pystr)
    (cursor : option (list pyval)) :
  exists fields,
    build_mongo_like_document d errors now = Some (DObj fields)
    /\ dict_get (mongo_payload fields cursor) (u "_id")
       = Some (DVal (VInt (_compute_next_id cursor)))
    /\ (forall k, k <> u "_id" ->
          dict_get (mongo_payload fields cursor) k = dict_get fields k)
    /\ (forall cursor',
          mongo_payload (mongo_payload fields cursor) cursor'
          = mongo_payload fields cursor).
Proof.
  unfold build_mongo_like_document.
  rewrite likidite_orani_total.
  destruct (yuzde_total (sum_oz_kaynaklar d)
              (sum_donen_varliklar d + sum_duran_varliklar d)) as [q1 ->].
  destruct (yuzde_total (sum_kv_yabanci_kaynaklar d + sum_uv_yabanci_kaynaklar d)
              (sum_donen_varliklar d + sum_duran_varliklar d)) as [q2 ->].
  eexists. split; [reflexivity|].
  set (fields := (u "_id", DVal VNone) :: _).
  assert (Hp : mongo_payload fields cursor
               = dict_set fields (u "_id") (DVal (VInt (_compute_next_id cursor)))).
  { unfold mongo_payload, fields. cbn [dict_get].
    now rewrite pystr_eqb_refl. }
  rewrite Hp. split; [apply dict_get_set_same|]. split.
  - intros k Hk. apply dict_get_set_other. congruence.
  - intros cursor'. unfold mongo_payload at 1. now rewrite dict_get_set_same.
Qed.

End Identifiers.

(* ================================================================== *)
(** * Further properties: label normalization *)
(* ================================================================== *)

Section NormalForm.

Lemma below_400 (c : N) : (c < 400)%N -> In c (map N.of_nat (seq 0 400)).
Proof.
  intros H. apply in_map_iff. exists (N.to_nat c). split; [apply N2Nat.id|].
  apply in_seq. lia.
Qed.

(** A property of characters checked on every code point below 400. *)
Lemma check_below_400 (P : N -> bool) :
  forallb P (map N.of_nat (seq 0 400)) = true ->
  forall c, (c < 400)%N -> P c = true.
Proof.
  intros H c Hc. rewrite forallb_forall in H. apply H. now apply below_400.
Qed.

Lemma normalize_per_char (s : pystr) :
  _normalize s = py_join (u " ") (py_split (flat_map norm_char (strip s))).
Proof.
  unfold _normalize, py_lower, nfkd. do 2 f_equal.
  induction (strip s) as [|c t IH]; [reflexivity|].
  cbn [flat_map]. rewrite flat_map_app, filter_app, map_app, IH. reflexivity.
Qed.

Lemma norm_char_allowed (c : N) : Forall (fun ch => allowed ch = true) (norm_char c).
Proof.
  unfold norm_char. apply Forall_forall. intros ch Hch.
  apply in_map_iff in Hch as (x & <- & _). now destruct (allowed x) eqn:E.
Qed.

Lemma norm_char_fixed (c : N) : allowed c = true -> norm_char c = [c].
Proof.
  intros H.
  assert (Hc : (c < 400)%N).
  { unfold allowed in H. rewrite !orb_true_iff, !andb_true_iff, !N.leb_le, N.eqb_eq in H.
    destruct H as [[[H1 H2]|[H1 H2]]|H]; [| |subst c; reflexivity].
    - apply N.le_lt_trans with 122%N; [assumption|reflexivity].
    - apply N.le_lt_trans with 57%N; [assumption|reflexivity]. }
  pose proof (@check_below_400
                (fun c => negb (allowed c) || pystr_eqb (norm_char c) [c])) as Hall.
  specialize (Hall ltac:(vm_compute; reflexivity) c Hc). cbv beta in Hall.
  rewrite H in Hall. now apply pystr_eqb_eq in Hall.
Qed.

(** ** Splitting and joining *)

Lemma split_ws_words (Q : N -> Prop) (t cur : pystr) :
  (forall c, In c t -> py_isspace c = false -> Q c) ->
  Forall Q cur ->
  Forall (fun w => w <> [] /\ Forall Q w) (split_ws t cur).
Proof.
  revert cur. induction t as [|c t IH]; intros cur Ht Hcur; cbn [split_ws].
  - destruct cur as [|x cur]; [constructor|].
    constructor; [|constructor]. split.
    + intros E. apply (f_equal (@length N)) in E. rewrite length_rev in E. discriminate.
    + now apply Forall_rev.
  - destruct (py_isspace c) eqn:Ec.
    + destruct cur as [|x cur].
      * apply IH; [intros; apply Ht; auto using in_cons|constructor].
      * constructor.
        -- split.
           ++ intros E. apply (f_equal (@length N)) in E. rewrite length_rev in E.
              discriminate.
           ++ now apply Forall_rev.
        -- apply IH; [intros; apply Ht; auto using in_cons|constructor].
    + apply IH; [intros; apply Ht; auto using in_cons|].
      constructor; [apply Ht; [now left|assumption]|assumption].
Qed.

Lemma word_char_not_space (c : N) : word_char c = true -> py_isspace c = false.
Proof.
  intros H.
  assert (Hc : (c < 400)%N).
  { unfold word_char, allowed in H.
    rewrite !andb_true_iff, !orb_true_iff, !andb_true_iff, !N.leb_le, N.eqb_eq in H.
    destruct H as [[[[H1 H2]|[H1 H2]]|H] _]; [| |subst c; reflexivity].
    - apply N.le_lt_trans with 122%N; [assumption|reflexivity].
    - apply N.le_lt_trans with 57%N; [assumption|reflexivity]. }
  pose proof (@check_below_400 (fun c => negb (word_char c) || negb (py_isspace c))) as Hall.
  specialize (Hall ltac:(vm_compute; reflexivity) c Hc). cbv beta in Hall.
  rewrite H in Hall. now destruct (py_isspace c).
Qed.

Lemma split_ws_word (w rest cur : pystr) :
  Forall (fun c => word_char c = true) w ->
  split_ws (w ++ rest) cur = split_ws rest (rev w ++ cur).
Proof.
  revert cur. induction w as [|c w IH]; intros cur Hw; [reflexivity|].
  inversion Hw as [|? ? Hc Hw']; subst. cbn [app split_ws].
  rewrite (word_char_not_space c Hc), IH by assumption.
  cbn [rev]. now rewrite <- app_assoc.
Qed.

Lemma split_join (W : list pystr) :
  Forall is_word W -> py_split (py_join (u " ") W) = W.
Proof.
  unfold py_split. induction W as [|w W IH]; intros HW; [reflexivity|].
  inversion HW as [|? ? [Hne Hw] HW']; subst.
  destruct W as [|w' W].
  - cbn [py_join]. rewrite <- (app_nil_r w) at 1.
    rewrite split_ws_word by assumption. cbn [split_ws]. rewrite app_nil_r.
    destruct (rev w) eqn:E.
    + apply (f_equal (@length N)) in E. rewrite length_rev in E.
      destruct w; [contradiction|discriminate].
    + now rewrite <- E, rev_involutive.
  - change (py_join (u " ") (w :: w' :: W))
      with (w ++ [32%N] ++ py_join (u " ") (w' :: W)).
    rewrite split_ws_word by assumption. rewrite app_nil_r. cbn [app split_ws].
    change (py_isspace 32) with true. cbv iota.
    destruct (rev w) eqn:E.
    + apply (f_equal (@length N)) in E. rewrite length_rev in E.
      destruct w; [contradiction|discriminate].
    + rewrite <- E, rev_involutive. f_equal. now apply IH.
Qed.

Lemma join_allowed (W : list pystr) :
  Forall is_word W -> Forall (fun c => allowed c = true) (py_join (u " ") W).
Proof.
  induction W as [|w W IH]; intros HW; [constructor|].
  inversion HW as [|? ? [Hne Hw] HW']; subst.
  assert (Hw' : Forall (fun c => allowed c = true) w).
  { eapply Forall_impl; [|exact Hw]. intros c Hc. unfold word_char in Hc.
    now apply andb_true_iff in Hc as [Hc _]. }
  destruct W as [|w' W]; [exact Hw'|].
  change (py_join (u " ") (w :: w' :: W))
    with (w ++ [32%N] ++ py_join (u " ") (w' :: W)).
  apply Forall_app. split; [exact Hw'|].
  apply Forall_app. split; [now repeat constructor|now apply IH].
Qed.

Lemma join_ends (W : list pystr) :
  Forall is_word W -> W <> [] ->
  (exists c r, py_join (u " ") W = c :: r /\ word_char c = true)
  /\ (exists r c, py_join (u " ") W = r ++ [c] /\ word_char c = true).
Proof.
  induction W as [|w W IH]; intros HW Hne; [contradiction|].
  inversion HW as [|? ? [Hwne Hw] HW']; subst.
  destruct W as [|w' W].
  - cbn [py_join]. split.
    + destruct w as [|c r]; [contradiction|]. exists c, r. split; [reflexivity|].
      now inversion Hw.
    + destruct (exists_last Hwne) as (r & c & ->). exists r, c. split; [reflexivity|].
      apply Forall_app in Hw as [_ Hc]. now inversion Hc.
  - change (py_join (u " ") (w :: w' :: W))
      with (w ++ [32%N] ++ py_join (u " ") (w' :: W)).
    split.
    + destruct w as [|c r]; [contradiction|]. exists c. eexists. split; [reflexivity|].
      now inversion Hw.
    + destruct (IH HW' ltac:(discriminate)) as [_ (r & c & -> & Hc)].
      exists (w ++ [32%N] ++ r), c. split; [now rewrite <- !app_assoc|assumption].
Qed.

Lemma strip_join (W : list pystr) :
  Forall is_word W -> strip (py_join (u " ") W) = py_join (u " ") W.
Proof.
  intros HW. destruct W as [|w W]; [reflexivity|].
  destruct (join_ends HW ltac:(discriminate)) as [(c & r & E1 & Hc) (r' & c' & E2 & Hc')].
  unfold strip.
  assert (H1 : lstrip (py_join (u " ") (w :: W)) = py_join (u " ") (w :: W)).
  { rewrite E1. cbn [lstrip]. now rewrite (word_char_not_space c Hc). }
  rewrite H1, E2, rev_app_distr. cbn [rev app lstrip].
  rewrite (word_char_not_space c' Hc'). cbn [rev]. now rewrite rev_involutive.
Qed.

Lemma normalize_split (s : pystr) :
  Forall is_word (py_split (flat_map norm_char (strip s))).
Proof.
  unfold py_split.
  apply (@split_ws_words (fun c => word_char c = true)); [|constructor].
  intros c Hin Hsp. apply in_flat_map in Hin as (x & _ & Hc).
  pose proof (norm_char_allowed x) as Hall. rewrite Forall_forall in Hall.
  specialize (Hall c Hc). unfold word_char. rewrite Hall.
  destruct (N.eqb_spec c 32); [subst; discriminate|reflexivity].
Qed.

(** The text [_normalize] returns consists of words of small letters a-z
    and digits, joined by single spaces. *)
Theorem normalize_words (s : pystr) :
  exists W, _normalize s = py_join (u " ") W /\ Forall is_word W.
Proof.
  rewrite normalize_per_char. eexists. split; [reflexivity|].
  apply normalize_split.
Qed.

(** [_normalize] leaves a normalized text as it is. *)
Theorem normalize_idempotent (s : pystr) : _normalize (_normalize s) = _normalize s.
Proof.
  rewrite (normalize_per_char s).
  pose proof (normalize_split s) as HW.
  generalize dependent (py_split (flat_map norm_char (strip s))). intros W HW.
  rewrite normalize_per_char, strip_join by assumption.
  assert (Hid : flat_map norm_char (py_join (u " ") W) = py_join (u " ") W).
  { pose proof (join_allowed HW) as Hall.
    induction (py_join (u " ") W) as [|c t IH]; [reflexivity|].
    inversion Hall as [|? ? Hc Ht]; subst. cbn [flat_map].
    now rewrite (norm_char_fixed c Hc), IH. }
  now rewrite Hid, split_join.
Qed.

(** ** Case and accents *)

Lemma plain_letter_high (c : N) : (400 <= c)%N -> plain_letter c = c.
Proof.
  intros H. unfold plain_letter.
  repeat match goal with
  | |- context [(?a <=? ?b)%N] => destruct (N.leb_spec a b); try lia
  | |- context [(?a =? ?b)%N] => destruct (N.eqb_spec a b); try lia
  end; reflexivity.
Qed.

Lemma plain_letter_norm (c : N) : norm_char (plain_letter c) = norm_char c.
Proof.
  destruct (N.lt_ge_cases c 400) as [Hc|Hc]; [|now rewrite plain_letter_high].
  pose proof (@check_below_400
                (fun c => pystr_eqb (norm_char (plain_letter c)) (norm_char c))) as Hall.
  specialize (Hall ltac:(vm_compute; reflexivity) c Hc). now apply pystr_eqb_eq in Hall.
Qed.

Lemma plain_letter_space (c : N) : py_isspace (plain_letter c) = py_isspace c.
Proof.
  destruct (N.lt_ge_cases c 400) as [Hc|Hc]; [|now rewrite plain_letter_high].
  pose proof (@check_below_400
                (fun c => Bool.eqb (py_isspace (plain_letter c)) (py_isspace c))) as Hall.
  specialize (Hall ltac:(vm_compute; reflexivity) c Hc). now apply Bool.eqb_prop in Hall.
Qed.

(** [_normalize] does not tell capitals from small letters, nor the
    Turkish letters ç ğ ö ş ü and İ from c g o s u and i: replacing them by
    the plain small letters leaves the normalized text unchanged. *)
Theorem normalize_ignores_case_and_accents (s : pystr) :
  _normalize (map plain_letter s) = _normalize s.
Proof.
  rewrite !normalize_per_char. do 2 f_equal.
  assert (Hmap : forall t, map plain_letter t = flat_map (fun c => [plain_letter c]) t).
  { induction t as [|c t IH]; [reflexivity|]. cbn. now rewrite IH. }
  rewrite Hmap, strip_flat_map.
  - induction (strip s) as [|c t IH]; [reflexivity|].
    cbn [flat_map app]. rewrite IH. f_equal. apply plain_letter_norm.
  - intros c Hc. cbn. rewrite plain_letter_space, Hc. now split.
  - intros c Hc. exists (plain_letter c). split; [reflexivity|].
    now rewrite plain_letter_space.
Qed.

End NormalForm.

(* ================================================================== *)
(** * Further properties: reading spreadsheets *)
(* ================================================================== *)

Section Reading.

Context {rt : PyRuntime}.

(** ** Group scoping for every label *)

Lemma schema_rows_scoped (side group label key : pystr) :
  In (side, group, label, key) schema_rows ->
  lookup_label (Some (_normalize group)) (_normalize label) = Some key
  /\ pystr_in (_normalize label) (group_names_norm LABELS) = false.
Proof.
  assert (H : forallb (fun r : pystr * pystr * pystr * pystr =>
                match r with
                | (side, group, label, key) =>
                  match lookup_label (Some (_normalize group)) (_normalize label) with
                  | Some k => pystr_eqb k key
                  | None => false
                  end
                  && negb (pystr_in (_normalize label) (group_names_norm LABELS))
                end) schema_rows = true) by (vm_compute; reflexivity).
  rewrite forallb_forall in H. intros Hin. specialize (H _ Hin). cbv beta iota in H.
  apply andb_true_iff in H as [H1 H2].
  destruct (lookup_label _ _) as [k|]; [|discriminate].
  apply pystr_eqb_eq in H1. subst k. split; [reflexivity|].
  now destruct (pystr_in _ _).
Qed.

(** After the header row of a group and any rows that are no group
    headers, a row whose label normalizes like a label of that group is
    stored under the key the schema gives the label in that group, even
    when other groups use the same label (on the detailed path: when the
    row has an empty key cell and a non-blank amount). *)
Theorem label_resolves_in_its_group (lay : layout) (st : load_state) (hdr : row)
    (mid : list row) (r : row) (side group label key : pystr) :
  In (side, group, label, key) schema_rows ->
  group_header lay hdr = Some (_normalize group) ->
  Forall (fun m => group_header lay m = None) mid ->
  is_None (row_label lay r) = false ->
  _normalize (py_str (row_label lay r)) = _normalize label ->
  is_simple_format lay = true
  \/ (is_None (row_key lay r) = true
      /\ (is_None (row_val lay r) || str_blank (row_val lay r)) = false) ->
  exists d',
    fold_left (step lay) (hdr :: mid) st = (d', Some (_normalize group))
    /\ step lay (d', Some (_normalize group)) r
       = (dict_set d' key (VFloat (amount_of (row_val lay r))), Some (_normalize group)).
Proof.
  intros Hrow Hh Hmid Hn Hnorm Hshape.
  destruct (schema_rows_scoped Hrow) as [Hlook Hnog].
  destruct st as [d g]. cbn [fold_left]. rewrite (@step_header _ lay d g hdr _ Hh).
  pose proof (@fold_keeps_group _ lay mid d (Some (_normalize group)) Hmid) as Hg.
  destruct (fold_left (step lay) mid (d, Some (_normalize group))) as [d' g'].
  cbn [snd] in Hg. subst g'.
  exists d'. split; [reflexivity|].
  revert Hn Hnorm Hshape. unfold row_label, row_val, row_key, step.
  destruct r as [|c r].
  { rewrite cell_at_nil. destruct (is_simple_format lay); discriminate. }
  destruct (is_simple_format lay) eqn:Es.
  - intros Hn Hnorm _. unfold step_simple. rewrite Hn, Hnorm, Hnog. cbn [andb].
    rewrite Hlook. reflexivity.
  - intros Hn Hnorm [[=]|[Hk Hv]]. unfold step_detailed.
    rewrite Hn, Hnorm, Hk, Hv. cbn [negb andb orb].
    rewrite Hnog. cbn [andb]. rewrite Hn, Hnorm. cbn [negb].
    rewrite Hlook. reflexivity.
Qed.

(** ** A sheet that lists the schema by groups *)

Lemma grouped_sheet_rows (amount : pystr -> float) (d : entries) :
  fst (fold_left (step (Layout true 1 0 2 1)) (skipn 1 (grouped_sheet amount)) (d, None))
  = write_all d (map (fun k => (k, amount k)) schema_keys).
Proof.
  unfold grouped_sheet. revert d. generalize amount as a. intros a d.
  vm_compute. reflexivity.
Qed.

Lemma grouped_sheet_layout (amount : pystr -> float) :
  detect_layout (grouped_sheet amount) = Layout true 1 0 2 1.
Proof. vm_compute. reflexivity. Qed.

(** From a two-column sheet that lists every group's name followed by
    the group's labels and amounts, [load_from_excel] reads each amount
    under the key of its line: labels shared by several groups are told
    apart by the group rows, and the subtotal lines are left out. *)
Theorem grouped_sheet_read_back (amount : pystr -> float) (name : pystr)
    (others : list (pystr * worksheet)) (key : pystr) :
  In key schema_keys ->
  dict_get (load_from_excel (Workbook (name, grouped_sheet amount) others)) key
  = Some (VFloat (amount key)).
Proof.
  intros Hkey. unfold load_from_excel. cbn [wb_first snd].
  rewrite grouped_sheet_layout. cbn [header_row_idx].
  rewrite grouped_sheet_rows.
  apply write_all_get.
  - rewrite map_map. cbn [fst]. rewrite map_id. apply schema_keys_distinct.
  - apply in_map_iff. now exists key.
Qed.

(** ** What a load returns *)

Lemma step_writes_amount (lay : layout) (st : load_state) (r : row) :
  fst (step lay st r) = fst st
  \/ exists k x, fst (step lay st r) = dict_set (fst st) k (VFloat x).
Proof.
  destruct st as [d g]. unfold step. destruct r as [|c r]; [now left|].
  destruct (is_simple_format lay).
  - unfold step_simple.
    repeat destruct_if; try destruct (fuzzy _ _ _); cbn [fst];
      solve [now left | right; eauto].
  - unfold step_detailed.
    destruct_if; [now left|].
    match goal with
    | |- context [let (_, _) := ?x in _] => destruct x as [label val]
    end.
    destruct_if; cbn [fst]; solve [now left | right; eauto].
Qed.

Lemma loaded_entry_set (d : entries) (k : pystr) (x : float) :
  Forall loaded_entry d -> Forall loaded_entry (dict_set d k (VFloat x)).
Proof.
  induction 1 as [|[k' v'] d Hkv Hd IH]; cbn [dict_set].
  - constructor; [|constructor]. left. now exists x.
  - destruct (pystr_eqb k k').
    + constructor; [|assumption]. left. now exists x.
    + now constructor.
Qed.

Lemma loaded_entry_fold (lay : layout) (rows : list row) (st : load_state) :
  Forall loaded_entry (fst st) ->
  Forall loaded_entry (fst (fold_left (step lay) rows st)).
Proof.
  revert st. induction rows as [|r rows IH]; intros st H; cbn [fold_left]; [assumption|].
  apply IH. destruct (step_writes_amount lay st r) as [E|(k & x & E)]; rewrite E.
  - assumption.
  - now apply loaded_entry_set.
Qed.

Lemma loaded_entry_meta (wb : workbook) : Forall loaded_entry (load_meta wb).
Proof.
  unfold load_meta. destruct (dict_get (sheets wb) (u "Bilgi")) as [meta|]; [|constructor].
  unfold meta_text. generalize (py_str (py_or (cell_at (ws_row meta 1) 2) (VStr []))).
  generalize (py_str (py_or (cell_at (ws_row meta 2) 2) (VStr []))). intros b a.
  change (dict_set (dict_set [] (u "isletmeAdi") (VStr a)) (u "bilancoTarihi") (VStr b))
    with [(u "isletmeAdi", VStr a); (u "bilancoTarihi", VStr b)].
  constructor; [|constructor; [|constructor]];
    right; eexists; (split; [reflexivity|]); cbn [fst In]; auto.
Qed.

(** Whatever the workbook holds, every amount [load_from_excel] returns
    is a float, and text is returned under the entity name and the date
    only: no cell's text, integer or empty value reaches the result as
    it stands. *)
Theorem load_from_excel_values (wb : workbook) :
  Forall loaded_entry (load_from_excel wb).
Proof.
  unfold load_from_excel. apply loaded_entry_fold. cbn [fst]. apply loaded_entry_meta.
Qed.

Lemma lookup_label_schema (g : option pystr) (norm k : pystr) :
  lookup_label g norm = Some k -> In k schema_keys.
Proof.
  assert (Hglobal : forallb (fun kv : pystr * pystr => pystr_in (snd kv) schema_keys)
                      (label_to_key LABELS) = true) by (vm_compute; reflexivity).
  assert (Hgroup : forallb (fun gd : pystr * dict pystr =>
                      forallb (fun kv => pystr_in (snd kv) schema_keys) (snd gd))
                      (group_label_to_key_map LABELS) = true) by (vm_compute; reflexivity).
  rewrite forallb_forall in Hglobal. rewrite forallb_forall in Hgroup.
  assert (Hg : dict_get (label_to_key LABELS) norm = Some k -> In k schema_keys).
  { intros H. apply dict_get_In in H. apply pystr_in_In. exact (Hglobal _ H). }
  unfold lookup_label. destruct g as [g|]; [|exact Hg].
  destruct (truthy (VStr g) && dict_mem _ norm); [|exact Hg].
  unfold dict_get_or. destruct (dict_get (group_label_to_key_map LABELS) g) as [gd|] eqn:E;
    [|discriminate].
  apply dict_get_In in E. specialize (Hgroup _ E). cbn [snd] in Hgroup.
  rewrite forallb_forall in Hgroup.
  intros H. apply dict_get_In in H. apply pystr_in_In. exact (Hgroup _ H).
Qed.

Lemma dict_mem_set_inv {A} (d : dict A) (k k' : pystr) (v : A) :
  dict_mem (dict_set d k v) k' = true -> k' = k \/ dict_mem d k' = true.
Proof.
  destruct (list_eq_dec N.eq_dec k k') as [->|Hne]; [now left|].
  unfold dict_mem. rewrite dict_get_set_other by assumption. now right.
Qed.

Lemma step_simple_keys (st : load_state) (r : row) (k : pystr) :
  dict_mem (fst (step_simple st r)) k = true ->
  dict_mem (fst st) k = true \/ In k schema_keys.
Proof.
  destruct st as [d g]. unfold step_simple. rewrite fuzzy_strict.
  destruct (is_None _); [now left|].
  destruct (pystr_in _ _ && _); [now left|].
  destruct (lookup_label g _) as [key|] eqn:E; cbn [fst]; [|now left].
  intros H. apply dict_mem_set_inv in H as [->|H]; [|now left].
  right. exact (lookup_label_schema _ _ E).
Qed.

Lemma fold_step_simple_keys (rows : list row) (st : load_state) (k : pystr) :
  dict_mem (fst (fold_left step_simple rows st)) k = true ->
  dict_mem (fst st) k = true \/ In k schema_keys.
Proof.
  revert st. induction rows as [|r rows IH]; intros st; cbn [fold_left]; [now left|].
  intros H. apply IH in H as [H|H]; [|now right]. now apply step_simple_keys in H.
Qed.

Lemma load_meta_keys (wb : workbook) (k : pystr) :
  dict_mem (load_meta wb) k = true -> In k [u "isletmeAdi"; u "bilancoTarihi"].
Proof.
  unfold load_meta. destruct (dict_get (sheets wb) (u "Bilgi")) as [meta|]; [|discriminate].
  intros H. apply dict_mem_set_inv in H as [->|H]; [cbn [In]; auto|].
  apply dict_mem_set_inv in H as [->|H]; [cbn [In]; auto|discriminate].
Qed.

(** A sheet of at most two columns cannot bring in a key the form does
    not know: every key of what [load_from_excel] returns for it is the
    entity name, the date or a key of the schema, whatever the labels
    say. *)
Theorem two_column_sheet_keys (wb : workbook) (k : pystr) :
  max_column (snd (wb_first wb)) <= 2 ->
  dict_mem (load_from_excel wb) k = true ->
  In k form_keys.
Proof.
  intros Hcols. unfold load_from_excel.
  destruct (detect_layout_shape (snd (wb_first wb))) as [[_ ->]|[Hgt _]]; [|lia].
  cbn [header_row_idx].
  rewrite (@fold_left_same _ _ (step (Layout true 1 0 2 1)) step_simple)
    by (intros; now apply step_simple_layout).
  intros H. apply fold_step_simple_keys in H as [H|H]; unfold form_keys; apply in_or_app.
  - left. cbn [fst] in H. exact (load_meta_keys _ _ H).
  - now right.
Qed.

(** ** Empty rows and the header *)

Lemma cell_at_all_None (r : row) (col : nat) :
  forallb is_None r = true -> cell_at r col = VNone.
Proof.
  intros H. unfold cell_at. destruct (col <=? length r)%nat; [|reflexivity].
  destruct (nth_in_or_default (col - 1) r VNone) as [Hin| ->]; [|reflexivity].
  rewrite forallb_forall in H. specialize (H _ Hin). now destruct (nth _ r VNone).
Qed.

Lemma pick_all_None (r : row) :
  forallb is_None r = true -> _pick_label_value r = (VNone, VNone).
Proof.
  intros H. unfold _pick_label_value. destruct r as [|c r]; [reflexivity|].
  replace (filter (fun v => negb (is_None v) && negb (str_blank v)) (c :: r)) with (@nil pyval);
    [reflexivity|].
  symmetry. induction (c :: r) as [|v l IH]; [reflexivity|].
  cbn [forallb] in H. apply andb_true_iff in H as [Hv Hl].
  cbn [filter]. rewrite Hv. cbn [negb andb]. now apply IH.
Qed.

(** A row whose cells are all empty changes nothing, in either format:
    it adds no entry and does not end the current group. *)
Theorem empty_row_ignored (lay : layout) (st : load_state) (r : row) :
  forallb is_None r = true -> step lay st r = st.
Proof.
  intros H. destruct st as [d g]. unfold step. destruct r as [|c r]; [reflexivity|].
  destruct (is_simple_format lay).
  - unfold step_simple.
    change (if (1 <=? length (c :: r))%nat then nth 0 (c :: r) VNone else VNone)
      with (cell_at (c :: r) 1).
    now rewrite (@cell_at_all_None _ 1 H).
  - unfold step_detailed. rewrite !(@cell_at_all_None _ _ H).
    cbn [is_None negb andb orb]. rewrite (@pick_all_None _ H). reflexivity.
Qed.

Lemma scan_header_bounds (ws : worksheet) (n r_idx : nat) (lay : layout) :
  header_row_idx (scan_header ws r_idx n lay) = header_row_idx lay
  \/ r_idx <= header_row_idx (scan_header ws r_idx n lay) < r_idx + n.
Proof.
  revert r_idx. induction n as [|n IH]; intros r_idx; cbn [scan_header]; [now left|].
  destruct_if.
  - right. cbn [header_row_idx]. lia.
  - destruct (IH (S r_idx)) as [E|E]; [now left|right; lia].
Qed.

(** The row taken for the header is one of the first ten rows of the
    sheet, so the rows read as data start at the eleventh row at the
    latest; it is row 1 when no header is found. *)
Theorem header_row_among_first_ten (ws : worksheet) :
  1 <= header_row_idx (detect_layout ws) <= Nat.min 10 (max_row ws).
Proof.
  assert (Hmax : 1 <= Nat.min 10 (max_row ws)) by (unfold max_row; lia).
  unfold detect_layout. destruct (max_column ws <=? 2)%nat; cbn [header_row_idx];
    [lia|].
  destruct_if; cbn [header_row_idx];
    destruct (scan_header_bounds ws (Nat.min 10 (max_row ws)) 1 (Layout false 1 0 0 0))
      as [E|E]; cbn [header_row_idx] in E; lia.
Qed.

End Reading.

(* ================================================================== *)
(** * Further properties: opening a saved document *)
(* ================================================================== *)

Section Documents.

Context {rt : PyRuntime}.

Lemma In_dict_mem {A} (d : dict A) (k : pystr) :
  In k (map fst d) -> dict_mem d k = true.
Proof.
  unfold dict_mem. induction d as [|[k' v'] d IH]; cbn [map fst In dict_get]; [tauto|].
  destruct (pystr_eqb k k') eqn:E; [reflexivity|].
  intros [->|H]; [now rewrite pystr_eqb_refl in E|now apply IH].
Qed.

Lemma dict_mem_same_keys {A B} (a : dict A) (b : dict B) (k : pystr) :
  map fst a = map fst b -> dict_mem a k = dict_mem b k.
Proof.
  intros H. destruct (dict_mem a k) eqn:Ea, (dict_mem b k) eqn:Eb; try reflexivity.
  - apply dict_mem_In in Ea. rewrite H in Ea. apply In_dict_mem in Ea. congruence.
  - apply dict_mem_In in Eb. rewrite <- H in Eb. apply In_dict_mem in Eb. congruence.
Qed.

Lemma dict_set_keys {A} (d : dict A) (k : pystr) (v : A) :
  dict_mem d k = true -> map fst (dict_set d k v) = map fst d.
Proof.
  unfold dict_mem. induction d as [|[k' v'] d IH]; cbn [map fst dict_get dict_set];
    [discriminate|].
  destruct (pystr_eqb k k'); [reflexivity|].
  intros H. cbn [map fst]. f_equal. now apply IH.
Qed.

Lemma fill_step_None (actions : list assignment) : fold_left fill_step actions None = None.
Proof. induction actions as [|a l IH]; [reflexivity|exact IH]. Qed.

Lemma fill_all_app (a b : list assignment) (vars : dict pystr) :
  fill_all (a ++ b) vars
  = match fill_all a vars with Some v => fill_all b v | None => None end.
Proof.
  unfold fill_all. rewrite fold_left_app.
  destruct (fold_left fill_step a (Some vars)); [reflexivity|apply fill_step_None].
Qed.

(** One assignment from an object of numbers, texts and nulls goes
    through, keeps the keys of the form, and leaves under [k] the text of
    the value written last. *)
Lemma fill_spec (vars0 vars : dict pystr) (a : assignment) (k : pystr)
    (cur : option pyval) :
  forallb (fun kv => is_leaf (snd kv)) (fst (fst a)) = true ->
  dict_mem vars0 k = true ->
  map fst vars = map fst vars0 ->
  dict_get vars k
  = match cur with Some x => Some (py_str x) | None => dict_get vars0 k end ->
  exists vars',
    fill vars a = Some vars'
    /\ map fst vars' = map fst vars0
    /\ dict_get vars' k
       = match write_to k cur a with
         | Some x => Some (py_str x)
         | None => dict_get vars0 k
         end.
Proof.
  destruct a as [[section src] dst]. cbn [fst snd]. intros Hleaf Hk Hkeys Hcur.
  unfold fill, write_to.
  destruct (dict_get section src) as [v|] eqn:Ev.
  - assert (Hv : is_leaf v = true).
    { apply dict_get_In in Ev. rewrite forallb_forall in Hleaf. exact (Hleaf _ Ev). }
    destruct v as [x| |]; try discriminate.
    destruct (dict_mem vars dst) eqn:Ed.
    + eexists. split; [reflexivity|].
      split; [now rewrite dict_set_keys|].
      destruct (pystr_eqb dst k) eqn:E.
      * apply pystr_eqb_eq in E. subst dst. now rewrite dict_get_set_same.
      * rewrite dict_get_set_other; [exact Hcur|].
        intros ->. now rewrite pystr_eqb_refl in E.
    + exists vars. split; [reflexivity|]. split; [assumption|].
      destruct (pystr_eqb dst k) eqn:E; [|exact Hcur].
      apply pystr_eqb_eq in E. subst dst.
      rewrite (dict_mem_same_keys vars vars0 k Hkeys) in Ed. congruence.
  - exists vars. split; [reflexivity|]. split; [assumption|].
    now destruct (pystr_eqb dst k).
Qed.

Lemma fill_all_spec (actions : list assignment) (vars0 : dict pystr) (k : pystr) :
  forallb (fun a : assignment => forallb (fun kv => is_leaf (snd kv)) (fst (fst a)))
    actions = true ->
  dict_mem vars0 k = true ->
  exists vars',
    fill_all actions vars0 = Some vars'
    /\ map fst vars' = map fst vars0
    /\ dict_get vars' k
       = match last_write k actions with
         | Some x => Some (py_str x)
         | None => dict_get vars0 k
         end.
Proof.
  intros Hleaf Hk. unfold fill_all, last_write.
  assert (Hgen : forall vars cur,
    map fst vars = map fst vars0 ->
    dict_get vars k
    = match cur with Some x => Some (py_str x) | None => dict_get vars0 k end ->
    exists vars',
      fold_left fill_step actions (Some vars) = Some vars'
      /\ map fst vars' = map fst vars0
      /\ dict_get vars' k
         = match fold_left (write_to k) actions cur with
           | Some x => Some (py_str x)
           | None => dict_get vars0 k
           end).
  { induction actions as [|a l IH]; intros vars cur Hkeys Hcur; cbn [fold_left].
    - exists vars. auto.
    - cbn [forallb] in Hleaf. apply andb_true_iff in Hleaf as [Ha Hl].
      destruct (@fill_spec vars0 vars a k cur Ha Hk Hkeys Hcur) as (v & Hv & Hvk & Hvc).
      cbn [fill_step]. rewrite Hv. now apply IH. }
  now apply Hgen.
Qed.

(** The assignments agree on the keys, whatever the variable. *)
Lemma fill_all_keys (actions : list assignment) (vars vars' : dict pystr) :
  fill_all actions vars = Some vars' -> map fst vars' = map fst vars.
Proof.
  unfold fill_all. revert vars. induction actions as [|a l IH]; intros vars; cbn [fold_left].
  - now intros [= ->].
  - cbn [fill_step]. destruct (fill vars a) as [v|] eqn:E; [|now rewrite fill_step_None].
    intros H. rewrite (IH _ H).
    destruct a as [[section src] dst]. unfold fill in E.
    destruct (dict_get section src) as [x|]; [|now injection E as <-].
    destruct (dict_mem vars dst) eqn:Ed; [|now injection E as <-].
    destruct x; try discriminate. injection E as <-. now apply dict_set_keys.
Qed.

(** A variable that no assignment names with a key its object has keeps
    its value. *)
Lemma last_write_none (actions : list assignment) (k : pystr) (allowed : list pystr) :
  forallb (fun a : assignment =>
    pystr_in (snd a) allowed || negb (dict_mem (fst (fst a)) (snd (fst a)))
    || negb (pystr_in (snd a) form_keys)) actions = true ->
  ~ In k allowed -> In k form_keys ->
  last_write k actions = None.
Proof.
  intros Hall Hk Hform. unfold last_write.
  induction actions as [|a l IH]; cbn [fold_left]; [reflexivity|].
  cbn [forallb] in Hall. apply andb_true_iff in Hall as [Ha Hl].
  destruct a as [[section src] dst]. cbn [fst snd] in Ha.
  replace (write_to k None (section, src, dst)) with (@None pyval); [now apply IH|].
  unfold write_to. destruct (pystr_eqb dst k) eqn:E; [|reflexivity].
  apply pystr_eqb_eq in E. subst dst.
  assert (Hin : pystr_in k allowed = false).
  { destruct (pystr_in k allowed) eqn:Ei; [|reflexivity].
    apply pystr_in_In in Ei. contradiction. }
  assert (Hf : pystr_in k form_keys = true) by now apply pystr_in_In.
  rewrite Hin, Hf in Ha. cbn [orb negb] in Ha. rewrite orb_false_r in Ha.
  unfold dict_mem in Ha. now destruct (dict_get section src).
Qed.

Lemma open_document_sections (fields akt pas info donen duran kv uv oz : dict docval)
    (vars : dict pystr) :
  get_object fields (u "isletmeBilgileri") = DObj info ->
  get_object fields (u "aktif") = DObj akt ->
  get_object akt (u "donenVarliklar") = DObj donen ->
  get_object akt (u "duranVarliklar") = DObj duran ->
  get_object fields (u "pasif") = DObj pas ->
  get_object pas (u "kisaVadeliYabanciKaynaklar") = DObj kv ->
  get_object pas (u "uzunVadeliYabanciKaynaklar") = DObj uv ->
  get_object pas (u "ozKaynaklar") = DObj oz ->
  open_document (DObj fields) vars
  = fill_all (info_actions info ++ aktif_actions donen duran ++ pasif_actions kv uv oz)
      vars.
Proof.
  intros Hi Ha Hdo Hdu Hp Hkv Huv Hoz.
  unfold open_document, open_info, open_aktif, open_pasif.
  rewrite Hi, Ha, Hdo, Hdu, Hp, Hkv, Huv, Hoz.
  rewrite fill_all_app.
  destruct (fill_all (info_actions info) vars) as [v1|]; [|reflexivity].
  rewrite fill_all_app.
  destruct (fill_all (aktif_actions donen duran) v1) as [v2|]; reflexivity.
Qed.

(** ** The order of the set *)

Lemma dict_set_comm {A} (d : dict A) (k1 k2 : pystr) (v1 v2 : A) :
  k1 <> k2 -> dict_mem d k1 = true -> dict_mem d k2 = true ->
  dict_set (dict_set d k1 v1) k2 v2 = dict_set (dict_set d k2 v2) k1 v1.
Proof.
  intros Hne. unfold dict_mem.
  induction d as [|[k v] d IH]; cbn [dict_get dict_set]; [discriminate|].
  destruct (pystr_eqb k1 k) eqn:E1, (pystr_eqb k2 k) eqn:E2;
    cbn [dict_set]; rewrite ?E1, ?E2; intros H1 H2.
  - apply pystr_eqb_eq in E1, E2. congruence.
  - reflexivity.
  - reflexivity.
  - f_equal. now apply IH.
Qed.

Lemma dict_mem_set_other {A} (d : dict A) (k k' : pystr) (v : A) :
  k <> k' -> dict_mem (dict_set d k v) k' = dict_mem d k'.
Proof. intros H. unfold dict_mem. now rewrite dict_get_set_other. Qed.

Lemma fill_swap (a1 a2 : assignment) (vars : dict pystr) :
  snd a1 <> snd a2 ->
  fill_step (fill vars a1) a2 = fill_step (fill vars a2) a1.
Proof.
  destruct a1 as [[s1 src1] d1], a2 as [[s2 src2] d2]. cbn [snd]. intros Hne.
  unfold fill_step, fill.
  destruct (dict_get s1 src1) as [v1|], (dict_get s2 src2) as [v2|]; try reflexivity.
  - destruct (dict_mem vars d1) eqn:E1, (dict_mem vars d2) eqn:E2;
      destruct v1, v2;
      rewrite ?dict_mem_set_other, ?E1, ?E2 by congruence; try reflexivity.
    f_equal. now apply dict_set_comm.
  - destruct (dict_mem vars d1); [destruct v1|]; reflexivity.
  - destruct (dict_mem vars d2); [destruct v2|]; reflexivity.
Qed.

Lemma fill_all_swap (pre l : list assignment) (a1 a2 : assignment) (vars : dict pystr) :
  snd a1 <> snd a2 ->
  fill_all (pre ++ a1 :: a2 :: l) vars = fill_all (pre ++ a2 :: a1 :: l) vars.
Proof.
  intros Hne. rewrite !fill_all_app.
  destruct (fill_all pre vars) as [v|]; [|reflexivity].
  unfold fill_all. cbn [fold_left fill_step]. now rewrite (@fill_swap a1 a2 v Hne).
Qed.

Lemma aktif_turn_swap (donen duran : dict docval) (x y : pystr) (l : list assignment)
    (vars : dict pystr) :
  x <> y ->
  fill_all ((donen, x, x) :: (duran, x, x) :: (donen, y, y) :: (duran, y, y) :: l) vars
  = fill_all ((donen, y, y) :: (duran, y, y) :: (donen, x, x) :: (duran, x, x) :: l) vars.
Proof.
  intros Hne.
  etransitivity;
    [exact (@fill_all_swap [(donen, x, x)] ((duran, y, y) :: l)
              (duran, x, x) (donen, y, y) vars Hne)|].
  etransitivity;
    [exact (@fill_all_swap [] ((duran, x, x) :: (duran, y, y) :: l)
              (donen, x, x) (donen, y, y) vars Hne)|].
  etransitivity;
    [exact (@fill_all_swap [(donen, y, y); (donen, x, x)] l
              (duran, x, x) (duran, y, y) vars Hne)|].
  exact (@fill_all_swap [(donen, y, y)] ((duran, x, x) :: l)
           (donen, x, x) (duran, y, y) vars Hne).
Qed.

(** The loop over the assets' keys runs over a Python set, whose order
    is not fixed.  The order does not matter: for the keys taken in any
    order, each once, the loop leaves the same variables (and meets a
    value it cannot handle in the same cases). *)
Theorem aktif_loop_any_order (donen duran : dict docval) (keys keys' : list pystr)
    (vars : dict pystr) :
  Permutation keys keys' ->
  NoDup keys ->
  fill_all (flat_map (fun key => [(donen, key, key); (duran, key, key)]) keys) vars
  = fill_all (flat_map (fun key => [(donen, key, key); (duran, key, key)]) keys') vars.
Proof.
  intros Hperm. revert vars.
  induction Hperm as [|x l l' Hp IH|x y l|l l' l'' Hp1 IH1 Hp2 IH2];
    intros vars Hnd.
  - reflexivity.
  - cbn [flat_map]. rewrite !fill_all_app.
    destruct (fill_all _ vars) as [v|]; [|reflexivity].
    apply IH. now inversion Hnd.
  - cbn [flat_map app]. apply aktif_turn_swap.
    inversion Hnd as [|? ? Hnotin _]; subst. intros ->. apply Hnotin. now left.
  - rewrite IH1 by assumption. apply IH2.
    exact (Permutation_NoDup Hp1 Hnd).
Qed.

(** Opening the document that [build_mongo_like_document] makes of any
    entries, in a form with the form's keys, always goes through and
    restores six fields only: the entity name, the date and the four
    amounts whose key is the same in the form and in the document.  Each
    of them gets the text of what the entries hold for it; every other
    field of the form keeps what it held before, whatever amount the
    entries have for it. *)
Theorem saved_document_restores_six_fields (d : entries) (errors : list finding)
    (now : pystr) (vars : dict pystr) :
  map fst vars = form_keys ->
  exists doc vars',
    build_mongo_like_document d errors now = Some doc
    /\ open_document doc vars = Some vars'
    /\ map fst vars' = form_keys
    /\ dict_get vars' (u "isletmeAdi")
       = Some (py_str (dict_get_or d (u "isletmeAdi") (VStr [])))
    /\ dict_get vars' (u "bilancoTarihi")
       = Some (py_str (dict_get_or d (u "bilancoTarihi") (VStr [])))
    /\ (forall key, In key restored_amounts ->
          dict_get vars' key = Some (py_str (dict_get_or d key (VInt 0))))
    /\ (forall key, ~ In key restored_keys -> dict_get vars' key = dict_get vars key).
Proof.
  intros Hkeys. unfold build_mongo_like_document. cbv zeta.
  rewrite likidite_orani_total.
  generalize (sum_donen_varliklar d) (sum_duran_varliklar d) (sum_kv_yabanci_kaynaklar d)
    (sum_uv_yabanci_kaynaklar d) (sum_oz_kaynaklar d).
  intros donen duran kv uv oz.
  destruct (yuzde_total oz (donen + duran)) as [q1 ->].
  destruct (yuzde_total (kv + uv) (donen + duran)) as [q2 ->].
  unfold kalem. generalize (@dict_get_or pyval d). intros get.
  match goal with
  | |- exists doc vars', Some (DObj ?F) = Some doc /\ _ => set (fields := F)
  end.
  epose proof (@open_document_sections fields _ _ _ _ _ _ _ _ vars
                 eq_refl eq_refl eq_refl eq_refl eq_refl eq_refl eq_refl eq_refl)
    as Hopen.
  match type of Hopen with _ = fill_all ?A _ => set (actions := A) in Hopen end.
  assert (Hleaf : forallb (fun a : assignment =>
                    forallb (fun kv => is_leaf (snd kv)) (fst (fst a))) actions = true)
    by (vm_compute; reflexivity).
  assert (Htouched : forallb (fun a : assignment =>
                       pystr_in (snd a) restored_keys
                       || negb (dict_mem (fst (fst a)) (snd (fst a)))
                       || negb (pystr_in (snd a) form_keys)) actions = true)
    by (vm_compute; reflexivity).
  assert (Hform : forall k, In k form_keys -> dict_mem vars k = true).
  { intros k Hk. apply In_dict_mem. now rewrite Hkeys. }
  assert (Hname : In (u "isletmeAdi") form_keys)
    by (apply pystr_in_In; vm_compute; reflexivity).
  destruct (@fill_all_spec actions vars (u "isletmeAdi") Hleaf (Hform _ Hname))
    as (vars' & Hv & Hsame & _).
  assert (Hview : forall k, In k form_keys ->
            dict_get vars' k
            = match last_write k actions with
              | Some x => Some (py_str x)
              | None => dict_get vars k
              end).
  { intros k Hk.
    destruct (@fill_all_spec actions vars k Hleaf (Hform _ Hk)) as (v & Hv' & _ & Hg).
    rewrite Hv in Hv'. injection Hv' as <-. exact Hg. }
  exists (DObj fields), vars'.
  split; [reflexivity|]. split; [now rewrite Hopen|]. split; [now rewrite Hsame|].
  split; [|split; [|split]].
  - rewrite (Hview _ Hname).
    replace (last_write (u "isletmeAdi") actions)
      with (Some (get (u "isletmeAdi") (VStr []))) by (vm_compute; reflexivity).
    reflexivity.
  - rewrite Hview by (apply pystr_in_In; vm_compute; reflexivity).
    replace (last_write (u "bilancoTarihi") actions)
      with (Some (get (u "bilancoTarihi") (VStr []))) by (vm_compute; reflexivity).
    reflexivity.
  - intros key Hin.
    rewrite Hview
      by (apply pystr_in_In; revert Hin; unfold restored_amounts; cbn [In];
          intros [<-|[<-|[<-|[<-|[]]]]]; vm_compute; reflexivity).
    replace (last_write key actions) with (Some (get key (VInt 0))); [reflexivity|].
    revert Hin. unfold restored_amounts. cbn [In].
    intros [<-|[<-|[<-|[<-|[]]]]]; vm_compute; reflexivity.
  - intros key Hnot. destruct (dict_mem vars key) eqn:Em.
    + assert (Hk : In key form_keys) by (rewrite <- Hkeys; now apply dict_mem_In).
      rewrite (Hview _ Hk). now rewrite (@last_write_none actions key restored_keys).
    + pose proof (dict_mem_same_keys vars' vars key Hsame) as Em'. rewrite Em in Em'.
      unfold dict_mem in Em, Em'.
      destruct (dict_get vars key), (dict_get vars' key); congruence.
Qed.

End Documents.

(* ================================================================== *)
(** * Further properties: opening a workbook in the form *)
(* ================================================================== *)

Section Workbooks.

Context {rt : PyRuntime}.

Variable data : entries.
Variable vars_map : dict pystr.

Lemma on_the_way_set (vars : dict pystr) (k : pystr) (v : pyval) :
  on_the_way data vars_map vars ->
  In k (map fst vars_map) ->
  dict_get data k = Some v ->
  on_the_way data vars_map (dict_set vars k (py_str v))
  /\ dict_get (dict_set vars k (py_str v)) k = opened_text data vars_map k.
Proof.
  intros [Hkeys Hall] Hin Hget.
  assert (Hdone : dict_get (dict_set vars k (py_str v)) k = opened_text data vars_map k).
  { rewrite dict_get_set_same. unfold opened_text. now rewrite Hget. }
  split; [|exact Hdone]. split.
  - rewrite dict_set_keys; [exact Hkeys|].
    apply In_dict_mem. now rewrite Hkeys.
  - intros k'. destruct (list_eq_dec N.eq_dec k k') as [<-|Hne].
    + now left.
    + rewrite dict_get_set_other by assumption. apply Hall.
Qed.

Lemma set_text_spec (vars : dict pystr) (key : pystr) :
  on_the_way data vars_map vars ->
  In key (map fst vars_map) ->
  on_the_way data vars_map (set_text data key vars)
  /\ dict_get (set_text data key vars) key = opened_text data vars_map key
  /\ forall k, dict_get vars k = opened_text data vars_map k ->
               dict_get (set_text data key vars) k = opened_text data vars_map k.
Proof.
  intros Hway Hin. unfold set_text, dict_mem, dict_get_or.
  assert (Hmem : dict_mem vars key = true).
  { apply In_dict_mem. now rewrite (proj1 Hway). }
  unfold dict_mem in Hmem.
  destruct (dict_get data key) as [v|] eqn:Ed.
  - destruct (dict_get vars key) as [t|] eqn:Ev; [|discriminate]. cbn [andb].
    destruct (@on_the_way_set vars key v Hway Hin Ed) as [Hway' Hdone].
    split; [exact Hway'|]. split; [exact Hdone|].
    intros k Hk. destruct (list_eq_dec N.eq_dec key k) as [<-|Hne]; [exact Hdone|].
    now rewrite dict_get_set_other.
  - cbn [andb]. split; [exact Hway|]. split; [|tauto].
    destruct (proj2 Hway key) as [H|H]; [exact H|].
    rewrite H. unfold opened_text. now rewrite Ed.
Qed.

Lemma fill_amount_spec (vars : dict pystr) (n : nat) (key : pystr) :
  on_the_way data vars_map vars ->
  In key (map fst vars_map) ->
  on_the_way data vars_map (fst (fill_amount data (vars, n) key))
  /\ (pystr_in key [u "isletmeAdi"; u "bilancoTarihi"] = false ->
      dict_get (fst (fill_amount data (vars, n) key)) key
      = opened_text data vars_map key)
  /\ (forall k, dict_get vars k = opened_text data vars_map k ->
        dict_get (fst (fill_amount data (vars, n) key)) k = opened_text data vars_map k)
  /\ snd (fill_amount data (vars, n) key)
     = n + (if negb (pystr_in key [u "isletmeAdi"; u "bilancoTarihi"])
               && dict_mem data key then 1 else 0).
Proof.
  intros Hway Hin. unfold fill_amount, dict_mem.
  destruct (pystr_in key _); cbn [negb andb fst snd].
  - split; [exact Hway|]. split; [discriminate|]. split; [tauto|lia].
  - destruct (dict_get data key) as [v|] eqn:Ed; cbn [fst snd].
    + destruct (@on_the_way_set vars key v Hway Hin Ed) as [Hway' Hdone].
      split; [exact Hway'|]. split; [intros _; exact Hdone|]. split; [|lia].
      intros k Hk. destruct (list_eq_dec N.eq_dec key k) as [<-|Hne]; [exact Hdone|].
      now rewrite dict_get_set_other.
    + split; [exact Hway|]. split; [|split; [tauto|lia]].
      intros _. destruct (proj2 Hway key) as [H|H]; [exact H|].
      rewrite H. unfold opened_text. now rewrite Ed.
Qed.

Lemma fold_fill_amount (l : list pystr) (vars : dict pystr) (n : nat) :
  on_the_way data vars_map vars ->
  (forall k, In k l -> In k (map fst vars_map)) ->
  on_the_way data vars_map (fst (fold_left (fill_amount data) l (vars, n)))
  /\ (forall k, In k l -> pystr_in k [u "isletmeAdi"; u "bilancoTarihi"] = false ->
        dict_get (fst (fold_left (fill_amount data) l (vars, n))) k
        = opened_text data vars_map k)
  /\ (forall k, dict_get vars k = opened_text data vars_map k ->
        dict_get (fst (fold_left (fill_amount data) l (vars, n))) k
        = opened_text data vars_map k)
  /\ snd (fold_left (fill_amount data) l (vars, n))
     = n + length (filter (fun key =>
                     negb (pystr_in key [u "isletmeAdi"; u "bilancoTarihi"])
                     && dict_mem data key) l).
Proof.
  revert vars n. induction l as [|key l IH]; intros vars n Hway Hl; cbn [fold_left].
  - cbn [fst snd filter length]. split; [exact Hway|]. split; [intros k []|].
    split; [tauto|lia].
  - destruct (@fill_amount_spec vars n key Hway (Hl key (or_introl eq_refl)))
      as (Hway' & Hdone & Hkeep & Hcount).
    destruct (fill_amount data (vars, n) key) as [vars' n'] eqn:E.
    cbn [fst snd] in Hway', Hdone, Hkeep, Hcount.
    destruct (IH vars' n' Hway' (fun k Hk => Hl k (or_intror Hk)))
      as (Hway'' & Hdone' & Hkeep' & Hcount').
    split; [exact Hway''|]. split; [|split].
    + intros k [<-|Hk] Hnt; [apply Hkeep'; now apply Hdone|now apply Hdone'].
    + intros k Hk. apply Hkeep'. now apply Hkeep.
    + rewrite Hcount', Hcount. cbn [filter].
      destruct (negb _ && dict_mem data key); cbn [length]; lia.
Qed.

(** [do_open_excel] keeps the fields of the form and, for every field,
    sets the text of the value the loaded mapping has under the field's
    key; a field whose key the mapping lacks keeps the text it had (it is
    not reset), and keys of the mapping that are no fields are ignored.
    The number it reports counts the amount fields the mapping has. *)
Theorem do_open_excel_fields :
  map fst (fst (do_open_excel data vars_map)) = map fst vars_map
  /\ (forall key, In key (map fst vars_map) ->
        dict_get (fst (do_open_excel data vars_map)) key
        = opened_text data vars_map key)
  /\ snd (do_open_excel data vars_map)
     = length (filter (fun key =>
                 negb (pystr_in key [u "isletmeAdi"; u "bilancoTarihi"])
                 && dict_mem data key) (map fst vars_map)).
Proof.
  unfold do_open_excel.
  assert (H0 : on_the_way data vars_map vars_map) by (split; [reflexivity|now right]).
  set (v1 := set_text data (u "isletmeAdi") vars_map).
  set (v2 := set_text data (u "bilancoTarihi") v1).
  assert (H2 : on_the_way data vars_map v2
               /\ forall key, In key (map fst vars_map) ->
                    pystr_in key [u "isletmeAdi"; u "bilancoTarihi"] = true ->
                    dict_get v2 key = opened_text data vars_map key).
  { assert (H1 : on_the_way data vars_map v1
                 /\ (In (u "isletmeAdi") (map fst vars_map) ->
                     dict_get v1 (u "isletmeAdi")
                     = opened_text data vars_map (u "isletmeAdi"))).
    { destruct (in_dec (list_eq_dec N.eq_dec) (u "isletmeAdi") (map fst vars_map))
        as [Hin|Hout].
      - destruct (@set_text_spec vars_map (u "isletmeAdi") H0 Hin) as (Ha & Hb & _).
        now split.
      - split; [|tauto]. unfold v1, set_text.
        replace (dict_mem vars_map (u "isletmeAdi")) with false;
          [now rewrite andb_false_r|].
        destruct (dict_mem vars_map (u "isletmeAdi")) eqn:E; [|reflexivity].
        apply dict_mem_In in E. contradiction. }
    destruct H1 as [Hway1 Hname].
    destruct (in_dec (list_eq_dec N.eq_dec) (u "bilancoTarihi") (map fst vars_map))
      as [Hin|Hout].
    - destruct (@set_text_spec v1 (u "bilancoTarihi") Hway1 Hin) as (Ha & Hb & Hc).
      split; [exact Ha|]. intros key Hkey Ht.
      apply pystr_in_In in Ht. cbn [In] in Ht.
      destruct Ht as [<-|[<-|[]]]; [|exact Hb].
      apply Hc. now apply Hname.
    - assert (E : v2 = v1).
      { unfold v2, set_text.
        replace (dict_mem v1 (u "bilancoTarihi")) with false;
          [now rewrite andb_false_r|].
        destruct (dict_mem v1 (u "bilancoTarihi")) eqn:E; [|reflexivity].
        apply dict_mem_In in E. rewrite (proj1 Hway1) in E. contradiction. }
      rewrite E. split; [exact Hway1|]. intros key Hkey Ht.
      apply pystr_in_In in Ht. cbn [In] in Ht.
      destruct Ht as [<-|[<-|[]]]; [now apply Hname|contradiction]. }
  destruct H2 as [Hway2 Htext].
  destruct (@fold_fill_amount (map fst vars_map) v2 0 Hway2 (fun k Hk => Hk))
    as (Hway & Hdone & Hkeep & Hcount).
  split; [exact (proj1 Hway)|]. split; [|exact Hcount].
  intros key Hkey.
  destruct (pystr_in key [u "isletmeAdi"; u "bilancoTarihi"]) eqn:Et.
  - apply Hkeep. now apply Htext.
  - now apply Hdone.
Qed.

End Workbooks.

(* ================================================================== *)
(** * Further properties: the command-line dialogue *)
(* ================================================================== *)

Section CommandLine.

Context {rt : PyRuntime}.

Lemma prompt_amounts_keys (keys : list pystr) (lines rest : list pystr) (items : entries) :
  prompt_amounts keys lines = Some (items, rest) ->
  map fst items = keys /\ length lines = length keys + length rest.
Proof.
  revert lines rest items. induction keys as [|key keys IH]; intros lines rest items.
  - cbn. intros [= <- <-]. now split.
  - cbn [prompt_amounts]. unfold bind at 1. unfold prompt_num at 1. unfold bind at 1.
    unfold input. destruct lines as [|line lines]; [discriminate|]. unfold ret at 1.
    unfold bind at 1.
    destruct (prompt_amounts keys lines) as [[items' rest']|] eqn:E; [|discriminate].
    unfold ret. intros [= <- <-]. destruct (IH _ _ _ E) as [Hk Hl].
    cbn [map fst length]. split; [now rewrite Hk|lia].
Qed.

Lemma prompt_amounts_total (keys : list pystr) (lines : list pystr) :
  length keys <= length lines ->
  exists items rest, prompt_amounts keys lines = Some (items, rest).
Proof.
  revert lines. induction keys as [|key keys IH]; intros lines Hlen.
  - cbn. unfold ret. eauto.
  - destruct lines as [|line lines]; [cbn in Hlen; lia|].
    cbn [length] in Hlen. destruct (IH lines) as (items & rest & E); [lia|].
    cbn [prompt_amounts]. unfold bind at 1. unfold prompt_num at 1. unfold bind at 1.
    unfold input. unfold ret at 1. unfold bind at 1. rewrite E. unfold ret. eauto.
Qed.

Lemma collect_keys (today : pystr) (lines rest : list pystr) (data : entries) :
  collect_bilanco_data today lines = Some (data, rest) ->
  map fst data = [u "isletmeAdi"; u "bilancoTarihi"] ++ CLI_KEYS
  /\ length lines = 35 + length rest.
Proof.
  unfold collect_bilanco_data, prompt_str. unfold bind at 1 2. unfold input.
  destruct lines as [|l1 lines]; [discriminate|]. unfold ret at 1.
  unfold bind at 1 2. destruct lines as [|l2 lines]; [discriminate|]. unfold ret at 1.
  unfold bind at 1.
  destruct (prompt_amounts CLI_KEYS lines) as [[items rest']|] eqn:E; [|discriminate].
  unfold ret. intros [= <- <-]. destruct (prompt_amounts_keys _ _ E) as [Hk Hl].
  cbn [map fst app length]. rewrite Hk. split; [reflexivity|].
  rewrite Hl. reflexivity.
Qed.

Lemma collect_total (today : pystr) (lines : list pystr) :
  35 <= length lines ->
  exists data rest, collect_bilanco_data today lines = Some (data, rest).
Proof.
  intros Hlen. unfold collect_bilanco_data, prompt_str. unfold bind at 1 2. unfold input.
  destruct lines as [|l1 lines]; [cbn in Hlen; lia|]. unfold ret at 1.
  unfold bind at 1 2. destruct lines as [|l2 lines]; [cbn in Hlen; lia|]. unfold ret at 1.
  unfold bind at 1.
  destruct (@prompt_amounts_total CLI_KEYS lines) as (items & rest & E).
  { cbn [length] in Hlen. change (length CLI_KEYS) with 33. lia. }
  rewrite E. unfold ret. eauto.
Qed.

Lemma dict_get_absent {A} (d : dict A) (k : pystr) :
  ~ In k (map fst d) -> dict_get d k = None.
Proof.
  intros H. destruct (dict_get d k) as [v|] eqn:E; [|reflexivity].
  exfalso. apply H. apply dict_get_In in E. apply in_map_iff. now exists (k, v).
Qed.

(** A key of the totals is counted by the dialogue or unknown to it. *)
Lemma total_key_cases (k : pystr) :
  In k schema_keys \/ k = u "birikmiAmort" ->
  In k CLI_COUNTED \/ ~ In k ([u "isletmeAdi"; u "bilancoTarihi"] ++ CLI_KEYS).
Proof.
  assert (H : forallb (fun k => pystr_in k CLI_COUNTED
                          || negb (pystr_in k ([u "isletmeAdi"; u "bilancoTarihi"]
                                                 ++ CLI_KEYS)))
                (u "birikmiAmort" :: schema_keys) = true) by (vm_compute; reflexivity).
  rewrite forallb_forall in H. intros Hk.
  assert (Hin : In k (u "birikmiAmort" :: schema_keys)) by (cbn [In]; intuition).
  specialize (H k Hin). apply orb_true_iff in H as [H|H].
  - left. now apply pystr_in_In.
  - right. intros Hc. apply pystr_in_In in Hc. rewrite Hc in H. discriminate.
Qed.

(** Whatever is answered in the dialogue, the totals of the short-term
    and of the long-term liabilities are 0.0, so the liquidity ratio is
    the current assets divided by 1; and the other three totals depend
    on five of the thirty-three amounts only: two dialogues whose data
    agree on [digerDonenVarliklar], [ticariAlacaklar], [birikmiAmort],
    [digerDuranVarliklar] and [odenmisSermaye] have the same totals. *)
Theorem cli_counts_five_answers (today : pystr) (lines rest : list pystr)
    (data : entries) :
  collect_bilanco_data today lines = Some (data, rest) ->
  sum_kv_yabanci_kaynaklar data = 0%float
  /\ sum_uv_yabanci_kaynaklar data = 0%float
  /\ likidite_orani (sum_donen_varliklar data) (sum_kv_yabanci_kaynaklar data)
     = Some (sum_donen_varliklar data / 1)%float
  /\ forall today' lines' rest' data',
       collect_bilanco_data today' lines' = Some (data', rest') ->
       (forall k, In k CLI_COUNTED -> dict_get data k = dict_get data' k) ->
       sum_donen_varliklar data = sum_donen_varliklar data'
       /\ sum_duran_varliklar data = sum_duran_varliklar data'
       /\ sum_oz_kaynaklar data = sum_oz_kaynaklar data'.
Proof.
  intros Hc. destruct (collect_keys _ _ Hc) as [Hkeys _].
  assert (Hzero : forall keys,
            (forall k, In k keys -> In k schema_keys /\ ~ In k CLI_COUNTED) ->
            fold_left (add_entry data) keys 0%float = 0%float).
  { intros keys Hk. apply sum_keys_falsy. intros k Hin.
    destruct (Hk k Hin) as [Hs Hn].
    destruct (total_key_cases (or_introl Hs)) as [H|H]; [contradiction|].
    rewrite <- Hkeys in H. unfold dict_get_or. now rewrite (dict_get_absent _ _ H). }
  assert (Hkv : sum_kv_yabanci_kaynaklar data = 0%float).
  { apply Hzero. intros k Hin. split.
    - rewrite schema_keys_split, !in_app_iff. tauto.
    - intros Hn. apply pystr_in_In in Hin.
      revert Hin. cbn [In CLI_COUNTED] in Hn.
      destruct Hn as [<-|[<-|[<-|[<-|[<-|[]]]]]]; vm_compute; discriminate. }
  assert (Huv : sum_uv_yabanci_kaynaklar data = 0%float).
  { apply Hzero. intros k Hin. split.
    - rewrite schema_keys_split, !in_app_iff. tauto.
    - intros Hn. apply pystr_in_In in Hin.
      revert Hin. cbn [In CLI_COUNTED] in Hn.
      destruct Hn as [<-|[<-|[<-|[<-|[<-|[]]]]]]; vm_compute; discriminate. }
  split; [exact Hkv|]. split; [exact Huv|]. split.
  - rewrite likidite_orani_total, Hkv. reflexivity.
  - intros today' lines' rest' data' Hc' Hagree.
    destruct (collect_keys _ _ Hc') as [Hkeys' _].
    assert (Hall : forall k, In k schema_keys \/ k = u "birikmiAmort" ->
                     dict_get data k = dict_get data' k).
    { intros k Hk. destruct (total_key_cases Hk) as [H|H]; [now apply Hagree|].
      rewrite (dict_get_absent data k) by now rewrite Hkeys.
      rewrite (dict_get_absent data' k) by now rewrite Hkeys'.
      reflexivity. }
    assert (Hs : forall keys, (forall k, In k keys -> In k schema_keys) ->
               fold_left (add_entry data) keys 0%float
               = fold_left (add_entry data') keys 0%float).
    { intros keys Hk. apply sum_keys_agree. intros k Hin. apply Hall. left. now apply Hk. }
    unfold sum_donen_varliklar, sum_duran_varliklar, sum_oz_kaynaklar, dict_get_or.
    rewrite <- (Hall (u "birikmiAmort")) by now right.
    rewrite !Hs; [repeat split; reflexivity|..];
      intros k Hk; rewrite schema_keys_split, !in_app_iff; tauto.
Qed.

Lemma kritik_sayisi_pos (errors : list finding) :
  (0 <? length (filter is_kritik errors))%nat = existsb is_kritik errors.
Proof.
  induction errors as [|e l IH]; [reflexivity|].
  cbn [filter existsb]. destruct (is_kritik e); [reflexivity|exact IH].
Qed.

(** With the thirty-five answers of the dialogue, [cli_main] ends
    without an exception: with a critical finding it returns 1 and
    writes nothing, otherwise it returns 0 and writes the document to
    the file "bilanco_tablolari_None.json", the same name for every
    run, since the document's [_id] is still [None]. *)
Theorem cli_main_outcome (today now : pystr) (lines : list pystr) :
  35 <= length lines ->
  exists data rest errors doc,
    collect_bilanco_data today lines = Some (data, rest)
    /\ validate data = Some errors
    /\ build_mongo_like_document data errors now = Some doc
    /\ cli_main today now lines
       = Some (if existsb is_kritik errors then (1%Z, None)
               else (0%Z, Some (u "bilanco_tablolari_None.json", doc))).
Proof.
  intros Hlen. destruct (@collect_total today lines Hlen) as (data & rest & Hc).
  exists data, rest.
  assert (Hv : exists errors, validate data = Some errors).
  { unfold validate. rewrite likidite_orani_total. eauto. }
  destruct Hv as [errors Hv]. exists errors.
  assert (Hb : exists fields,
             build_mongo_like_document data errors now
             = Some (DObj ((u "_id", DVal VNone) :: fields))).
  { unfold build_mongo_like_document. cbv zeta. rewrite likidite_orani_total.
    destruct (yuzde_total (sum_oz_kaynaklar data)
                (sum_donen_varliklar data + sum_duran_varliklar data)) as [q1 ->].
    destruct (yuzde_total (sum_kv_yabanci_kaynaklar data + sum_uv_yabanci_kaynaklar data)
                (sum_donen_varliklar data + sum_duran_varliklar data)) as [q2 ->].
    eauto. }
  destruct Hb as [fields Hb]. eexists. split; [exact Hc|]. split; [exact Hv|].
  split; [exact Hb|].
  unfold cli_main. rewrite Hc, Hv. cbv zeta. rewrite kritik_sayisi_pos.
  destruct (existsb is_kritik errors); [reflexivity|].
  rewrite Hb. cbn [doc_field dict_get].
  change (pystr_eqb (u "_id") (u "_id")) with true. cbv iota.
  reflexivity.
Qed.

End CommandLine.

(* ================================================================== *)
(** * Concrete instances *)
(* ================================================================== *)

(** C3 (as stated): [validate] does not return exactly three findings on
    the negative-equity scenario. *)
Lemma negative_equity_not_three_findings :
  ~ exists a b c,
      @validate text_blind_runtime negative_equity_scenario = Some [a; b; c].
Proof.
  intros (a & b & c & H). vm_compute in H. discriminate.
Qed.

(** C5 (as stated): in [colliding_groups_book] the two rows labelled
    "Diğer Borçlar" follow the header rows of two different groups,
    Özkaynaklar and Uzun Vadeli Yükümlülükler; both are stored under
    [digerBorclarUV], the second amount replacing the first. *)
Lemma diger_borclar_groups_collide :
  @group_header text_blind_runtime (Layout true 1 0 2 1)
    [VStr (u "Özkaynaklar"); VNone] = Some (_normalize (u "Özkaynaklar"))
  /\ @group_header text_blind_runtime (Layout true 1 0 2 1)
       [VStr (u "Uzun Vadeli Yükümlülükler"); VNone]
     = Some (_normalize (u "Uzun Vadeli Yükümlülükler"))
  /\ _normalize (u "Özkaynaklar") <> _normalize (u "Uzun Vadeli Yükümlülükler")
  /\ fst (fold_left (@step text_blind_runtime (Layout true 1 0 2 1))
            [ [VStr (u "Özkaynaklar"); VNone]; [VStr (u "Diğer Borçlar"); VInt 10] ]
            ([], None))
     = [(u "digerBorclarUV", VFloat 10)]
  /\ @load_from_excel text_blind_runtime colliding_groups_book
     = [(u "digerBorclarUV", VFloat 20)].
Proof.
  repeat split; try (vm_compute; reflexivity).
  vm_compute. discriminate.
Qed.

(** The round trip at the mapping
    [{stoklar: 12.5, maddiDuranVarliklar: 1000}]. *)
Lemma excel_round_trip_witness :
  exists wb,
    reload (@save_to_excel text_blind_runtime
              [(u "stoklar", VFloat 12.5); (u "maddiDuranVarliklar", VInt 1000)]) = Some wb
    /\ dict_get (@load_from_excel text_blind_runtime wb) (u "stoklar")
       = Some (VFloat 12.5)
    /\ dict_get (@load_from_excel text_blind_runtime wb) (u "maddiDuranVarliklar")
       = Some (VFloat 1000).
Proof.
  destruct (@excel_round_trip text_blind_runtime
              [(u "stoklar", VFloat 12.5); (u "maddiDuranVarliklar", VInt 1000)])
    as (wb & Hwb & Hval).
  - intros key _. cbn [dict_get].
    destruct (pystr_eqb key (u "stoklar")); [vm_compute; reflexivity|].
    destruct (pystr_eqb key (u "maddiDuranVarliklar")); vm_compute; reflexivity.
  - vm_compute. discriminate.
  - vm_compute. discriminate.
  - exists wb. split; [exact Hwb|]. split.
    + rewrite (proj1 (Hval (u "stoklar")
                        ltac:(apply pystr_in_In; vm_compute; reflexivity))).
      vm_compute. reflexivity.
    + rewrite (proj1 (Hval (u "maddiDuranVarliklar")
                        ltac:(apply pystr_in_In; vm_compute; reflexivity))).
      vm_compute. reflexivity.
Defined.

(** C4 (as stated): the amount 123456789012345680.0 under [stoklar] is
    written as the numeral 1.234567890123457e+17 and read back as
    123456789012345696.0, sixteen away from it. *)
Lemma excel_round_trip_not_within_tolerance :
  exists wb,
    reload (@save_to_excel text_blind_runtime
              [(u "stoklar", VFloat 123456789012345680)]) = Some wb
    /\ dict_get (@load_from_excel text_blind_runtime wb) (u "stoklar")
       = Some (VFloat 123456789012345696)
    /\ (1e-9 <? abs (123456789012345680 - 123456789012345696))%float = true.
Proof.
  eexists. split; [vm_compute; reflexivity|].
  split; vm_compute; reflexivity.
Qed.

(** Group scoping on the rows of [two_groups_book]. *)
Lemma diger_borclar_group_scoped_witness :
  @load_from_excel text_blind_runtime two_groups_book
  = [(u "digerBorclarKV", VFloat 10); (u "digerBorclarUV", VFloat 20)]
  /\ exists d',
       fold_left (@step text_blind_runtime (Layout true 1 0 2 1))
         [ [VStr (u "Kısa Vadeli Yükümlülükler"); VNone] ] ([], None)
       = (d', Some (_normalize (u "Kısa Vadeli Yükümlülükler")))
       /\ @step text_blind_runtime (Layout true 1 0 2 1)
            (d', Some (_normalize (u "Kısa Vadeli Yükümlülükler")))
            [VStr (u "Diğer Borçlar"); VInt 10]
          = (dict_set d' (u "digerBorclarKV") (VFloat 10),
             Some (_normalize (u "Kısa Vadeli Yükümlülükler"))).
Proof.
  split; [vm_compute; reflexivity|].
  refine (proj1 (@diger_borclar_group_scoped text_blind_runtime
                   (Layout true 1 0 2 1) ([], None)
                   [VStr (u "Kısa Vadeli Yükümlülükler"); VNone] []
                   [VStr (u "Diğer Borçlar"); VInt 10]
                   (_normalize (u "Kısa Vadeli Yükümlülükler"))
                   _ _ _ _ _ _)).
  - left. reflexivity.
  - vm_compute. reflexivity.
  - constructor.
  - reflexivity.
  - vm_compute. reflexivity.
  - left. reflexivity.
Defined.

(** The headerless two-column sheet ("Stoklar", 5) yields no entry. *)
Lemma simple_format_skips_first_row_witness :
  max_column [ [VStr (u "Stoklar"); VInt 5] ] <= 2
  /\ @load_from_excel text_blind_runtime headerless_book = [].
Proof.
  assert (H : max_column [ [VStr (u "Stoklar"); VInt 5] ] <= 2)
    by (vm_compute; repeat constructor).
  split; [exact H|].
  exact (proj1 (proj2 (@simple_format_skips_first_row text_blind_runtime
                         (u "Sayfa1") [VStr (u "Stoklar"); VInt 5] [] [] H))).
Defined.

(** The key "fooBar" of [foreign_key_book] reaches the mapping. *)
Lemma detailed_key_cell_verbatim_witness :
  dict_mem (@load_from_excel text_blind_runtime foreign_key_book) (u "fooBar") = true.
Proof.
  refine (proj1 (proj2 (@detailed_key_cell_verbatim text_blind_runtime
                          foreign_key_book
                          [VStr (u "AKTIF"); VStr (u "Dönen Varlıklar");
                           VStr (u "Stoklar"); VStr (u "fooBar"); VInt 5]
                          _ _ _ _))).
  - vm_compute. reflexivity.
  - vm_compute. left. reflexivity.
  - vm_compute. reflexivity.
  - vm_compute. reflexivity.
Defined.

(** The alias "Donem Kari Vergi Yukumlulugu" on the two paths. *)
Lemma alias_only_on_detailed_path_witness :
  fst (@step text_blind_runtime (Layout true 1 0 2 1) ([], None)
         [VStr (u "Donem Kari Vergi Yukumlulugu"); VInt 5]) = []
  /\ @step text_blind_runtime (Layout false 1 4 5 3) ([], None)
       [VNone; VNone; VStr (u "Donem Kari Vergi Yukumlulugu"); VNone; VInt 5]
     = ([(u "donemKariVergiYukumluluguKV", VFloat 5)], None).
Proof.
  assert (H : (forall rest,
                 fst (@step text_blind_runtime (Layout true 1 0 2 1) ([], None)
                        (VStr (u "Donem Kari Vergi Yukumlulugu") :: rest)) = [])
              /\ (forall h r,
                    cell_at r 4 = VNone ->
                    cell_at r 3 = VStr (u "Donem Kari Vergi Yukumlulugu") ->
                    (is_None (cell_at r 5) || str_blank (cell_at r 5)) = false ->
                    @step text_blind_runtime (Layout false h 4 5 3) ([], None) r
                    = (dict_set [] (u "donemKariVergiYukumluluguKV")
                         (VFloat (@amount_of text_blind_runtime (cell_at r 5))), None))).
  { refine (@alias_only_on_detailed_path text_blind_runtime [] None
              (VStr (u "Donem Kari Vergi Yukumlulugu"))
              (u "donemKariVergiYukumluluguKV") _ _ _).
    - reflexivity.
    - vm_compute. reflexivity.
    - vm_compute. reflexivity. }
  split.
  - exact (proj1 H [VInt 5]).
  - exact (proj2 H 1
             [VNone; VNone; VStr (u "Donem Kari Vergi Yukumlulugu"); VNone; VInt 5]
             eq_refl eq_refl eq_refl).
Defined.

(** ** Instances of the further properties *)

(** "kasa" is a key of the command-line dialogue, not of the schema. *)
Lemma kasa_not_schema (k : pystr) :
  In k schema_keys \/ k = u "birikmiAmort" -> pystr_eqb k (u "kasa") = false.
Proof.
  intros H. destruct (pystr_eqb k (u "kasa")) eqn:E; [|reflexivity].
  apply pystr_eqb_eq in E. subst k. destruct H as [H|H].
  - apply pystr_in_In in H. vm_compute in H. discriminate.
  - vm_compute in H. discriminate.
Qed.

(** An amount under "kasa" changes none of the five sums. *)
Lemma totals_read_schema_keys_only_witness :
  @sum_donen_varliklar text_blind_runtime schema_key_scenario
  = @sum_donen_varliklar text_blind_runtime
      (schema_key_scenario ++ [(u "kasa", VFloat 500)])
  /\ @sum_duran_varliklar text_blind_runtime schema_key_scenario
     = @sum_duran_varliklar text_blind_runtime
         (schema_key_scenario ++ [(u "kasa", VFloat 500)])
  /\ @sum_kv_yabanci_kaynaklar text_blind_runtime schema_key_scenario
     = @sum_kv_yabanci_kaynaklar text_blind_runtime
         (schema_key_scenario ++ [(u "kasa", VFloat 500)])
  /\ @sum_uv_yabanci_kaynaklar text_blind_runtime schema_key_scenario
     = @sum_uv_yabanci_kaynaklar text_blind_runtime
         (schema_key_scenario ++ [(u "kasa", VFloat 500)])
  /\ @sum_oz_kaynaklar text_blind_runtime schema_key_scenario
     = @sum_oz_kaynaklar text_blind_runtime
         (schema_key_scenario ++ [(u "kasa", VFloat 500)]).
Proof.
  apply (@totals_read_schema_keys_only text_blind_runtime schema_key_scenario
           (schema_key_scenario ++ [(u "kasa", VFloat 500)])).
  intros k Hk. unfold schema_key_scenario. cbn [app dict_get].
  now rewrite (kasa_not_schema Hk).
Defined.

(** Entries with an amount under "kasa" only make an empty sheet. *)
Lemma validate_zero_sheet_witness :
  exists errors,
    @validate text_blind_runtime [(u "kasa", VFloat 100)]
    = Some (errors ++ [Finding uyari (LikiditeDusuk 0); Finding uyari BilancoBos])
    /\ filter is_kritik errors = [].
Proof.
  apply (@validate_zero_sheet text_blind_runtime [(u "kasa", VFloat 100)]).
  intros k Hk. unfold dict_get_or. cbn [dict_get].
  now rewrite (kasa_not_schema Hk).
Defined.

Lemma parse_float_blank_witness :
  forallb py_isspace (u "   ") = true
  /\ @parse_float text_blind_runtime (u "   ") = 0%float.
Proof.
  assert (H : forallb py_isspace (u "   ") = true) by (vm_compute; reflexivity).
  split; [exact H|].
  exact (@parse_float_blank text_blind_runtime (u "   ") H).
Defined.

Lemma gui_collect_data_shape_witness :
  @gui_collect_data text_blind_runtime
    [(u "isletmeAdi", u "Acme"); (u "stoklar", u "12,5")]
  = map (fun kv => (fst kv, @gui_value text_blind_runtime kv))
      [(u "isletmeAdi", u "Acme"); (u "stoklar", u "12,5")].
Proof.
  apply (@gui_collect_data_shape text_blind_runtime
           [(u "isletmeAdi", u "Acme"); (u "stoklar", u "12,5")]).
  apply distinct_keys_NoDup. vm_compute. reflexivity.
Defined.

(** The filled form, with amounts read by [decimal_runtime]. *)
Lemma form_excel_round_trip_witness :
  dict_get (@gui_collect_data decimal_runtime filled_form) (u "stoklar")
  = Some (VFloat 12.5)
  /\ exists wb,
       reload (@save_to_excel decimal_runtime
                 (@gui_collect_data decimal_runtime filled_form)) = Some wb
       /\ @load_from_excel decimal_runtime wb
          = @gui_collect_data decimal_runtime filled_form.
Proof.
  split; [vm_compute; reflexivity|].
  assert (Hschema : forall k, In k schema_keys ->
            ~ In k [u "isletmeAdi"; u "bilancoTarihi"]).
  { intros k Hk Hn. apply schema_key_not_text in Hk. apply pystr_in_In in Hn.
    congruence. }
  apply (@form_excel_round_trip decimal_runtime filled_form).
  - vm_compute. reflexivity.
  - intros k s Hin Hk. unfold filled_form in Hin. cbn [In] in Hin.
    destruct Hin as [[= <- <-]|[[= <- <-]|Hin]].
    + exfalso. apply (Hschema _ Hk). now left.
    + exfalso. apply (Hschema _ Hk). right. now left.
    + apply in_map_iff in Hin as (k' & [= <- <-] & _).
      destruct (pystr_eqb k' (u "stoklar")).
      * split; [vm_compute; reflexivity|].
        split; [vm_compute; discriminate|vm_compute; reflexivity].
      * split; [vm_compute; reflexivity|].
        split; [vm_compute; discriminate|vm_compute; reflexivity].
  - intros k s Hin Hk. unfold filled_form in Hin. cbn [In] in Hin.
    destruct Hin as [[= <- <-]|[[= <- <-]|Hin]].
    + right. vm_compute. reflexivity.
    + right. vm_compute. reflexivity.
    + exfalso. apply in_map_iff in Hin as (k' & [= <- <-] & Hk').
      exact (Hschema _ Hk' Hk).
Defined.

Lemma export_reads_schema_keys_only_witness :
  @build_excel_rows_from_data text_blind_runtime schema_key_scenario
  = @build_excel_rows_from_data text_blind_runtime
      (schema_key_scenario ++ [(u "kasa", VFloat 500)])
  /\ map (fun t : pystr * pystr * pystr * pystr * float =>
            match t with (_, _, _, key, _) => key end)
       (@build_excel_rows_from_data text_blind_runtime schema_key_scenario)
     = schema_keys.
Proof.
  apply (@export_reads_schema_keys_only text_blind_runtime schema_key_scenario
           (schema_key_scenario ++ [(u "kasa", VFloat 500)])).
  intros k Hk. unfold schema_key_scenario. cbn [app dict_get].
  now rewrite (kasa_not_schema (or_introl Hk)).
Defined.

(** 12,345.67 becomes 12.345,67. *)
Lemma format_tl_swaps_separators_witness :
  format_tl (fun _ => u "12,345.67") 12345.67%float
  = map swap_separators (u "12,345.67")
  /\ map swap_separators (u "12,345.67") = u "12.345,67".
Proof.
  split; [|vm_compute; reflexivity].
  apply (@format_tl_swaps_separators (fun _ => u "12,345.67") 12345.67%float).
  intros H. vm_compute in H.
  repeat (destruct H as [H|H]; [discriminate H|]). exact H.
Defined.

Lemma next_id_is_fresh_witness :
  descending (int_ids [VInt 7; VStr (u "a1"); VInt 3]) = true
  /\ (forall z, In (VInt z) [VInt 7; VStr (u "a1"); VInt 3] ->
        (z < _compute_next_id (Some [VInt 7; VStr (u "a1"); VInt 3]))%Z).
Proof.
  assert (H : descending (int_ids [VInt 7; VStr (u "a1"); VInt 3]) = true)
    by (vm_compute; reflexivity).
  split; [exact H|].
  exact (proj1 (@next_id_is_fresh [VInt 7; VStr (u "a1"); VInt 3] H)).
Defined.

(** "Diğer Alacaklar" under the fixed assets. *)
Lemma label_resolves_in_its_group_witness :
  exists d',
    fold_left (@step text_blind_runtime (Layout true 1 0 2 1))
      [ [VStr (u "Duran Varlıklar"); VNone] ] ([], None)
    = (d', Some (_normalize (u "Duran Varlıklar")))
    /\ @step text_blind_runtime (Layout true 1 0 2 1)
         (d', Some (_normalize (u "Duran Varlıklar")))
         [VStr (u "DİĞER ALACAKLAR"); VInt 10]
       = (dict_set d' (u "digerAlacaklarDuran") (VFloat 10),
          Some (_normalize (u "Duran Varlıklar"))).
Proof.
  refine (@label_resolves_in_its_group text_blind_runtime
            (Layout true 1 0 2 1) ([], None)
            [VStr (u "Duran Varlıklar"); VNone] []
            [VStr (u "DİĞER ALACAKLAR"); VInt 10]
            (u "AKTIF") (u "Duran Varlıklar") (u "Diğer Alacaklar")
            (u "digerAlacaklarDuran") _ _ _ _ _ _).
  - vm_compute. tauto.
  - vm_compute. reflexivity.
  - constructor.
  - reflexivity.
  - vm_compute. reflexivity.
  - left. reflexivity.
Defined.

Lemma grouped_sheet_read_back_witness :
  In (u "stoklar") schema_keys
  /\ dict_get (@load_from_excel text_blind_runtime
                 (Workbook (u "Sayfa1", grouped_sheet (fun _ => 2.5%float)) []))
       (u "stoklar")
     = Some (VFloat 2.5).
Proof.
  assert (H : In (u "stoklar") schema_keys)
    by (apply pystr_in_In; vm_compute; reflexivity).
  split; [exact H|].
  exact (@grouped_sheet_read_back text_blind_runtime (fun _ => 2.5%float)
           (u "Sayfa1") [] (u "stoklar") H).
Defined.

Lemma two_column_sheet_keys_witness :
  dict_mem (@load_from_excel text_blind_runtime two_groups_book) (u "digerBorclarUV")
  = true
  /\ In (u "digerBorclarUV") form_keys.
Proof.
  assert (H : dict_mem (@load_from_excel text_blind_runtime two_groups_book)
                (u "digerBorclarUV") = true) by (vm_compute; reflexivity).
  split; [exact H|].
  refine (@two_column_sheet_keys text_blind_runtime two_groups_book
            (u "digerBorclarUV") _ H).
  vm_compute. repeat constructor.
Defined.

Lemma empty_row_ignored_witness :
  @step text_blind_runtime (Layout false 1 4 5 3)
    ([(u "stoklar", VFloat 1)], Some (u "donen varliklar"))
    [VNone; VNone; VNone; VNone; VNone]
  = ([(u "stoklar", VFloat 1)], Some (u "donen varliklar")).
Proof.
  apply (@empty_row_ignored text_blind_runtime). reflexivity.
Defined.

(** The keys of the assets in the order of the lists and in the reverse
    order. *)
Lemma aktif_loop_any_order_witness :
  @fill_all text_blind_runtime
    (flat_map (fun key => [([(u "stoklar", DVal (VInt 5))], key, key);
                           ([(u "serefiye", DVal (VInt 7))], key, key)])
       (py_set (DONEN_KEYS ++ DURAN_KEYS ++ [u "birikmiAmort"])))
    (initial_vars_map (u "2024-12-31"))
  = @fill_all text_blind_runtime
      (flat_map (fun key => [([(u "stoklar", DVal (VInt 5))], key, key);
                             ([(u "serefiye", DVal (VInt 7))], key, key)])
         (rev (py_set (DONEN_KEYS ++ DURAN_KEYS ++ [u "birikmiAmort"]))))
      (initial_vars_map (u "2024-12-31")).
Proof.
  apply (@aktif_loop_any_order text_blind_runtime).
  - apply Permutation_rev.
  - apply distinct_keys_NoDup. vm_compute. reflexivity.
Defined.

(** The document of the entries with a schema key on each side, opened
    in the form as the program starts it. *)
Lemma saved_document_restores_six_fields_witness :
  exists doc vars',
    @build_mongo_like_document text_blind_runtime schema_key_scenario []
      (u "2024-12-31T00:00:00") = Some doc
    /\ @open_document text_blind_runtime doc (initial_vars_map (u "2024-12-31"))
       = Some vars'
    /\ map fst vars' = form_keys
    /\ dict_get vars' (u "isletmeAdi")
       = Some (@py_str text_blind_runtime
                 (dict_get_or schema_key_scenario (u "isletmeAdi") (VStr [])))
    /\ dict_get vars' (u "bilancoTarihi")
       = Some (@py_str text_blind_runtime
                 (dict_get_or schema_key_scenario (u "bilancoTarihi") (VStr [])))
    /\ (forall key, In key restored_amounts ->
          dict_get vars' key
          = Some (@py_str text_blind_runtime
                    (dict_get_or schema_key_scenario key (VInt 0))))
    /\ (forall key, ~ In key restored_keys ->
          dict_get vars' key = dict_get (initial_vars_map (u "2024-12-31")) key).
Proof.
  apply (@saved_document_restores_six_fields text_blind_runtime schema_key_scenario []
           (u "2024-12-31T00:00:00") (initial_vars_map (u "2024-12-31"))).
  apply initial_vars_map_keys.
Defined.

(** A dialogue of thirty-five answers, 100 for every amount: the data
    hold 100.0 thirty-three times, the current assets count one of them,
    the liabilities none. *)
Lemma cli_counts_five_answers_witness :
  @collect_bilanco_data decimal_runtime (u "2024-12-31")
    (u "Acme" :: u "" :: repeat (u "100") 33)
  = Some ((u "isletmeAdi", VStr (u "Acme")) :: (u "bilancoTarihi", VStr (u "2024-12-31"))
          :: map (fun k => (k, VFloat 100)) CLI_KEYS, [])
  /\ @sum_donen_varliklar decimal_runtime
       ((u "isletmeAdi", VStr (u "Acme")) :: (u "bilancoTarihi", VStr (u "2024-12-31"))
        :: map (fun k => (k, VFloat 100)) CLI_KEYS) = 100%float
  /\ @sum_kv_yabanci_kaynaklar decimal_runtime
       ((u "isletmeAdi", VStr (u "Acme")) :: (u "bilancoTarihi", VStr (u "2024-12-31"))
        :: map (fun k => (k, VFloat 100)) CLI_KEYS) = 0%float
  /\ @sum_uv_yabanci_kaynaklar decimal_runtime
       ((u "isletmeAdi", VStr (u "Acme")) :: (u "bilancoTarihi", VStr (u "2024-12-31"))
        :: map (fun k => (k, VFloat 100)) CLI_KEYS) = 0%float.
Proof.
  assert (H : @collect_bilanco_data decimal_runtime (u "2024-12-31")
                (u "Acme" :: u "" :: repeat (u "100") 33)
              = Some ((u "isletmeAdi", VStr (u "Acme"))
                      :: (u "bilancoTarihi", VStr (u "2024-12-31"))
                      :: map (fun k => (k, VFloat 100)) CLI_KEYS, []))
    by (vm_compute; reflexivity).
  split; [exact H|]. split; [vm_compute; reflexivity|].
  pose proof (@cli_counts_five_answers decimal_runtime _ _ _ _ H) as (Hkv & Huv & _).
  split; [exact Hkv|exact Huv].
Defined.

Lemma cli_main_outcome_witness :
  exists data rest errors doc,
    @collect_bilanco_data text_blind_runtime (u "2024-12-31")
      (u "Acme" :: u "" :: repeat (u "100") 33) = Some (data, rest)
    /\ @validate text_blind_runtime data = Some errors
    /\ @build_mongo_like_document text_blind_runtime data errors
         (u "2024-12-31T00:00:00") = Some doc
    /\ @cli_main text_blind_runtime (u "2024-12-31") (u "2024-12-31T00:00:00")
         (u "Acme" :: u "" :: repeat (u "100") 33)
       = Some (if existsb is_kritik errors then (1%Z, None)
               else (0%Z, Some (u "bilanco_tablolari_None.json", doc))).
Proof.
  apply (@cli_main_outcome text_blind_runtime (u "2024-12-31")
           (u "2024-12-31T00:00:00") (u "Acme" :: u "" :: repeat (u "100") 33)).
  apply Nat.leb_le. reflexivity.
Defined.
